(** * market-metrics: the retrieval, fallback, aggregation and export pipeline

    A shallow embedding of [src/market-metrics.py] (class [USMarketMetrics])
    and the properties of its specification.

    - Python floats and pandas float64 cells are IEEE 754 binary64 numbers:
      Rocq's primitive [float].
    - A Python [dict] is an association list in insertion order; assigning
      to a key that is present keeps its position.
    - Exceptions are explicit: a computation is a function from the state of
      the instance (export path, header flag, logger, sink file) to a result
      or a raised exception, together with the new state.  A raise keeps the
      state reached so far, as in Python.
    - The providers (quote service, FRED, spreadsheet download and parsing,
      clock, file system faults) are the fields of a [World]: what each call
      answers during one top-level call. *)

From Stdlib Require Import String Ascii List ZArith Bool Lia Floats DecimalString.
Import ListNotations.

Set Warnings "-inexact-float,-register-all".

#[local] Open Scope string_scope.
#[local] Open Scope list_scope.

(** ** Python values *)

Inductive PyVal : Type :=
| VNone
| VFloat (x : float)
| VStr (s : string)
| VDate (iso : string)   (* a datetime / Timestamp cell, by its '%Y-%m-%d' rendering *)
| VDict (d : list (string * PyVal)).

Definition Dict := list (string * PyVal).

Definition isinstance_dict (v : PyVal) : bool :=
  match v with VDict _ => true | _ => false end.

Module PyDict.

(** [k in d] *)
Fixpoint contains (k : string) (d : Dict) : bool :=
  match d with
  | [] => false
  | (k', _) :: d' => if String.eqb k k' then true else contains k d'
  end.

(** [d.get(k)] *)
Fixpoint get (k : string) (d : Dict) : option PyVal :=
  match d with
  | [] => None
  | (k', v) :: d' => if String.eqb k k' then Some v else get k d'
  end.

(** [d[k] = v]: overwrite in place, or append a new last entry. *)
Fixpoint set (k : string) (v : PyVal) (d : Dict) : Dict :=
  match d with
  | [] => [(k, v)]
  | (k', v') :: d' =>
      if String.eqb k k' then (k', v) :: d' else (k', v') :: set k v d'
  end.

(** [d.pop(k)] on a key that is present: the entry leaves the dict. *)
Fixpoint remove (k : string) (d : Dict) : Dict :=
  match d with
  | [] => []
  | (k', v') :: d' =>
      if String.eqb k k' then d' else (k', v') :: remove k d'
  end.

Definition keys (d : Dict) : list string := map fst d.

End PyDict.

(** ** Floats as Python sees them *)

Module PyFloat.
#[local] Open Scope float_scope.

(** Truth value of a number: everything but zero (NaN is true). *)
Definition truthy (x : float) : bool := negb (x =? 0).

Definition is_nan (x : float) : bool := PrimFloat.is_nan x.
Definition is_inf (x : float) : bool := PrimFloat.is_infinity x.

(** [int(x)]: truncation toward zero; [None] stands for the ValueError
    (NaN) and OverflowError (infinity) that [int] raises. *)
Definition to_int (x : float) : option Z :=
  match Prim2SF x with
  | S754_zero _ => Some 0%Z
  | S754_finite s m e =>
      let a := if (0 <=? e)%Z then Z.shiftl (Zpos m) e
               else Z.shiftr (Zpos m) (- e) in
      Some (if s then (- a)%Z else a)
  | S754_infinity _ | S754_nan => None
  end.

(** [round(x)] with no digits: nearest integer, ties to even. *)
Definition round_int (x : float) : option Z :=
  match Prim2SF x with
  | S754_zero _ => Some 0%Z
  | S754_finite s m e =>
      let a :=
        if (0 <=? e)%Z then Z.shiftl (Zpos m) e
        else
          let q := Z.shiftr (Zpos m) (- e) in
          let r := (Zpos m - Z.shiftl q (- e))%Z in
          let half := Z.shiftl 1 (- e - 1) in
          match (r ?= half)%Z with
          | Lt => q
          | Gt => (q + 1)%Z
          | Eq => if Z.even q then q else (q + 1)%Z
          end in
      Some (if s then (- a)%Z else a)
  | S754_infinity _ | S754_nan => None
  end.

(** [float(n)] for an integer of magnitude below 2^63 (exact up to 2^53,
    correctly rounded above). *)
Definition of_int (n : Z) : float :=
  if (n <? 0)%Z then - (PrimFloat.of_uint63 (Uint63.of_Z (- n)))
  else PrimFloat.of_uint63 (Uint63.of_Z n).

(** The digits of [f"{x:.2f}"]: the exact value of [x] in hundredths,
    rounded to the nearest integer, ties to even (1000 for "10.00"). *)
Definition hundredths (x : float) : option Z :=
  match Prim2SF x with
  | S754_zero _ => Some 0%Z
  | S754_finite s m e =>
      let a :=
        if (0 <=? e)%Z then (100 * Z.shiftl (Zpos m) e)%Z
        else
          let den := Z.shiftl 1 (- e) in
          let q := (100 * Zpos m / den)%Z in
          let r := (100 * Zpos m mod den)%Z in
          match (2 * r ?= den)%Z with
          | Lt => q
          | Gt => (q + 1)%Z
          | Eq => if Z.even q then q else (q + 1)%Z
          end in
      Some (if s then (- a)%Z else a)
  | S754_infinity _ | S754_nan => None
  end.

End PyFloat.

(** ** Exceptions, the logger, the instance state *)

(** An exception by its class name and its [str(e)] text. *)
Record Exn := mkExn { exn_class : string; exn_text : string }.

Inductive Result (A : Type) : Type :=
| Ok (a : A)
| Raise (e : Exn).
Arguments Ok {A} a.
Arguments Raise {A} e.

Inductive Level := ERROR | WARNING.

(** One record of [self.logger].  Only the error and warning records are
    kept: info records and console prints decide nothing, and where building
    their text can itself raise, the raise is modelled at that place. *)
Record LogRecord := mkLog { level : Level; message : string }.

(** The six columns of the export file. *)
Record Row := mkRow {
  metric : string;
  sub_metric : string;
  value : PyVal;
  timestamp : PyVal;
  source : PyVal;
  retrieval_time : string
}.

(** A line of the sink: the header that [writer.writeheader()] emits, or a
    data line written by [writer.writerow(row)]. *)
Inductive CsvLine :=
| Header
| Data (r : Row).

Definition fieldnames : list string :=
  ["metric"; "sub_metric"; "value"; "timestamp"; "source"; "retrieval_time"].

(** The text of the header line, before the line terminator. *)
Definition header_text : string := String.concat "," fieldnames.

(** The instance fields that change, and the file behind
    [self.csv_export_path]: [None] when the file does not exist, else its
    lines ([Some []] is a file of size 0). *)
Record State := mkState {
  csv_export_path : option string;
  csv_headers_written : bool;
  logger : list LogRecord;
  sink : option (list CsvLine)
}.

Definition M (A : Type) : Type := State -> Result A * State.

Definition ret {A} (a : A) : M A := fun st => (Ok a, st).

Definition bind {A B} (m : M A) (k : A -> M B) : M B :=
  fun st =>
    match m st with
    | (Ok a, st') => k a st'
    | (Raise e, st') => (Raise e, st')
    end.

Definition raise {A} (e : Exn) : M A := fun st => (Raise e, st).

(** [try: body  except Exception as e: handler(e)] *)
Definition try_except {A} (body : M A) (handler : Exn -> M A) : M A :=
  fun st =>
    match body st with
    | (Ok a, st') => (Ok a, st')
    | (Raise e, st') => handler e st'
    end.

(** A provider answer enters the computation: a value, or a raise. *)
Definition lift {A} (r : Result A) : M A := fun st => (r, st).

Declare Scope py_scope.
Delimit Scope py_scope with py.
Notation "x <- m ;; k" := (bind m (fun x => k))
  (at level 61, m at next level, right associativity) : py_scope.
Notation "m ;; k" := (bind m (fun _ => k))
  (at level 61, right associativity) : py_scope.
#[local] Open Scope py_scope.

Definition log (l : Level) (msg : string) : M unit :=
  fun st => (Ok tt, mkState (csv_export_path st) (csv_headers_written st)
                            (logger st ++ [mkLog l msg]) (sink st)).

Definition Exception (msg : string) : Exn := mkExn "Exception" msg.

(** Truth value of [self.csv_export_path]: set and not the empty string. *)
Definition path_enabled (p : option string) : bool :=
  match p with
  | Some s => negb (String.eqb s "")
  | None => false
  end.

(** ** The providers *)

(** A FRED series: observations in index order, each a date (by its
    '%Y-%m-%d' rendering) and a value. *)
Definition Series := list (string * float).

(** A parsed spreadsheet: named columns of cells over the row numbers
    0, 1, ...; a missing cell is [VNone] or a NaN. *)
Definition Table := list (string * list PyVal).

(** What one export call meets when it opens the sink and writes to it:
    no fault, a raise from [open], or a raise from the write call number
    [n] of this call (counting from 0, header included), the lines written
    before it staying in the file.  The last one is a write fault at the
    grain of the writer's calls.  The file of the source is buffered: a
    fault can also come up when the [with] block closes it, after
    [csv_headers_written] is set, and leave a line cut short; no
    [IoOutcome] stands for that.  What is proved about the content of the
    sink is therefore stated for calls without write fault. *)
Inductive IoOutcome :=
| IoOk
| IoOpenError (e : Exn)
| IoWriteError (n : nat) (e : Exn).

Record World := mkWorld {
  (** [yf.Ticker(symbol).info.get(field)] *)
  ticker_info : string -> string -> Result (option float);
  (** [self.fred.get_series(series_id)] *)
  fred_get_series : string -> Result Series;
  (** [requests.get(url)]: the status code, then writing the body to the
      temporary file. *)
  requests_get : string -> Result Z;
  write_temp_file : string -> Result unit;
  (** [pd.read_excel] on a downloaded file or on a URL *)
  read_excel : string -> Result Table;
  (** [importlib.import_module('openpyxl')] succeeds *)
  openpyxl_installed : bool;
  (** [float(s)] on a string; [None] is the ValueError *)
  float_of_str : string -> option float;
  (** [str(v)] on a cell or a number *)
  py_str : PyVal -> string;
  (** [datetime(y, m, d).strftime('%Y-%m-%d')] for a valid date *)
  strftime_ymd : Z -> Z -> Z -> string;
  (** [datetime.now().strftime('%Y-%m-%d')] and
      [datetime.now().strftime('%Y-%m-%d %H:%M:%S')] *)
  today : string;
  now_stamp : string;
  (** [os.makedirs] in [_initialize_csv_export] *)
  makedirs : Result unit;
  (** the fault, if any, of the export of this call *)
  csv_io : IoOutcome
}.

(** ** Strings *)

Module PyStr.

Definition upper_ascii (c : ascii) : ascii :=
  let n := nat_of_ascii c in
  if andb (97 <=? n)%nat (n <=? 122)%nat then ascii_of_nat (n - 32) else c.

Definition lower_ascii (c : ascii) : ascii :=
  let n := nat_of_ascii c in
  if andb (65 <=? n)%nat (n <=? 90)%nat then ascii_of_nat (n + 32) else c.

Fixpoint map_ascii (f : ascii -> ascii) (s : string) : string :=
  match s with
  | EmptyString => EmptyString
  | String c s' => String (f c) (map_ascii f s')
  end.

(** [s.isascii()]: every character is below 128.  A string is kept as its
    bytes, so a character outside ASCII is a sequence of bytes from 128 on. *)
Fixpoint isascii (s : string) : bool :=
  match s with
  | EmptyString => true
  | String c s' => andb (nat_of_ascii c <? 128)%nat (isascii s')
  end.

(** [s.upper()] and [s.lower()] as they act on ASCII letters.  Python also
    maps the letters outside ASCII; these two leave every byte from 128 on
    as it is, so they are [str.upper] and [str.lower] on the strings that
    satisfy [isascii], as the names of the catalog do. *)
Definition upper : string -> string := map_ascii upper_ascii.
Definition lower : string -> string := map_ascii lower_ascii.

(** [s.replace(c, d)] for single characters *)
Definition replace_char (c d : ascii) : string -> string :=
  map_ascii (fun x => if Ascii.eqb x c then d else x).

(** [s.replace(c, '')] *)
Fixpoint remove_char (c : ascii) (s : string) : string :=
  match s with
  | EmptyString => EmptyString
  | String x s' =>
      if Ascii.eqb x c then remove_char c s' else String x (remove_char c s')
  end.

Definition is_space (c : ascii) : bool :=
  let n := nat_of_ascii c in
  orb (n =? 32)%nat (andb (9 <=? n)%nat (n <=? 13)%nat).

Fixpoint lstrip (s : string) : string :=
  match s with
  | EmptyString => EmptyString
  | String c s' => if is_space c then lstrip s' else s
  end.

Fixpoint rstrip (s : string) : string :=
  match s with
  | EmptyString => EmptyString
  | String c s' =>
      match rstrip s' with
      | EmptyString => if is_space c then EmptyString else String c EmptyString
      | r => String c r
      end
  end.

(** [s.strip()] *)
Definition strip (s : string) : string := rstrip (lstrip s).

(** [needle in s], for a nonempty needle *)
Definition contains (needle s : string) : bool :=
  match String.index 0 needle s with
  | Some _ => true
  | None => false
  end.

(** [str(n)] on an integer *)
Definition of_Z (n : Z) : string :=
  DecimalString.NilZero.string_of_int (Z.to_int n).

End PyStr.

(** ** Series and tables *)

Definition IndexError (msg : string) : Exn := mkExn "IndexError" msg.
Definition KeyError (key : string) : Exn := mkExn "KeyError" ("'" ++ key ++ "'").
Definition ValueError (msg : string) : Exn := mkExn "ValueError" msg.
Definition TypeError (msg : string) : Exn := mkExn "TypeError" msg.
Definition OverflowError (msg : string) : Exn := mkExn "OverflowError" msg.

(** [xs[-k]] for [k >= 1]: the element [k] places from the end. *)
Definition nth_from_end {A} (k : nat) (xs : list A) : option A :=
  if (k <=? length xs)%nat then nth_error xs (length xs - k) else None.

(** [series.iloc[-k]] and [series.index[-k]] *)
Definition iloc_neg (k : nat) (s : Series) : M float :=
  match nth_from_end k s with
  | Some (_, x) => ret x
  | None => raise (IndexError "single positional indexer is out-of-bounds")
  end.

Definition index_neg (k : nat) (s : Series) : M string :=
  match nth_from_end k s with
  | Some (d, _) => ret d
  | None => raise (IndexError "index out of bounds")
  end.

(** [series.empty] *)
Definition empty (s : Series) : bool :=
  match s with [] => true | _ => false end.

(** A missing cell, as [dropna] and [last_valid_index] see it. *)
Definition isna (v : PyVal) : bool :=
  match v with
  | VNone => true
  | VFloat x => PyFloat.is_nan x
  | _ => false
  end.

Definition dropna (cells : list PyVal) : list PyVal :=
  filter (fun v => negb (isna v)) cells.

(** [column.last_valid_index()]: the row number of the last cell that is
    not missing, [None] when there is none. *)
Fixpoint last_valid_index_from (i : nat) (cells : list PyVal) : option nat :=
  match cells with
  | [] => None
  | v :: rest =>
      match last_valid_index_from (S i) rest with
      | Some j => Some j
      | None => if isna v then None else Some i
      end
  end.

Definition last_valid_index (cells : list PyVal) : option nat :=
  last_valid_index_from 0 cells.

(** [for col in df.columns: if KEY in str(col).upper(): ... break] *)
Definition find_column (key : string) (df : Table) : option (string * list PyVal) :=
  find (fun col => PyStr.contains key (PyStr.upper (fst col))) df.

(** [df[name]]: the column with exactly this label *)
Definition column (name : string) (df : Table) : option (list PyVal) :=
  option_map snd (find (fun col => String.eqb (fst col) name) df).

(** [float(v)] *)
Definition py_float (w : World) (v : PyVal) : M float :=
  match v with
  | VFloat x => ret x
  | VStr s =>
      match float_of_str w s with
      | Some x => ret x
      | None => raise (ValueError ("could not convert string to float: " ++ s))
      end
  | _ => raise (TypeError "float() argument must be a string or a real number")
  end.

(** [int(x)] on a float *)
Definition py_int (x : float) : M Z :=
  match PyFloat.to_int x with
  | Some n => ret n
  | None =>
      if PyFloat.is_nan x
      then raise (ValueError "cannot convert float NaN to integer")
      else raise (OverflowError "cannot convert float infinity to integer")
  end.

(** [int(round(x))] on a float *)
Definition py_round (x : float) : M Z :=
  match PyFloat.round_int x with
  | Some n => ret n
  | None =>
      if PyFloat.is_nan x
      then raise (ValueError "cannot convert float NaN to integer")
      else raise (OverflowError "cannot convert float infinity to integer")
  end.

(** ** The resolvers of [USMarketMetrics] *)

Section Resolvers.

Variable w : World.

#[local] Open Scope float_scope.

(** [_log_error]: one error record, and the caller returns [None];
    [none] is the caller's rendering of [None]. *)
Definition _log_error {A} (none : A) (message : string) (exception : Exn) : M A :=
  log ERROR (message ++ ": " ++ exn_text exception) ;;
  ret none.

Definition _safe_get_fred_series (series_id : string) : M (option Series) :=
  try_except
    (s <- lift (fred_get_series w series_id) ;; ret (Some s))
    (fun e => _log_error None ("fetching FRED series " ++ series_id) e).

(** [True] on success; the [None] of the failure path is [false]. *)
Definition _download_file (url temp_filename : string) : M bool :=
  try_except
    (status_code <- lift (requests_get w url) ;;
     if negb (status_code =? 200)%Z then
       log ERROR ("Failed to fetch data. Status code: " ++ PyStr.of_Z status_code) ;;
       raise (Exception ("Failed to fetch data: HTTP " ++ PyStr.of_Z status_code))
     else
       lift (write_temp_file w temp_filename) ;;
       ret true)
    (fun e => _log_error false ("downloading " ++ url) e).

Definition _get_ticker_info (symbol description info_field : string) : M PyVal :=
  try_except
    (v <- lift (ticker_info w symbol info_field) ;;
     match v with
     | Some x => if PyFloat.truthy x then ret (VFloat x) else ret VNone
     | None => ret VNone
     end)
    (fun e => _log_error VNone ("fetching " ++ description) e).

Definition get_pe_ratio : M PyVal :=
  _get_ticker_info "VTI" "P/E ratio" "trailingPE".

Definition get_cape_ratio : M PyVal :=
  try_except
    (let url := "http://www.econ.yale.edu/~shiller/data/ie_data.xls" in
     ok <- _download_file url "shiller_temp.xls" ;;
     if negb ok then ret VNone
     else
       df <- lift (read_excel w "shiller_temp.xls") ;;
       match find_column "CAPE" df with
       | None =>
           log ERROR "Could not find CAPE column in Shiller's data" ;;
           raise (Exception "Could not find CAPE column in the data")
       | Some (_, cells) =>
           match nth_from_end 1 (dropna cells) with
           | None => raise (IndexError "single positional indexer is out-of-bounds")
           | Some cape_value =>
               x <- py_float w cape_value ;;
               ret (VFloat x)
           end
       end)
    (fun e => _log_error VNone "fetching CAPE ratio" e).

Definition _get_cape_from_fred : M PyVal :=
  try_except
    (cape_series <- lift (fred_get_series w "MULTPL/SHILLER_PE_RATIO_MONTH") ;;
     if negb (empty cape_series) then
       cape_ratio <- iloc_neg 1 cape_series ;;
       ret (VFloat cape_ratio)
     else
       log WARNING "Could not get CAPE ratio from FRED" ;;
       ret VNone)
    (fun e => _log_error VNone "fetching CAPE ratio from FRED" e).

Definition get_credit_spreads : M PyVal :=
  try_except
    (baa_yield <- _safe_get_fred_series "BAA" ;;
     treasury_10y <- _safe_get_fred_series "DGS10" ;;
     match baa_yield, treasury_10y with
     | Some baa, Some t10 =>
         if orb (empty baa) (empty t10) then
           ret (VDict [("baa_yield", VNone); ("treasury_10y", VNone);
                       ("baa_spread", VNone)])
         else
           latest_baa <- iloc_neg 1 baa ;;
           latest_10y <- iloc_neg 1 t10 ;;
           let spread := latest_baa - latest_10y in
           (* the console line prints int(spread*100) basis points *)
           py_int (spread * 100) ;;
           ret (VDict [("baa_yield", VFloat latest_baa);
                       ("treasury_10y", VFloat latest_10y);
                       ("baa_spread", VFloat spread)])
     | _, _ =>
         ret (VDict [("baa_yield", VNone); ("treasury_10y", VNone);
                     ("baa_spread", VNone)])
     end)
    (fun e => _log_error VNone "calculating credit spreads" e).

Definition get_market_to_gdp : M PyVal :=
  try_except
    (market_to_gdp <- _safe_get_fred_series "DDDM01USA156NWDB" ;;
     match market_to_gdp with
     | Some s =>
         if empty s then ret VNone
         else latest_value <- iloc_neg 1 s ;; ret (VFloat latest_value)
     | None => ret VNone
     end)
    (fun e => _log_error VNone "fetching market to GDP ratio" e).

Definition get_gdp_metrics : M PyVal :=
  try_except
    (gdp <- _safe_get_fred_series "GDP" ;;
     gdp_growth <- _safe_get_fred_series "A191RL1Q225SBEA" ;;
     match gdp, gdp_growth with
     | Some g, Some gg =>
         if orb (empty g) (empty gg) then
           ret (VDict [("gdp", VNone); ("gdp_growth", VNone)])
         else
           latest_gdp <- iloc_neg 1 g ;;
           latest_gdp_growth <- iloc_neg 1 gg ;;
           ret (VDict [("gdp", VFloat latest_gdp);
                       ("gdp_growth", VFloat latest_gdp_growth)])
     | _, _ => ret (VDict [("gdp", VNone); ("gdp_growth", VNone)])
     end)
    (fun e => _log_error VNone "fetching GDP metrics" e).

Definition get_government_metrics : M PyVal :=
  try_except
    (govt_debt <- _safe_get_fred_series "GFDEBTN" ;;
     govt_deficit <- _safe_get_fred_series "FYFSD" ;;
     match govt_debt, govt_deficit with
     | Some debt, Some deficit =>
         if orb (empty debt) (empty deficit) then
           ret (VDict [("govt_debt", VNone); ("govt_deficit", VNone);
                       ("debt_to_gdp", VNone)])
         else
           latest_debt <- iloc_neg 1 debt ;;
           latest_deficit <- iloc_neg 1 deficit ;;
           gdp <- _safe_get_fred_series "GDP" ;;
           debt_to_gdp <-
             match gdp with
             | Some g =>
                 if empty g then ret VNone
                 else
                   latest_gdp <- iloc_neg 1 g ;;
                   ret (VFloat ((latest_debt / latest_gdp) * 100))
             | None => ret VNone
             end ;;
           ret (VDict [("govt_debt", VFloat latest_debt);
                       ("govt_deficit", VFloat latest_deficit);
                       ("debt_to_gdp", debt_to_gdp)])
     | _, _ =>
         ret (VDict [("govt_debt", VNone); ("govt_deficit", VNone);
                     ("debt_to_gdp", VNone)])
     end)
    (fun e => _log_error VNone "fetching government metrics" e).

Definition get_10yr_yield : M PyVal :=
  try_except
    (treasury_10y <- _safe_get_fred_series "DGS10" ;;
     match treasury_10y with
     | Some s =>
         if empty s then ret VNone
         else latest_yield <- iloc_neg 1 s ;; ret (VFloat latest_yield)
     | None => ret VNone
     end)
    (fun e => _log_error VNone "fetching 10-year Treasury yield" e).

Definition get_inflation_rate : M PyVal :=
  try_except
    (cpi <- _safe_get_fred_series "CPIAUCSL" ;;
     match cpi with
     | Some s =>
         if orb (empty s) (length s <? 13)%nat then ret VNone
         else
           latest_cpi <- iloc_neg 1 s ;;
           year_ago_cpi <- iloc_neg 13 s ;;
           let inflation_rate := ((latest_cpi / year_ago_cpi) - 1) * 100 in
           ret (VFloat inflation_rate)
     | None => ret VNone
     end)
    (fun e => _log_error VNone "calculating inflation rate" e).

Definition get_asset_price (ticker_symbol asset_name unit : string) : M PyVal :=
  try_except
    (price <- lift (ticker_info w ticker_symbol "regularMarketPrice") ;;
     match price with
     | Some x => if PyFloat.truthy x then ret (VFloat x) else ret VNone
     | None => ret VNone
     end)
    (fun e => _log_error VNone ("fetching " ++ asset_name ++ " price") e).

Definition get_gold_price : M PyVal :=
  get_asset_price "GC=F" "Gold" "per troy ounce".

Definition get_bitcoin_price : M PyVal :=
  get_asset_price "BTC-USD" "Bitcoin" "".

Definition get_wti_crude_price : M PyVal :=
  get_asset_price "CL=F" "WTI Crude Oil" "per barrel".

Definition get_asset_prices : M PyVal :=
  gold <- get_asset_price "GC=F" "Gold" "per troy ounce" ;;
  bitcoin <- get_asset_price "BTC-USD" "Bitcoin" "" ;;
  wti <- get_asset_price "CL=F" "WTI Crude Oil" "per barrel" ;;
  ret (VDict [("gold_price", gold); ("bitcoin_price", bitcoin);
              ("wti_crude_price", wti)]).

Definition _calculate_equity_risk_premium : M PyVal :=
  try_except
    (pe_ratio <- get_pe_ratio ;;
     match pe_ratio with
     | VFloat pe =>
         if andb (PyFloat.truthy pe) (0 <? pe) then
           let earnings_yield := (1 / pe) * 100 in
           risk_free_rate <- get_10yr_yield ;;
           match risk_free_rate with
           | VNone =>
               log WARNING "Could not get risk-free rate" ;;
               ret (VDict [("value", VNone)])
           | VFloat rf =>
               let risk_premium := earnings_yield - rf in
               ret (VDict [("value", VFloat risk_premium);
                           ("earnings_yield", VFloat earnings_yield);
                           ("risk_free_rate", VFloat rf)])
           | _ => raise (TypeError "unsupported operand type(s) for -")
           end
         else
           log WARNING "Could not calculate earnings yield: invalid P/E ratio" ;;
           ret (VDict [("value", VNone)])
     | VNone =>
         log WARNING "Could not calculate earnings yield: invalid P/E ratio" ;;
         ret (VDict [("value", VNone)])
     | _ => raise (TypeError "'>' not supported")
     end)
    (fun e => _log_error VNone "calculating equity risk premium" e).

(** The conversion of the ERP cell: [float(erp_value)], and for a string
    that does not parse, a second try without the percent sign. *)
Definition convert_erp_value (erp_value : PyVal) : M PyVal :=
  match erp_value with
  | VFloat x => ret (VFloat x)
  | VStr s =>
      match float_of_str w s with
      | Some x => ret (VFloat x)
      | None =>
          log WARNING ("Could not convert ERP value '" ++ s ++ "' to float") ;;
          let s' := PyStr.strip (PyStr.remove_char "%" s) in
          match float_of_str w s' with
          | Some x => ret (VFloat x)
          | None =>
              log ERROR ("Failed to extract numeric value from '" ++ s' ++ "'") ;;
              raise (Exception ("Invalid ERP value format: " ++ s'))
          end
      end
  | other =>
      (* TypeError from float(): caught, and the value is not a string *)
      log WARNING ("Could not convert ERP value '" ++ py_str w other ++ "' to float") ;;
      ret other
  end.

Definition get_equity_risk_premium : M PyVal :=
  try_except
    (if negb (openpyxl_installed w) then
       log ERROR "openpyxl dependency is required but not installed" ;;
       _calculate_equity_risk_premium
     else
       let url := "https://pages.stern.nyu.edu/~adamodar/pc/implprem/ERPbymonth.xlsx" in
       ok <- _download_file url "damodaran_temp.xlsx" ;;
       if negb ok then _calculate_equity_risk_premium
       else
         df <- lift (read_excel w "damodaran_temp.xlsx") ;;
         match find_column "ERP" df with
         | None =>
             log ERROR "Could not find ERP column in Damodaran's data" ;;
             raise (Exception "Could not find ERP column in the data")
         | Some (_, cells) =>
             match last_valid_index cells with
             | None => raise (KeyError "None")
             | Some i =>
                 match nth_error cells i, df with
                 | Some erp_value, (_, first_column) :: _ =>
                     match nth_error first_column i with
                     | Some last_date =>
                         erp_value' <- convert_erp_value erp_value ;;
                         ret (VDict [("value", erp_value');
                                     ("date", VStr (py_str w last_date))])
                     | None => raise (IndexError "single positional indexer is out-of-bounds")
                     end
                 | _, _ => raise (KeyError (PyStr.of_Z (Z.of_nat i)))
                 end
             end
         end)
    (fun e => _log_error VNone "fetching Damodaran's equity risk premium" e).

Definition get_earnings_growth : M PyVal :=
  try_except
    (corporate_profits <- lift (fred_get_series w "CP") ;;
     if (length corporate_profits <? 5)%nat then
       log WARNING "Not enough earnings data to calculate growth" ;;
       ret (VDict [("growth_rate", VNone)])
     else
       recent_value <- iloc_neg 1 corporate_profits ;;
       year_ago_value <- iloc_neg 5 corporate_profits ;;
       if year_ago_value <=? 0 then
         log WARNING "Previous year earnings negative or zero, cannot calculate growth rate" ;;
         ret (VDict [("growth_rate", VNone)])
       else
         let growth_rate := ((recent_value / year_ago_value) - 1) * 100 in
         recent_date <- index_neg 1 corporate_profits ;;
         year_ago_date <- index_neg 5 corporate_profits ;;
         ret (VDict [("growth_rate", VFloat growth_rate);
                     ("recent_value", VFloat recent_value);
                     ("year_ago_value", VFloat year_ago_value);
                     ("recent_date", VStr recent_date);
                     ("year_ago_date", VStr year_ago_date)]))
    (fun e => _log_error VNone "calculating earnings growth" e).

(** *** The catalog and the aggregate *)

Definition _normalize_metric_name (metric_name : string) : string :=
  if String.eqb metric_name "US P/E Ratio" then "pe_ratio"
  else if String.eqb metric_name "US CAPE Ratio" then "cape_ratio"
  else if String.eqb metric_name "US Credit Spreads" then "credit_spreads"
  else if String.eqb metric_name "US Stock Market / GDP" then "market_to_gdp"
  else if String.eqb metric_name "US GDP" then "gdp"
  else if String.eqb metric_name "US Government Debt & Deficit" then "government"
  else if String.eqb metric_name "US 10-Year Yield" then "10yr_yield"
  else if String.eqb metric_name "US Inflation Rate" then "inflation_rate"
  else if String.eqb metric_name "US Equity Risk Premium" then "equity_risk_premium"
  else if String.eqb metric_name "US Earnings Growth" then "earnings_growth"
  else if String.eqb metric_name "Gold Price" then "gold_price"
  else if String.eqb metric_name "Bitcoin Price" then "bitcoin_price"
  else if String.eqb metric_name "WTI Crude Oil Price" then "wti_crude_price"
  else PyStr.replace_char " " "_" (PyStr.lower metric_name).

Definition Definitions := list (string * (M PyVal * string)).

(** [get_metric_definitions], open in its last entry: the resolver of
    'US All Metrics' is [get_all_metrics], which is defined from this very
    catalog. *)
Definition get_metric_definitions_of (all_metrics : M PyVal) : Definitions :=
  [ ("US P/E Ratio", (get_pe_ratio, "Yahoo Finance - VTI (Total US Market)"));
    ("US CAPE Ratio", (get_cape_ratio, "Robert Shiller's Dataset"));
    ("US Credit Spreads", (get_credit_spreads, "FRED - Moody's BAA Corporate Bond"));
    ("US Stock Market / GDP", (get_market_to_gdp, "FRED - Stock Market Capitalization to GDP"));
    ("US GDP", (get_gdp_metrics, "FRED - Bureau of Economic Analysis"));
    ("US Government Debt & Deficit", (get_government_metrics, "FRED - Treasury Department"));
    ("US 10-Year Yield", (get_10yr_yield, "FRED - Treasury Department"));
    ("US Inflation Rate", (get_inflation_rate, "FRED - Bureau of Labor Statistics"));
    ("US Equity Risk Premium", (get_equity_risk_premium, "NYU Stern - Aswath Damodaran"));
    ("US Earnings Growth", (get_earnings_growth, "FRED - Corporate Profits"));
    ("Gold Price", (get_gold_price, "Yahoo Finance - Gold Futures (GC=F)"));
    ("Bitcoin Price", (get_bitcoin_price, "Yahoo Finance - BTC-USD"));
    ("WTI Crude Oil Price", (get_wti_crude_price, "Yahoo Finance - Crude Oil Futures (CL=F)"));
    ("US All Metrics", (all_metrics, "Multiple Sources")) ].

(** [for key, value in result.items(): metrics[key] = value] *)
Definition update_all (result metrics : Dict) : Dict :=
  fold_left (fun m kv => PyDict.set (fst kv) (snd kv) m) result metrics.

(** What one result does to [metrics] in the loop of [get_all_metrics]. *)
Definition merge_result (metric_name : string) (result : PyVal) (metrics : Dict) : M Dict :=
  match result with
  | VDict d =>
      if PyDict.contains "value" d then
        match PyDict.get "value" d with
        | Some v => ret (PyDict.set (_normalize_metric_name metric_name) v metrics)
        | None => raise (KeyError "value")
        end
      else ret (update_all d metrics)
  | _ => ret (PyDict.set (_normalize_metric_name metric_name) result metrics)
  end.

(** One iteration: the guard against the aggregate entry, the call, the
    merge, and the [except] of the loop body. *)
Definition all_metrics_step (metric_name : string) (func : M PyVal) (metrics : Dict) : M Dict :=
  if negb (String.eqb metric_name "US All Metrics") then
    try_except
      (result <- func ;; merge_result metric_name result metrics)
      (fun e =>
         log ERROR ("Error getting " ++ metric_name ++ ": " ++ exn_text e) ;;
         ret (PyDict.set (_normalize_metric_name metric_name) VNone metrics))
  else ret metrics.

Fixpoint all_metrics_loop (defs : Definitions) (metrics : Dict) : M Dict :=
  match defs with
  | [] => ret metrics
  | (metric_name, (func, _)) :: rest =>
      metrics' <- all_metrics_step metric_name func metrics ;;
      all_metrics_loop rest metrics'
  end.

(** [get_all_metrics] over a catalog *)
Definition get_all_metrics_over (defs : Definitions) : M PyVal :=
  metrics <- all_metrics_loop defs [] ;;
  ret (VDict metrics).

(** The loop never calls the entry of 'US All Metrics', so the catalog it
    runs over may hold any computation in that place. *)
Definition get_all_metrics : M PyVal :=
  get_all_metrics_over (get_metric_definitions_of (ret VNone)).

Definition get_metric_definitions : Definitions :=
  get_metric_definitions_of get_all_metrics.

(** [metric_map[metric_name]] *)
Fixpoint lookup_definition (metric_name : string) (defs : Definitions)
  : option (M PyVal * string) :=
  match defs with
  | [] => None
  | (n, entry) :: rest =>
      if String.eqb metric_name n then Some entry
      else lookup_definition metric_name rest
  end.

(** *** Timestamps *)

(** [self.fred.get_series(series_id).index[-1].strftime('%Y-%m-%d')] *)
Definition last_index_date (series_id : string) : M string :=
  s <- lift (fred_get_series w series_id) ;;
  index_neg 1 s.

(** [datetime(year, month, 1).strftime('%Y-%m-%d')] *)
Definition first_of_month (year month : Z) : M string :=
  if andb (andb (1 <=? year)%Z (year <=? 9999)%Z)
          (andb (1 <=? month)%Z (month <=? 12)%Z)
  then ret (strftime_ymd w year month 1)
  else raise (ValueError "year or month is out of range").

(** The date of the last CAPE row of Shiller's sheet: a datetime cell as
    it is, a decimal year (2023.1) by its integer part and twelve times its
    fraction.  [PyFloat.of_int] is exact for every year that
    [first_of_month] accepts. *)
Definition shiller_date : M string :=
  let url := "http://www.econ.yale.edu/~shiller/data/ie_data.xls" in
  df <- lift (read_excel w url) ;;
  match column "CAPE" df with
  | None => raise (KeyError "CAPE")
  | Some cape =>
      match last_valid_index cape, column "Date" df with
      | Some i, Some dates =>
          match nth_error dates i with
          | Some (VDate iso) => ret iso
          | Some (VFloat last_date) =>
              year <- py_int last_date ;;
              m <- py_round ((last_date - PyFloat.of_int year) * 12) ;;
              first_of_month year (m + 1)
          | Some _ => raise (TypeError "int() or - on a cell that is not a number")
          | None => raise (KeyError (PyStr.of_Z (Z.of_nat i)))
          end
      | None, _ => raise (KeyError "None")
      | _, None => raise (KeyError "Date")
      end
  end.

(** The body of the [try] of [get_timestamp_for_metric]. *)
Definition timestamp_strategy (metric_name : string) : M string :=
  if String.eqb metric_name "US GDP" then last_index_date "GDP"
  else if String.eqb metric_name "US Government Debt & Deficit" then
    last_index_date "GFDEBTN"
  else if String.eqb metric_name "US Inflation Rate" then
    last_index_date "CPIAUCSL"
  else if String.eqb metric_name "US Credit Spreads" then
    last_index_date "BAA"
  else if String.eqb metric_name "US CAPE Ratio" then
    try_except shiller_date (fun _ => last_index_date "CSUSHPINSA")
  else ret (today w).

Definition get_timestamp_for_metric (metric_name : string) : M string :=
  try_except (timestamp_strategy metric_name)
             (fun _ => ret "Date not available").

(** *** The tabular export *)

Definition get_path : M (option string) :=
  fun st => (Ok (csv_export_path st), st).

Definition set_path (p : option string) : M unit :=
  fun st => (Ok tt, mkState p (csv_headers_written st) (logger st) (sink st)).

Definition get_headers_written : M bool :=
  fun st => (Ok (csv_headers_written st), st).

Definition set_headers_written (b : bool) : M unit :=
  fun st => (Ok tt, mkState (csv_export_path st) b (logger st) (sink st)).

Definition get_sink : M (option (list CsvLine)) :=
  fun st => (Ok (sink st), st).

Definition set_sink (f : option (list CsvLine)) : M unit :=
  fun st => (Ok tt, mkState (csv_export_path st) (csv_headers_written st)
                            (logger st) f).

(** [os.path.isfile(path) and os.path.getsize(path) > 0] *)
Definition nonempty_file (f : option (list CsvLine)) : bool :=
  match f with
  | Some (_ :: _) => true
  | _ => false
  end.

Definition _initialize_csv_export : M unit :=
  try_except
    (lift (makedirs w) ;;
     f <- get_sink ;;
     let file_empty := negb (nonempty_file f) in
     if file_empty then ret tt
     else set_headers_written true)
    (fun e =>
       log ERROR ("Error initializing CSV export: " ++ exn_text e) ;;
       set_path None).

(** [__init__], after the logging setup and the dependency check (which
    only log and print). *)
Definition __init__ (path : option string) : M unit :=
  set_path path ;;
  set_headers_written false ;;
  if path_enabled path then _initialize_csv_export else ret tt.

(** The rows of one record: [data_copy] is the record without its
    'timestamp' and 'source' entries. *)
Definition rows_of (metric_name : string) (timestamp source : PyVal)
    (data_copy : Dict) : list Row :=
  if andb (length data_copy =? 1)%nat (PyDict.contains "value" data_copy) then
    match PyDict.get "value" data_copy with
    | Some v => [mkRow metric_name "value" v timestamp source (now_stamp w)]
    | None => []
    end
  else
    flat_map
      (fun kv =>
         match snd kv with
         | VDict d =>
             map (fun sub =>
                    mkRow metric_name (fst kv ++ "_" ++ fst sub) (snd sub)
                          timestamp source (now_stamp w)) d
         | v => [mkRow metric_name (fst kv) v timestamp source (now_stamp w)]
         end)
      data_copy.

(** The flattening of [_export_to_csv]: the metadata leaves the copy, the
    rest becomes rows. *)
Definition flatten (metric_name : string) (data : Dict) : list Row :=
  let timestamp :=
    match PyDict.get "timestamp" data with
    | Some t => t
    | None => VStr (today w)
    end in
  let data_copy := PyDict.remove "timestamp" data in
  let source :=
    match PyDict.get "source" data_copy with
    | Some s => s
    | None => VStr "Unknown"
    end in
  let data_copy := PyDict.remove "source" data_copy in
  rows_of metric_name timestamp source data_copy.

(** [open(path, mode='a')]: raises, or leaves a file in place. *)
Definition open_append : M unit :=
  match csv_io w with
  | IoOpenError e => raise e
  | _ =>
      f <- get_sink ;;
      match f with
      | Some _ => ret tt
      | None => set_sink (Some [])
      end
  end.

(** The write call number [k] of this export: [writer.writeheader()] or
    [writer.writerow(row)], as a whole line appended at the call. *)
Definition csv_write (k : nat) (line : CsvLine) : M unit :=
  match csv_io w with
  | IoWriteError n e =>
      if (k =? n)%nat then raise e
      else f <- get_sink ;;
           set_sink (Some (match f with Some ls => ls | None => [] end ++ [line]))
  | _ =>
      f <- get_sink ;;
      set_sink (Some (match f with Some ls => ls | None => [] end ++ [line]))
  end.

Fixpoint write_rows (k : nat) (rows : list Row) : M unit :=
  match rows with
  | [] => ret tt
  | row :: rest => csv_write k (Data row) ;; write_rows (S k) rest
  end.

(** The body of the [try] of [_export_to_csv]: flatten, then append. *)
Definition flatten_and_append (metric_name : string) (data : Dict) : M unit :=
  let rows_to_write := flatten metric_name data in
  f <- get_sink ;;
  let file_exists := nonempty_file f in
  open_append ;;
  written <- get_headers_written ;;
  k <- (if orb (negb file_exists) (negb written) then
          csv_write 0 Header ;;
          set_headers_written true ;;
          ret 1%nat
        else ret 0%nat) ;;
  write_rows k rows_to_write.

Definition _export_to_csv (metric_name : string) (data : Dict) : M unit :=
  path <- get_path ;;
  if negb (path_enabled path) then ret tt
  else
    try_except
      (flatten_and_append metric_name data)
      (fun e => log ERROR ("Error exporting to CSV: " ++ exn_text e)).

(** *** One indicator by name *)

Definition get_metric_by_name (metric_name : string) : M Dict :=
  match lookup_definition metric_name get_metric_definitions with
  | None => raise (KeyError metric_name)
  | Some (func, source) =>
      result <- func ;;
      result <-
        match result with
        | VDict d =>
            ts <- get_timestamp_for_metric metric_name ;;
            ret (PyDict.set "source" (VStr source)
                   (PyDict.set "timestamp" (VStr ts) d))
        | _ =>
            ret [("value", result); ("timestamp", VStr (today w));
                 ("source", VStr source)]
        end ;;
      path <- get_path ;;
      (if path_enabled path then _export_to_csv metric_name result else ret tt) ;;
      ret result
  end.

End Resolvers.

(** A new instance over a file system where the sink is [file]. *)
Definition new_instance (w : World) (path : option string)
    (file : option (list CsvLine)) : State :=
  snd (__init__ w path (mkState None false [] file)).

(** An instance without export, and an empty log. *)
Definition idle : State := mkState None false [] None.

(** The value a computation returns, or the exception it raises. *)
Definition outcome {A} (m : M A) (st : State) : Result A := fst (m st).

(** ** Concrete worlds *)

Definition outage : Exn := mkExn "ConnectionError" "provider unreachable".

(** Every provider call raises; the local file system works. *)
Definition dead_world : World :=
  {| ticker_info := fun _ _ => Raise outage;
     fred_get_series := fun _ => Raise outage;
     requests_get := fun _ => Raise outage;
     write_temp_file := fun _ => Ok tt;
     read_excel := fun _ => Raise outage;
     openpyxl_installed := true;
     float_of_str := fun _ => None;
     py_str := fun _ => "";
     strftime_ymd := fun _ _ _ => "";
     today := "2024-03-01";
     now_stamp := "2024-03-01 09:30:00";
     makedirs := Ok tt;
     csv_io := IoOk |}.

(** [w] with another FRED, another quote service, another file system. *)
Definition with_fred (f : string -> Result Series) (w : World) : World :=
  mkWorld (ticker_info w) f (requests_get w) (write_temp_file w) (read_excel w)
          (openpyxl_installed w) (float_of_str w) (py_str w) (strftime_ymd w)
          (today w) (now_stamp w) (makedirs w) (csv_io w).

Definition with_ticker (f : string -> string -> Result (option float)) (w : World) : World :=
  mkWorld f (fred_get_series w) (requests_get w) (write_temp_file w) (read_excel w)
          (openpyxl_installed w) (float_of_str w) (py_str w) (strftime_ymd w)
          (today w) (now_stamp w) (makedirs w) (csv_io w).

Definition with_io (io : IoOutcome) (w : World) : World :=
  mkWorld (ticker_info w) (fred_get_series w) (requests_get w) (write_temp_file w)
          (read_excel w) (openpyxl_installed w) (float_of_str w) (py_str w)
          (strftime_ymd w) (today w) (now_stamp w) (makedirs w) io.

(** The FRED series whose last index dates an indicator, for the
    indicators dated that way. *)
Definition timestamp_series (metric_name : string) : option string :=
  if String.eqb metric_name "US GDP" then Some "GDP"
  else if String.eqb metric_name "US Government Debt & Deficit" then Some "GFDEBTN"
  else if String.eqb metric_name "US Inflation Rate" then Some "CPIAUCSL"
  else if String.eqb metric_name "US Credit Spreads" then Some "BAA"
  else None.

(** A catalog with a resolver that raises, between two that work. *)
Definition faulty_catalog : Definitions :=
  [ ("US P/E Ratio", (get_pe_ratio dead_world, "Yahoo Finance - VTI (Total US Market)"));
    ("Broken Feed", (raise (Exception "boom"), "nowhere"));
    ("Gold Price", (get_gold_price dead_world, "Yahoo Finance - Gold Futures (GC=F)")) ].

(** *** Sequences of exports *)

(** One call of [_export_to_csv]: the world it runs in, and its arguments. *)
Record ExportCall := mkCall {
  call_world : World;
  call_metric : string;
  call_data : Dict
}.

(** The calls of a list, one after the other, on one instance. *)
Fixpoint run_exports (calls : list ExportCall) (st : State) : State :=
  match calls with
  | [] => st
  | c :: rest =>
      run_exports rest
        (snd (_export_to_csv (call_world c) (call_metric c) (call_data c) st))
  end.

(** The rows of all the calls of a list. *)
Definition rows_of_calls (calls : list ExportCall) : list Row :=
  flat_map (fun c => flatten (call_world c) (call_metric c) (call_data c)) calls.

(** No call of the list meets a fault of the file system. *)
Definition fault_free (calls : list ExportCall) : Prop :=
  Forall (fun c => csv_io (call_world c) = IoOk) calls.

(** The call opens the sink. *)
Definition opens (c : ExportCall) : bool :=
  match csv_io (call_world c) with
  | IoOk => true
  | _ => false
  end.

(** The call meets no write fault: it cannot open the sink, or it writes
    all its lines. *)
Definition writes_whole (c : ExportCall) : bool :=
  match csv_io (call_world c) with
  | IoWriteError _ _ => false
  | _ => true
  end.

(** Two records as [get_metric_by_name] builds them, and their export. *)
Definition pe_record : Dict :=
  [("value", VFloat 21.5%float); ("timestamp", VStr "2024-03-01");
   ("source", VStr "Yahoo Finance - VTI (Total US Market)")].

Definition gdp_record : Dict :=
  [("gdp", VFloat 27000%float); ("gdp_growth", VFloat 2.5%float);
   ("timestamp", VStr "2023-10-01");
   ("source", VStr "FRED - Bureau of Economic Analysis")].

Definition two_exports : list ExportCall :=
  [mkCall dead_world "US P/E Ratio" pe_record;
   mkCall dead_world "US GDP" gdp_record].

(** A line left by an earlier run. *)
Definition earlier_row : Row :=
  mkRow "Gold Price" "value" (VFloat 2040%float) (VStr "2024-02-01")
        (VStr "Yahoo Finance - Gold Futures (GC=F)") "2024-02-01 08:00:00".

(** The sink cannot be opened. *)
Definition disk_error : Exn := mkExn "PermissionError" "[Errno 13] Permission denied".

Definition locked_world : World := with_io (IoOpenError disk_error) dead_world.

(** The merged mapping when nothing is available. *)
Definition all_unavailable : Dict :=
  [("pe_ratio", VNone); ("cape_ratio", VNone); ("baa_yield", VNone);
   ("treasury_10y", VNone); ("baa_spread", VNone); ("market_to_gdp", VNone);
   ("gdp", VNone); ("gdp_growth", VNone); ("govt_debt", VNone);
   ("govt_deficit", VNone); ("debt_to_gdp", VNone); ("10yr_yield", VNone);
   ("inflation_rate", VNone); ("equity_risk_premium", VNone);
   ("earnings_growth", VNone); ("gold_price", VNone); ("bitcoin_price", VNone);
   ("wti_crude_price", VNone)].

(** The spreadsheet of the risk premium cannot be downloaded, the quote
    service gives a P/E ratio of 20 and FRED a 10-year yield of 4. *)
Definition fallback_world : World :=
  with_ticker (fun symbol field =>
                 if andb (String.eqb symbol "VTI") (String.eqb field "trailingPE")
                 then Ok (Some 20%float) else Raise outage)
    (with_fred (fun id =>
                  if String.eqb id "DGS10" then Ok [("2024-02-29", 4%float)]
                  else Raise outage)
       dead_world).

(** FRED knows one series. *)
Definition only_series (series_id : string) (s : Series) : string -> Result Series :=
  fun id => if String.eqb id series_id then Ok s else Raise outage.

(** Monthly observations from January 2023 on, by their values. *)
Definition observations (values : list float) : Series :=
  map (fun x => ("2023-01-01", x)) values.

(** A provider answer without data: a raise, or an empty series. *)
Definition absent_or_empty (r : Result Series) : bool :=
  match r with
  | Ok [] => true
  | Ok (_ :: _) => false
  | Raise _ => true
  end.

(** The leaf values of a record body: one per entry that is not a dict,
    and one per entry of a nested dict. *)
Definition leaf_count (body : Dict) : nat :=
  list_sum (map (fun kv => match snd kv with
                           | VDict d => length d
                           | _ => 1%nat
                           end) body).

(** The record without its metadata, and the metadata [_export_to_csv]
    reads from it. *)
Definition body_of (data : Dict) : Dict :=
  PyDict.remove "source" (PyDict.remove "timestamp" data).

Definition timestamp_of (w : World) (data : Dict) : PyVal :=
  match PyDict.get "timestamp" data with
  | Some t => t
  | None => VStr (today w)
  end.

Definition source_of (data : Dict) : PyVal :=
  match PyDict.get "source" (PyDict.remove "timestamp" data) with
  | Some s => s
  | None => VStr "Unknown"
  end.

(** The test of the single-value branch. *)
Definition scalar_shaped (body : Dict) : bool :=
  andb (length body =? 1)%nat (PyDict.contains "value" body).

(** The loop body of [get_all_metrics] as a function of what the resolver
    did: the entry or entries it leaves in [metrics]. *)
Definition merge_outcome (metric_name : string) (r : Result PyVal) (metrics : Dict) : Dict :=
  match r with
  | Ok (VDict d) =>
      if PyDict.contains "value" d then
        match PyDict.get "value" d with
        | Some v => PyDict.set (_normalize_metric_name metric_name) v metrics
        | None => PyDict.set (_normalize_metric_name metric_name) VNone metrics
        end
      else update_all d metrics
  | Ok v => PyDict.set (_normalize_metric_name metric_name) v metrics
  | Raise _ => PyDict.set (_normalize_metric_name metric_name) VNone metrics
  end.

(** The key or keys under which an indicator enters the merged mapping:
    its normalized name for a scalar, for a dict with a 'value' entry and
    for a fault, the sub-keys for any other dict. *)
Definition normalized_keys (metric_name : string) (r : Result PyVal) : list string :=
  match r with
  | Ok (VDict d) =>
      if PyDict.contains "value" d then [_normalize_metric_name metric_name]
      else PyDict.keys d
  | _ => [_normalize_metric_name metric_name]
  end.

(** The merged mapping from what each catalog entry did, in catalog order. *)
Definition collect (outcomes : list (string * Result PyVal)) (metrics : Dict) : Dict :=
  fold_left
    (fun m o =>
       if String.eqb (fst o) "US All Metrics" then m
       else merge_outcome (fst o) (snd o) m)
    outcomes metrics.

(** [ks] lies within [allowed]. *)
Definition keys_within (allowed ks : list string) : bool :=
  forallb (fun k => existsb (String.eqb k) allowed) ks.

(** Every provider call raises. *)
Definition all_providers_fail (w : World) : Prop :=
  (forall symbol field, exists e, ticker_info w symbol field = Raise e)
  /\ (forall series_id, exists e, fred_get_series w series_id = Raise e)
  /\ (forall url, exists e, requests_get w url = Raise e)
  /\ (forall file, exists e, read_excel w file = Raise e).

(** The keys an indicator can enter the merged mapping under. *)
Definition possible_keys (metric_name : string) : list string :=
  if String.eqb metric_name "US Credit Spreads" then
    ["credit_spreads"; "baa_yield"; "treasury_10y"; "baa_spread"]
  else if String.eqb metric_name "US GDP" then ["gdp"; "gdp_growth"]
  else if String.eqb metric_name "US Government Debt & Deficit" then
    ["government"; "govt_debt"; "govt_deficit"; "debt_to_gdp"]
  else if String.eqb metric_name "US Earnings Growth" then
    ["earnings_growth"; "growth_rate"; "recent_value"; "year_ago_value";
     "recent_date"; "year_ago_date"]
  else [_normalize_metric_name metric_name].

(** An outcome that is not a dict: a number, None, or a fault. *)
Definition scalar_outcome (r : Result PyVal) : bool :=
  match r with
  | Ok (VDict _) => false
  | _ => true
  end.

(** The sub-keys of a group indicator: the keys every dict literal of its
    resolver has.  The other indicators have none. *)
Definition group_keys (metric_name : string) : list string :=
  if String.eqb metric_name "US Credit Spreads" then
    ["baa_yield"; "treasury_10y"; "baa_spread"]
  else if String.eqb metric_name "US GDP" then ["gdp"; "gdp_growth"]
  else if String.eqb metric_name "US Government Debt & Deficit" then
    ["govt_debt"; "govt_deficit"; "debt_to_gdp"]
  else if String.eqb metric_name "US Earnings Growth" then ["growth_rate"]
  else [].

(** An outcome that the merge enters by the normalized name, or that is a
    dict with all the sub-keys of the group. *)
Definition by_name_or_group (metric_name : string) (r : Result PyVal) : bool :=
  match r with
  | Ok (VDict d) =>
      orb (PyDict.contains "value" d)
          (andb (negb (length (group_keys metric_name) =? 0)%nat)
                (forallb (fun k => PyDict.contains k d) (group_keys metric_name)))
  | _ => true
  end.

(** FRED has three quarters of corporate profits, too few for a growth
    rate; everything else is down. *)
Definition short_profits_world : World :=
  with_fred (only_series "CP" (observations [100%float; 110%float; 120%float]))
            dead_world.

(** What each catalog entry does in world [w], by name, in catalog order. *)
Definition catalog_outcomes (w : World) : list (string * Result PyVal) :=
  map (fun d => (fst d, outcome (fst (snd d)) idle))
      (get_metric_definitions_of w (ret VNone)).

(** A computation whose result does not depend on the state it starts in. *)
Definition stateless {A} (m : M A) : Prop :=
  forall s1 s2, fst (m s1) = fst (m s2).

(** A computation that returns, whatever the state. *)
Definition never_raises {A} (m : M A) : Prop :=
  forall st, exists a st', m st = (Ok a, st').


(** ** Further worlds and measures *)

(** The download of [url] into [temp_filename] works: status 200, and the
    body is written. *)
Definition download_ok (w : World) (url temp_filename : string) : bool :=
  match requests_get w url with
  | Ok status_code =>
      if (status_code =? 200)%Z then
        match write_temp_file w temp_filename with
        | Ok _ => true
        | Raise _ => false
        end
      else false
  | Raise _ => false
  end.

(** The test of [_calculate_equity_risk_premium] on the P/E ratio:
    [pe_ratio and pe_ratio > 0]. *)
Definition usable_pe (x : float) : bool :=
  andb (PyFloat.truthy x) (PrimFloat.ltb 0%float x).

(** [w] with another web: the status of each URL, and the sheet that
    [read_excel] finds. *)
Definition with_web (get : string -> Result Z) (excel : string -> Result Table)
    (w : World) : World :=
  mkWorld (ticker_info w) (fred_get_series w) get (write_temp_file w) excel
          (openpyxl_installed w) (float_of_str w) (py_str w) (strftime_ymd w)
          (today w) (now_stamp w) (makedirs w) (csv_io w).

(** [w] with another [float()] on strings and another [str()]. *)
Definition with_conversions (parse : string -> option float)
    (show : PyVal -> string) (w : World) : World :=
  mkWorld (ticker_info w) (fred_get_series w) (requests_get w)
          (write_temp_file w) (read_excel w) (openpyxl_installed w) parse show
          (strftime_ymd w) (today w) (now_stamp w) (makedirs w) (csv_io w).

(** [w] where the directory of the sink cannot be made. *)
Definition with_makedirs (r : Result unit) (w : World) : World :=
  mkWorld (ticker_info w) (fred_get_series w) (requests_get w)
          (write_temp_file w) (read_excel w) (openpyxl_installed w)
          (float_of_str w) (py_str w) (strftime_ymd w) (today w) (now_stamp w)
          r (csv_io w).

(** Every download answers 200. *)
Definition web_up : string -> Result Z := fun _ => Ok 200%Z.

(** Damodaran's sheet with the premium as text, and Shiller's sheet. *)
Definition erp_sheet : Table :=
  [("Date", [VDate "2024-01-01"; VDate "2024-02-01"; VNone]);
   ("Implied ERP (FCFE)", [VFloat 4.6%float; VStr " 4.5% "; VNone])].

Definition shiller_sheet : Table :=
  [("Date", [VFloat 2023.11%float; VFloat 2023.12%float; VFloat 2024.01%float]);
   ("P", [VFloat 4500%float; VFloat 4700%float; VFloat 4800%float]);
   ("Cape", [VFloat 30.5%float; VFloat 31.5%float; VNone])].

(** [float()] that reads "4.5" and nothing else; [str()] of a date cell. *)
Definition parse_four_and_a_half (s : string) : option float :=
  if String.eqb s "4.5" then Some 4.5%float else None.

Definition show_cell (v : PyVal) : string :=
  match v with
  | VDate iso => iso ++ " 00:00:00"
  | VStr s => s
  | _ => ""
  end.

(** Both spreadsheets can be downloaded and read; [wrong_sheet_world] finds
    Shiller's sheet where Damodaran's should be. *)
Definition sheet_world : World :=
  with_conversions parse_four_and_a_half show_cell
    (with_web web_up
       (fun file =>
          if String.eqb file "damodaran_temp.xlsx" then Ok erp_sheet
          else if String.eqb file "shiller_temp.xls" then Ok shiller_sheet
          else Raise outage)
       dead_world).

Definition wrong_sheet_world : World :=
  with_web web_up (fun _ => Ok shiller_sheet) fallback_world.

(** ** The menu *)

Definition get_metric_choices : list string :=
  [ "1. US P/E Ratio";
    "2. US CAPE Ratio";
    "3. US Credit Spreads";
    "4. US Stock Market / GDP";
    "5. US GDP";
    "6. US Government Debt & Deficit";
    "7. US 10-Year Yield";
    "8. US Inflation Rate";
    "9. US Equity Risk Premium";
    "10. US Earnings Growth";
    "11. Gold Price";
    "12. Bitcoin Price";
    "13. WTI Crude Oil Price";
    "14. US All Metrics";
    "15. Export All Metrics to CSV";
    "16. Plot Historical Data";
    "17. Plot Multiple Series" ].

(** [s.split(sep, 1)[1]]: what follows the first [sep]; the IndexError
    when [sep] does not occur. *)
Definition after_first (sep s : string) : Result string :=
  match String.index 0 sep s with
  | Some i =>
      Ok (String.substring (i + String.length sep)
            (String.length s - (i + String.length sep)) s)
  | None => Raise (IndexError "list index out of range")
  end.

(** [get_user_choice] once the input is the number [choice_num]: the text
    of the menu item it returns, or [None] when it prints the invalid-choice
    message and asks again. *)
Definition choice_text (choice_num : Z) : Result (option string) :=
  if andb (1 <=? choice_num)%Z (choice_num <=? 18)%Z then
    match find (fun menu_item =>
                  String.prefix (PyStr.of_Z choice_num ++ ". ") menu_item)
               get_metric_choices with
    | Some menu_item =>
        match after_first ". " menu_item with
        | Ok text => Ok (Some text)
        | Raise e => Raise e
        end
    | None => Ok None
    end
  else Ok None.

(** The menu texts that [main] handles itself. *)
Definition menu_commands : list string :=
  ["Export All Metrics to CSV"; "Plot Historical Data"; "Plot Multiple Series"].

(** A character that is neither an upper-case letter nor a blank. *)
Definition plain_char (c : ascii) : bool :=
  let n := nat_of_ascii c in
  andb (negb (andb (65 <=? n)%nat (n <=? 90)%nat)) (negb (n =? 32)%nat).

Fixpoint plain (s : string) : bool :=
  match s with
  | EmptyString => true
  | String c s' => andb (plain_char c) (plain s')
  end.

(** FRED has the federal debt and the deficit; [debt_gdp_world] has GDP too. *)
Definition debt_world : World :=
  with_fred (fun id =>
      if String.eqb id "GFDEBTN" then Ok (observations [34000000%float])
      else if String.eqb id "FYFSD" then Ok (observations [(-1700000)%float])
      else Raise outage) dead_world.

Definition debt_gdp_world : World :=
  with_fred (fun id =>
      if String.eqb id "GFDEBTN" then Ok (observations [50%float])
      else if String.eqb id "FYFSD" then Ok (observations [(-2)%float])
      else if String.eqb id "GDP" then Ok (observations [40%float])
      else Raise outage) dead_world.

(** ** Exporting the whole catalog *)

(** A computation that leaves the export path, the header flag and the sink
    as they are: all it does to the instance is log. *)
Definition log_only {A} (m : M A) : Prop :=
  forall st,
    csv_export_path (snd (m st)) = csv_export_path st
    /\ csv_headers_written (snd (m st)) = csv_headers_written st
    /\ sink (snd (m st)) = sink st.

(** [for metric_name in metric_names: export_metrics.get_metric_by_name(metric_name)] *)
Fixpoint fetch_each (w : World) (metric_names : list string) : M unit :=
  match metric_names with
  | [] => ret tt
  | metric_name :: rest =>
      bind (get_metric_by_name w metric_name) (fun _ => fetch_each w rest)
  end.

(** [export_all_metrics_to_csv]: a new instance on [csv_path], where the
    file system holds [file], fetches every indicator but 'US All Metrics';
    any exception ends the export with a message on the console.  (The FRED
    client of the new instance is taken to be built, as in [__init__].)  The
    result is the state the new instance and its sink end in. *)
Definition export_all_metrics_to_csv (w : World) (csv_path : string)
    (file : option (list CsvLine)) : State :=
  let export_metrics := new_instance w (Some csv_path) file in
  let metric_names :=
    filter (fun name => negb (String.eqb name "US All Metrics"))
           (map fst (get_metric_definitions w)) in
  snd (try_except (fetch_each w metric_names) (fun _ => ret tt) export_metrics).

(** The record [get_metric_by_name] returns for a name of the catalog. *)
Definition record_of (w : World) (metric_name : string) : Dict :=
  match outcome (get_metric_by_name w metric_name) idle with
  | Ok record => record
  | Raise _ => []
  end.

(** The indicators whose resolver returns a number or None. *)
Definition scalar_indicators : list string :=
  ["US P/E Ratio"; "US CAPE Ratio"; "US Stock Market / GDP"; "US 10-Year Yield";
   "US Inflation Rate"; "Gold Price"; "Bitcoin Price"; "WTI Crude Oil Price"].

(** FRED has fourteen months of CPI; the directory of the sink cannot be
    made. *)
Definition cpi_world : World :=
  with_fred (only_series "CPIAUCSL"
    (observations [290; 300; 301; 302; 303; 304; 305; 306; 307; 308; 309; 310;
                   311; 312]%float)) dead_world.

Definition no_directory_world : World :=
  with_makedirs (Raise disk_error) dead_world.

(** * Properties *)

(** ** Lists, series, the monad *)

Ltac run :=
  unfold outcome, try_except, bind, ret, raise, lift, log, _log_error; simpl.

Lemma nth_from_end_last {A} (xs : list A) (x : A) :
  nth_from_end 1 (xs ++ [x]) = Some x.
Proof.
  unfold nth_from_end. rewrite length_app. cbn [length].
  assert (E : (1 <=? length xs + 1)%nat = true) by (apply Nat.leb_le; lia).
  rewrite E.
  replace (length xs + 1 - 1)%nat with (length xs) by lia.
  rewrite nth_error_app2 by lia. rewrite Nat.sub_diag. reflexivity.
Qed.

Lemma nth_from_end_first {A} (x : A) (xs : list A) :
  nth_from_end (S (length xs)) (x :: xs) = Some x.
Proof.
  unfold nth_from_end. simpl length. rewrite Nat.leb_refl, Nat.sub_diag.
  reflexivity.
Qed.

Lemma nth_from_end_mid {A} (pre : list A) (x : A) (rest : list A) :
  nth_from_end (S (length rest)) (pre ++ x :: rest) = Some x.
Proof.
  unfold nth_from_end. rewrite length_app. cbn [length].
  assert (E : (S (length rest) <=? length pre + S (length rest))%nat = true)
    by (apply Nat.leb_le; lia).
  rewrite E.
  replace (length pre + S (length rest) - S (length rest))%nat
    with (length pre) by lia.
  rewrite nth_error_app2 by lia. rewrite Nat.sub_diag. reflexivity.
Qed.

(** A series that ends with [x], [n] observations, [y]. *)
Lemma series_ends (earlier between : Series) (dx dy : string) (x y : float)
    (n : nat) :
  length between = n ->
  let s := earlier ++ (dx, x) :: between ++ [(dy, y)] in
  nth_from_end 1 s = Some (dy, y)
  /\ nth_from_end (n + 2) s = Some (dx, x)
  /\ (n + 2 <= length s)%nat.
Proof.
  intros Hn s. subst s. split; [| split].
  - replace (earlier ++ (dx, x) :: between ++ [(dy, y)])
      with ((earlier ++ (dx, x) :: between) ++ [(dy, y)])
      by (rewrite <- app_assoc; reflexivity).
    apply nth_from_end_last.
  - replace (n + 2)%nat with (S (length (between ++ [(dy, y)])))
      by (rewrite length_app; cbn [length]; lia).
    apply nth_from_end_mid.
  - rewrite length_app. cbn [length]. rewrite length_app. cbn [length]. lia.
Qed.

Lemma empty_app_last (xs : Series) (x : string * float) :
  empty (xs ++ [x]) = false.
Proof. destruct xs; reflexivity. Qed.

Lemma iloc_last (xs : Series) (d : string) (x : float) (st : State) :
  iloc_neg 1 (xs ++ [(d, x)]) st = (Ok x, st).
Proof. unfold iloc_neg. rewrite nth_from_end_last. reflexivity. Qed.

Lemma safe_fred_ok (w : World) (id : string) (s : Series) (st : State) :
  fred_get_series w id = Ok s ->
  _safe_get_fred_series w id st = (Ok (Some s), st).
Proof. intros H. unfold _safe_get_fred_series. run. rewrite H. reflexivity. Qed.

Lemma safe_fred_raise (w : World) (id : string) (e : Exn) (st : State) :
  fred_get_series w id = Raise e ->
  outcome (_safe_get_fred_series w id) st = Ok None.
Proof. intros H. unfold _safe_get_fred_series. run. rewrite H. reflexivity. Qed.

(** ** Year-over-year inflation *)

Section Inflation.

#[local] Open Scope float_scope.

(** The value of the inflation computation on a series that has a
    thirteenth observation from the end. *)
Lemma get_inflation_rate_value (w : World) (st : State)
    (earlier between : Series) (d13 d1 : string) (x y : float) :
  fred_get_series w "CPIAUCSL"
  = Ok (earlier ++ (d13, x) :: between ++ [(d1, y)]) ->
  length between = 11%nat ->
  outcome (get_inflation_rate w) st = Ok (VFloat (((y / x) - 1) * 100)).
Proof.
  intros Hcpi Hlen.
  destruct (series_ends earlier between d13 d1 x y 11 Hlen) as (H1 & H13 & Hge).
  unfold outcome, get_inflation_rate, try_except, bind.
  rewrite (safe_fred_ok _ _ _ _ Hcpi).
  assert (E : (length (earlier ++ (d13, x) :: between ++ [(d1, y)]) <? 13)%nat
              = false) by (apply Nat.ltb_ge; cbn in Hge; lia).
  rewrite E.
  assert (Ee : empty (earlier ++ (d13, x) :: between ++ [(d1, y)]) = false)
    by (destruct earlier; reflexivity).
  rewrite Ee. cbn [orb]. unfold iloc_neg.
  cbn [Nat.add] in H13. rewrite H1. unfold ret at 1. cbv beta iota.
  rewrite H13. reflexivity.
Qed.



(** The exact binary64 result is one unit in the last place above ten. *)
Remark inflation_example_exact :
  ((110 / 100) - 1) * 100 = 10.000000000000009
  /\ (((110 / 100) - 1) * 100 =? 10) = false.
Proof. split; reflexivity. Qed.


(** C6. The earnings-growth computation returns a null growth rate when the
    value of a year ago is not positive; the inflation computation has no
    such test: on a CPI series whose thirteenth value from the end is 0 or
    -100 it divides and returns infinity and -210. *)
Theorem get_inflation_rate_divides_by_nonpositive :
  outcome (get_inflation_rate
             (with_fred (only_series "CPIAUCSL"
                (observations [0; 105; 105; 105; 105; 105; 105; 105; 105;
                               105; 105; 105; 110])) dead_world)) idle
  = Ok (VFloat infinity)
  /\ outcome (get_inflation_rate
             (with_fred (only_series "CPIAUCSL"
                (observations [-100; 105; 105; 105; 105; 105; 105; 105; 105;
                               105; 105; 105; 110])) dead_world)) idle
  = Ok (VFloat (-210))
  /\ outcome (get_earnings_growth
             (with_fred (only_series "CP"
                (observations [0; 105; 105; 105; 110])) dead_world)) idle
  = Ok (VDict [("growth_rate", VNone)]).
Proof. repeat split; reflexivity. Qed.

(** The guard of the earnings-growth computation, for every series. *)
Lemma get_earnings_growth_guard (w : World) (st : State) (cp : Series) (x : float) :
  fred_get_series w "CP" = Ok cp ->
  (5 <= length cp)%nat ->
  option_map snd (nth_from_end 5 cp) = Some x ->
  (x <=? 0) = true ->
  outcome (get_earnings_growth w) st = Ok (VDict [("growth_rate", VNone)]).
Proof.
  intros Hcp Hlen Hx Hle. unfold get_earnings_growth. run. rewrite Hcp.
  assert (E : (length cp <? 5)%nat = false) by (apply Nat.ltb_ge; lia).
  rewrite E. unfold iloc_neg.
  destruct (nth_from_end 1 cp) as [[d1 x1]|] eqn:E1.
  - destruct (nth_from_end 5 cp) as [[d5 x5]|] eqn:E5; [| discriminate].
    simpl in Hx. injection Hx as ->. run. rewrite Hle. reflexivity.
  - exfalso. unfold nth_from_end in E1.
    assert (E' : (1 <=? length cp)%nat = true) by (apply Nat.leb_le; lia).
    rewrite E' in E1. apply nth_error_None in E1. lia.
Qed.

End Inflation.

(** ** Credit spreads *)

Section CreditSpreads.

#[local] Open Scope float_scope.

(** The value of the credit spreads on two series that have a last
    observation. *)
Lemma get_credit_spreads_value (w : World) (st : State)
    (baa t10 : Series) (d1 d2 : string) (x y : float) :
  fred_get_series w "BAA" = Ok (baa ++ [(d1, x)]) ->
  fred_get_series w "DGS10" = Ok (t10 ++ [(d2, y)]) ->
  outcome (get_credit_spreads w) st
  = match PyFloat.to_int ((x - y) * 100) with
    | Some _ => Ok (VDict [("baa_yield", VFloat x); ("treasury_10y", VFloat y);
                           ("baa_spread", VFloat (x - y))])
    | None => Ok VNone
    end.
Proof.
  intros Hbaa H10.
  unfold outcome, get_credit_spreads, try_except, bind.
  rewrite (safe_fred_ok _ _ _ _ Hbaa), (safe_fred_ok _ _ _ _ H10).
  rewrite !empty_app_last. cbn [orb]. rewrite !iloc_last.
  unfold py_int.
  destruct (PyFloat.to_int ((x - y) * 100)) as [n |]; [reflexivity |].
  destruct (PyFloat.is_nan ((x - y) * 100)); reflexivity.
Qed.

(** C7. On every BAA series whose last observation is [x] and every 10-year
    series whose last observation is [y], the credit spreads are baa_yield
    [x], treasury_10y [y] and baa_spread [x - y], as long as the spread is a
    number (its basis points, int(spread * 100), are printed; for a NaN or
    infinite spread this raises and the resolver returns None).  With 6.50
    and 4.20 this is baa_yield 6.50, treasury_10y 4.20 and baa_spread 2.30.
    When either series is absent (the provider raises) or empty, all three
    entries are None. *)
Theorem get_credit_spreads_composite (w : World) (st : State) :
  (forall baa d1 x t10 d2 y,
      fred_get_series w "BAA" = Ok (baa ++ [(d1, x)]) ->
      fred_get_series w "DGS10" = Ok (t10 ++ [(d2, y)]) ->
      outcome (get_credit_spreads w) st
      = match PyFloat.to_int ((x - y) * 100) with
        | Some _ =>
            Ok (VDict [("baa_yield", VFloat x); ("treasury_10y", VFloat y);
                       ("baa_spread", VFloat (x - y))])
        | None => Ok VNone
        end)
  /\
  (forall baa d1 t10 d2,
      fred_get_series w "BAA" = Ok (baa ++ [(d1, 6.5)]) ->
      fred_get_series w "DGS10" = Ok (t10 ++ [(d2, 4.2)]) ->
      outcome (get_credit_spreads w) st
      = Ok (VDict [("baa_yield", VFloat 6.5); ("treasury_10y", VFloat 4.2);
                   ("baa_spread", VFloat 2.3)]))
  /\
  (absent_or_empty (fred_get_series w "BAA") = true
   \/ absent_or_empty (fred_get_series w "DGS10") = true ->
   outcome (get_credit_spreads w) st
   = Ok (VDict [("baa_yield", VNone); ("treasury_10y", VNone);
                ("baa_spread", VNone)])).
Proof.
  split; [| split].
  - intros baa d1 x t10 d2 y Hbaa H10.
    exact (get_credit_spreads_value w st baa t10 d1 d2 x y Hbaa H10).
  - intros baa d1 t10 d2 Hbaa H10.
    rewrite (get_credit_spreads_value w st baa t10 d1 d2 6.5 4.2 Hbaa H10).
    reflexivity.
  - intros H. unfold get_credit_spreads, _safe_get_fred_series. run.
    destruct (fred_get_series w "BAA") as [[|b bs]|e1];
      destruct (fred_get_series w "DGS10") as [[|t ts]|e2];
      simpl in *; try reflexivity.
    destruct H; discriminate.
Qed.

Lemma get_credit_spreads_composite_witness :
  outcome (get_credit_spreads
             (with_fred (fun id =>
                if String.eqb id "BAA" then Ok (observations [6.4; 6.5])
                else if String.eqb id "DGS10" then Ok (observations [4.1; 4.2])
                else Raise outage) dead_world)) idle
  = Ok (VDict [("baa_yield", VFloat 6.5); ("treasury_10y", VFloat 4.2);
               ("baa_spread", VFloat 2.3)])
  /\ outcome (get_credit_spreads
             (with_fred (fun id =>
                if String.eqb id "BAA" then Ok (observations [6.4; 6.5])
                else if String.eqb id "DGS10" then Ok []
                else Raise outage) dead_world)) idle
     = Ok (VDict [("baa_yield", VNone); ("treasury_10y", VNone);
                  ("baa_spread", VNone)])
  /\ outcome (get_credit_spreads
             (with_fred (fun id =>
                if String.eqb id "BAA" then Ok (observations [5.5; 5.75])
                else if String.eqb id "DGS10" then Ok (observations [4; 3.5])
                else Raise outage) dead_world)) idle
     = Ok (VDict [("baa_yield", VFloat 5.75); ("treasury_10y", VFloat 3.5);
                  ("baa_spread", VFloat 2.25)]).
Proof.
  split; [| split].
  - apply (proj1 (proj2 (get_credit_spreads_composite _ idle))
             (observations [6.4]) "2023-01-01"
             (observations [4.1]) "2023-01-01"); reflexivity.
  - apply (proj2 (proj2 (get_credit_spreads_composite _ idle))).
    right. reflexivity.
  - apply (proj1 (get_credit_spreads_composite _ idle)
             (observations [5.5]) "2023-01-01" 5.75
             (observations [4]) "2023-01-01" 3.5); reflexivity.
Defined.

End CreditSpreads.

(** ** Flattening a record into rows *)

Section Flattening.

Variable w : World.

Lemma flatten_unfold (metric_name : string) (data : Dict) :
  flatten w metric_name data
  = rows_of w metric_name (timestamp_of w data) (source_of data) (body_of data).
Proof. reflexivity. Qed.

Lemma rows_of_group_length (metric_name : string) (ts src : PyVal) (body : Dict) :
  length
    (flat_map
       (fun kv =>
          match snd kv with
          | VDict d =>
              map (fun sub =>
                     mkRow metric_name (fst kv ++ "_" ++ fst sub) (snd sub)
                           ts src (now_stamp w)) d
          | v => [mkRow metric_name (fst kv) v ts src (now_stamp w)]
          end) body)
  = leaf_count body.
Proof.
  unfold leaf_count. induction body as [| [k v] rest IH]; [reflexivity |].
  cbn [flat_map map]. rewrite length_app, IH.
  unfold list_sum. cbn [fold_right snd]. f_equal.
  destruct v; try reflexivity. apply length_map.
Qed.

(** C8. A scalar record gives one row whose sub_metric is the literal
    "value".  Every other record gives one row per leaf value: an entry
    that is not a dict gives the row named by its key, an entry that is a
    dict gives, for each of its entries, the row named outer key, underscore,
    inner key.  The nested record {credit: {baa: 6.5, t10: 4.2}} gives the
    rows credit_baa and credit_t10. *)
Theorem flatten_sub_metric (metric_name : string) :
  (forall v ts src,
      flatten w metric_name [("value", v); ("timestamp", ts); ("source", src)]
      = [mkRow metric_name "value" v ts src (now_stamp w)])
  /\
  (forall data,
      scalar_shaped (body_of data) = false ->
      (forall row,
          In row (flatten w metric_name data) <->
          (exists k v,
              In (k, v) (body_of data) /\ isinstance_dict v = false /\
              row = mkRow metric_name k v (timestamp_of w data)
                          (source_of data) (now_stamp w))
          \/
          (exists k d sk sv,
              In (k, VDict d) (body_of data) /\ In (sk, sv) d /\
              row = mkRow metric_name (k ++ "_" ++ sk) sv (timestamp_of w data)
                          (source_of data) (now_stamp w)))
      /\ length (flatten w metric_name data) = leaf_count (body_of data))
  /\
  map (fun r => (sub_metric r, value r))
      (flatten w metric_name
         [("credit", VDict [("baa", VFloat 6.5); ("t10", VFloat 4.2)])])
  = [("credit_baa", VFloat 6.5); ("credit_t10", VFloat 4.2)].
Proof.
  split; [| split].
  - reflexivity.
  - intros data Hshape. rewrite flatten_unfold. unfold rows_of.
    fold (scalar_shaped (body_of data)). rewrite Hshape.
    split; [| apply rows_of_group_length].
    intros row. rewrite in_flat_map. split.
    + intros [[k v] [Hin Hrow]]. cbn [fst snd] in Hrow.
      destruct v as [| x | s | iso | d].
      5: { right. apply in_map_iff in Hrow. destruct Hrow as [[sk sv] [<- Hsub]].
           exists k, d, sk, sv. auto. }
      all: left; destruct Hrow as [<- | []]; eexists k, _;
        (split; [exact Hin | split; reflexivity]).
    + intros [(k & v & Hin & Hnd & ->) | (k & d & sk & sv & Hin & Hsub & ->)].
      * exists (k, v). split; [exact Hin |]. cbn [fst snd].
        destruct v; try discriminate; left; reflexivity.
      * exists (k, VDict d). split; [exact Hin |]. cbn [fst snd].
        apply in_map_iff. exists (sk, sv). auto.
  - reflexivity.
Qed.

End Flattening.

(** The credit-spread record of a call by name, flattened: three leaves,
    three rows. *)
Lemma flatten_sub_metric_witness :
  length (flatten dead_world "US Credit Spreads"
            [("baa_yield", VFloat 6.5); ("treasury_10y", VFloat 4.2);
             ("baa_spread", VFloat 2.3); ("timestamp", VStr "2024-02-01");
             ("source", VStr "FRED - Moody's BAA Corporate Bond")])
  = 3%nat.
Proof.
  apply (proj2 (proj1 (proj2 (flatten_sub_metric dead_world "US Credit Spreads"))
                  [("baa_yield", VFloat 6.5); ("treasury_10y", VFloat 4.2);
                   ("baa_spread", VFloat 2.3); ("timestamp", VStr "2024-02-01");
                   ("source", VStr "FRED - Moody's BAA Corporate Bond")]
                  eq_refl)).
Defined.

(** A record whose only entry is 'value' is a scalar record whatever the
    value is: a dict under 'value' stays in one row. *)
Remark flatten_single_value_entry :
  map (fun r => (sub_metric r, value r))
      (flatten dead_world "Example" [("value", VDict [("a", VFloat 1)])])
  = [("value", VDict [("a", VFloat 1)])].
Proof. reflexivity. Qed.

(** ** Resolvers absorb their faults and ignore the instance state *)

Section Absorption.

Lemma stateless_ret {A} (a : A) : stateless (ret a).
Proof. intros s1 s2. reflexivity. Qed.

Lemma stateless_raise {A} (e : Exn) : stateless (@raise A e).
Proof. intros s1 s2. reflexivity. Qed.

Lemma stateless_lift {A} (r : Result A) : stateless (lift r).
Proof. intros s1 s2. reflexivity. Qed.

Lemma stateless_log (l : Level) (msg : string) : stateless (log l msg).
Proof. intros s1 s2. reflexivity. Qed.

Lemma stateless_bind {A B} (m : M A) (k : A -> M B) :
  stateless m -> (forall a, stateless (k a)) -> stateless (bind m k).
Proof.
  intros Hm Hk s1 s2. unfold bind. specialize (Hm s1 s2).
  destruct (m s1) as [[a1 | e1] t1], (m s2) as [[a2 | e2] t2];
    simpl in Hm; try discriminate.
  - injection Hm as ->. apply Hk.
  - injection Hm as ->. reflexivity.
Qed.

Lemma stateless_try {A} (body : M A) (handler : Exn -> M A) :
  stateless body -> (forall e, stateless (handler e)) ->
  stateless (try_except body handler).
Proof.
  intros Hm Hk s1 s2. unfold try_except. specialize (Hm s1 s2).
  destruct (body s1) as [[a1 | e1] t1], (body s2) as [[a2 | e2] t2];
    simpl in Hm; try discriminate.
  - exact Hm.
  - injection Hm as ->. apply Hk.
Qed.

Lemma stateless_log_error {A} (none : A) (msg : string) (e : Exn) :
  stateless (_log_error none msg e).
Proof. intros s1 s2. reflexivity. Qed.

Lemma never_raises_ret {A} (a : A) : never_raises (ret a).
Proof. intros st. exists a, st. reflexivity. Qed.

Lemma never_raises_bind {A B} (m : M A) (k : A -> M B) :
  never_raises m -> (forall a, never_raises (k a)) -> never_raises (bind m k).
Proof.
  intros Hm Hk st. unfold bind. destruct (Hm st) as (a & st' & ->). apply Hk.
Qed.

Lemma never_raises_try {A} (body : M A) (handler : Exn -> M A) :
  (forall e, never_raises (handler e)) -> never_raises (try_except body handler).
Proof.
  intros Hh st. unfold try_except. destruct (body st) as [[a | e] st'].
  - exists a, st'. reflexivity.
  - apply Hh.
Qed.

Lemma never_raises_log_error {A} (none : A) (msg : string) (e : Exn) :
  never_raises (_log_error none msg e).
Proof. intros st. eexists _, _. reflexivity. Qed.

Lemma never_raises_log (l : Level) (msg : string) : never_raises (log l msg).
Proof. intros st. eexists _, _. reflexivity. Qed.

End Absorption.

Create HintDb resolvers.

#[local] Hint Resolve stateless_ret stateless_raise stateless_lift stateless_log
  stateless_log_error never_raises_ret never_raises_log never_raises_log_error
  : resolvers.

(** Peel one layer of a computation built from the monad operations, case
    by case on what it inspects. *)
Ltac stateless_step :=
  match goal with
  | |- stateless (bind _ _) => apply stateless_bind; [| intros ?]
  | |- stateless (try_except _ _) => apply stateless_try; [| intros ?]
  | |- stateless (match ?x with _ => _ end) => destruct x
  | |- stateless (if ?b then _ else _) => destruct b
  | |- stateless (let x := _ in _) => cbv zeta
  | |- stateless _ => solve [auto with resolvers]
  end.

Ltac stateless_auto := repeat stateless_step.

Section ResolversStateless.

Variable w : World.

Lemma stateless_safe_fred (id : string) : stateless (_safe_get_fred_series w id).
Proof. unfold _safe_get_fred_series. stateless_auto. Qed.

Lemma stateless_iloc (k : nat) (s : Series) : stateless (iloc_neg k s).
Proof. unfold iloc_neg. stateless_auto. Qed.

Lemma stateless_index (k : nat) (s : Series) : stateless (index_neg k s).
Proof. unfold index_neg. stateless_auto. Qed.

Lemma stateless_py_float (v : PyVal) : stateless (py_float w v).
Proof. unfold py_float. stateless_auto. Qed.

Lemma stateless_py_int (x : float) : stateless (py_int x).
Proof. unfold py_int. stateless_auto. Qed.

Lemma stateless_download (url temp : string) : stateless (_download_file w url temp).
Proof. unfold _download_file. stateless_auto. Qed.

End ResolversStateless.

#[local] Hint Resolve stateless_safe_fred stateless_iloc stateless_index
  stateless_py_float stateless_py_int stateless_download : resolvers.

Section CatalogStateless.

Variable w : World.

Lemma stateless_ticker (symbol description field : string) :
  stateless (_get_ticker_info w symbol description field).
Proof. unfold _get_ticker_info. stateless_auto. Qed.

Lemma stateless_asset_price (symbol name unit : string) :
  stateless (get_asset_price w symbol name unit).
Proof. unfold get_asset_price. stateless_auto. Qed.

Lemma stateless_pe_ratio : stateless (get_pe_ratio w).
Proof. apply stateless_ticker. Qed.

Lemma stateless_cape_ratio : stateless (get_cape_ratio w).
Proof. unfold get_cape_ratio. stateless_auto. Qed.

Lemma stateless_credit_spreads : stateless (get_credit_spreads w).
Proof. unfold get_credit_spreads. stateless_auto. Qed.

Lemma stateless_market_to_gdp : stateless (get_market_to_gdp w).
Proof. unfold get_market_to_gdp. stateless_auto. Qed.

Lemma stateless_gdp_metrics : stateless (get_gdp_metrics w).
Proof. unfold get_gdp_metrics. stateless_auto. Qed.

Lemma stateless_government_metrics : stateless (get_government_metrics w).
Proof. unfold get_government_metrics. stateless_auto. Qed.

Lemma stateless_10yr_yield : stateless (get_10yr_yield w).
Proof. unfold get_10yr_yield. stateless_auto. Qed.

Lemma stateless_inflation_rate : stateless (get_inflation_rate w).
Proof. unfold get_inflation_rate. stateless_auto. Qed.

Lemma stateless_calculate_erp : stateless (_calculate_equity_risk_premium w).
Proof.
  unfold _calculate_equity_risk_premium.
  pose proof stateless_pe_ratio. pose proof stateless_10yr_yield.
  stateless_auto.
Qed.

Lemma stateless_convert_erp (v : PyVal) : stateless (convert_erp_value w v).
Proof. unfold convert_erp_value. stateless_auto. Qed.

Lemma stateless_equity_risk_premium : stateless (get_equity_risk_premium w).
Proof.
  unfold get_equity_risk_premium.
  pose proof stateless_calculate_erp. pose proof stateless_convert_erp.
  stateless_auto.
Qed.

Lemma stateless_earnings_growth : stateless (get_earnings_growth w).
Proof. unfold get_earnings_growth. stateless_auto. Qed.

End CatalogStateless.

(** ** Dicts *)

Module PyDictFacts.

Lemma contains_get (k : string) (d : Dict) :
  PyDict.contains k d = true <-> exists v, PyDict.get k d = Some v.
Proof.
  induction d as [| [k' v'] d IH]; simpl.
  - split; [discriminate | intros [v H]; discriminate].
  - destruct (String.eqb k k'); [| exact IH].
    split; [intros _; eexists; reflexivity | reflexivity].
Qed.

Lemma contains_keys (k : string) (d : Dict) :
  PyDict.contains k d = true <-> In k (PyDict.keys d).
Proof.
  induction d as [| [k' v'] d IH]; simpl.
  - split; [discriminate | tauto].
  - destruct (String.eqb_spec k k') as [-> | Hne].
    + split; auto.
    + rewrite IH. split; [auto | intros [E | H]; [congruence | exact H]].
Qed.

Lemma get_set_same (k : string) (v : PyVal) (d : Dict) :
  PyDict.get k (PyDict.set k v d) = Some v.
Proof.
  induction d as [| [k' v'] d IH]; simpl.
  - rewrite String.eqb_refl. reflexivity.
  - destruct (String.eqb k k') eqn:E; simpl; rewrite E; auto.
Qed.

Lemma get_set_other (k k' : string) (v : PyVal) (d : Dict) :
  k <> k' -> PyDict.get k (PyDict.set k' v d) = PyDict.get k d.
Proof.
  intros Hne. induction d as [| [k'' v''] d IH]; simpl.
  - destruct (String.eqb_spec k k'); [congruence | reflexivity].
  - destruct (String.eqb_spec k' k'') as [<- | Hne']; simpl.
    + destruct (String.eqb_spec k k'); [congruence | reflexivity].
    + destruct (String.eqb k k''); [reflexivity | exact IH].
Qed.

Lemma contains_set (k k' : string) (v : PyVal) (d : Dict) :
  PyDict.contains k (PyDict.set k' v d)
  = orb (String.eqb k k') (PyDict.contains k d).
Proof.
  induction d as [| [k'' v''] d IH]; simpl.
  - destruct (String.eqb k k'); reflexivity.
  - destruct (String.eqb_spec k' k'') as [<- | Hne']; simpl.
    + destruct (String.eqb k k'); reflexivity.
    + rewrite IH. destruct (String.eqb k k''), (String.eqb k k'); reflexivity.
Qed.

Lemma contains_update_all (k : string) (r m : Dict) :
  PyDict.contains k (update_all r m)
  = orb (PyDict.contains k r) (PyDict.contains k m).
Proof.
  unfold update_all. revert m.
  induction r as [| [k' v'] r IH]; intros m; simpl; [reflexivity |].
  rewrite IH, contains_set.
  destruct (String.eqb k k'), (PyDict.contains k r); reflexivity.
Qed.

Lemma get_update_all_other (k : string) (r m : Dict) :
  PyDict.contains k r = false ->
  PyDict.get k (update_all r m) = PyDict.get k m.
Proof.
  unfold update_all. revert m.
  induction r as [| [k' v'] r IH]; intros m H; simpl in *; [reflexivity |].
  destruct (String.eqb_spec k k') as [-> | Hne]; [discriminate |].
  rewrite (IH _ H). apply get_set_other. exact Hne.
Qed.

End PyDictFacts.

(** ** The aggregate as a function of the resolvers' outcomes *)

Section Aggregate.

Import PyDictFacts.

Lemma merge_outcome_keeps (k name : string) (r : Result PyVal) (m : Dict) :
  PyDict.contains k m = true ->
  PyDict.contains k (merge_outcome name r m) = true.
Proof.
  intros H. unfold merge_outcome.
  destruct r as [[| x | s | iso | d] | e];
    try (rewrite contains_set, H; apply orb_true_r).
  destruct (PyDict.contains "value" d).
  - destruct (PyDict.get "value" d); rewrite contains_set, H; apply orb_true_r.
  - rewrite contains_update_all, H. apply orb_true_r.
Qed.

Lemma merge_outcome_covers (k name : string) (r : Result PyVal) (m : Dict) :
  In k (normalized_keys name r) ->
  PyDict.contains k (merge_outcome name r m) = true.
Proof.
  unfold merge_outcome, normalized_keys.
  destruct r as [[| x | s | iso | d] | e];
    try (intros [<- | []]; rewrite contains_set, String.eqb_refl; reflexivity).
  destruct (PyDict.contains "value" d).
  - intros [<- | []].
    destruct (PyDict.get "value" d); rewrite contains_set, String.eqb_refl;
      reflexivity.
  - intros H. apply contains_keys in H.
    rewrite contains_update_all, H. reflexivity.
Qed.

Lemma merge_outcome_get_other (k name : string) (r : Result PyVal) (m : Dict) :
  ~ In k (normalized_keys name r) ->
  PyDict.get k (merge_outcome name r m) = PyDict.get k m.
Proof.
  unfold merge_outcome, normalized_keys.
  destruct r as [[| x | s | iso | d] | e];
    try (intros H; apply get_set_other; intros ->; apply H; left; reflexivity).
  destruct (PyDict.contains "value" d).
  - intros H.
    destruct (PyDict.get "value" d); apply get_set_other; intros ->; apply H;
      left; reflexivity.
  - intros H. apply get_update_all_other.
    destruct (PyDict.contains k d) eqn:E; [| reflexivity].
    exfalso. apply H. apply contains_keys. exact E.
Qed.

(** One iteration leaves in [metrics] what [merge_outcome] says, and never
    raises. *)
Lemma all_metrics_step_outcome (name : string) (func : M PyVal) (metrics : Dict)
    (st : State) :
  name <> "US All Metrics" ->
  exists st',
    all_metrics_step name func metrics st
    = (Ok (merge_outcome name (outcome func st) metrics), st').
Proof.
  intros Hne. unfold all_metrics_step, outcome.
  destruct (String.eqb_spec name "US All Metrics") as [-> | _]; [congruence |].
  cbn [negb]. unfold try_except, bind.
  destruct (func st) as [[v | e] st1]; cbn [fst].
  - unfold merge_result, merge_outcome.
    destruct v as [| x | s | iso | d]; try (eexists; reflexivity).
    destruct (PyDict.contains "value" d) eqn:E.
    + apply contains_get in E. destruct E as [v ->]. eexists; reflexivity.
    + eexists; reflexivity.
  - eexists; reflexivity.
Qed.

Lemma all_metrics_step_skip (func : M PyVal) (metrics : Dict) (st : State) :
  all_metrics_step "US All Metrics" func metrics st = (Ok metrics, st).
Proof. reflexivity. Qed.

(** The loop over a catalog of stateless resolvers. *)
Lemma all_metrics_loop_outcome (defs : Definitions) :
  Forall (fun d => stateless (fst (snd d))) defs ->
  forall metrics st,
  exists st',
    all_metrics_loop defs metrics st
    = (Ok (collect (map (fun d => (fst d, outcome (fst (snd d)) idle)) defs)
                   metrics), st').
Proof.
  induction 1 as [| [name [func src]] defs Hfunc _ IH]; intros metrics st.
  - exists st. reflexivity.
  - cbn [all_metrics_loop map collect fold_left fst snd]. unfold bind.
    destruct (String.eqb_spec name "US All Metrics") as [-> | Hne].
    + rewrite all_metrics_step_skip. apply IH.
    + destruct (all_metrics_step_outcome name func metrics st Hne) as [st1 ->].
      cbn [fst snd] in Hfunc. unfold outcome. rewrite (Hfunc st idle).
      apply IH.
Qed.

(** Whatever the resolvers do, the loop returns, and keeps the keys it has. *)
Lemma all_metrics_loop_total (defs : Definitions) :
  forall metrics st,
  exists m st',
    all_metrics_loop defs metrics st = (Ok m, st')
    /\ forall k, PyDict.contains k metrics = true -> PyDict.contains k m = true.
Proof.
  induction defs as [| [name [func src]] defs IH]; intros metrics st.
  - exists metrics, st. split; [reflexivity | auto].
  - cbn [all_metrics_loop]. unfold bind.
    destruct (String.eqb_spec name "US All Metrics") as [-> | Hne].
    + rewrite all_metrics_step_skip. apply IH.
    + destruct (all_metrics_step_outcome name func metrics st Hne) as [st1 ->].
      destruct (IH (merge_outcome name (outcome func st) metrics) st1)
        as (m & st' & Hrun & Hkeep).
      exists m, st'. split; [exact Hrun |].
      intros k Hk. apply Hkeep, merge_outcome_keeps, Hk.
Qed.

Lemma collect_keeps (k : string) (outcomes : list (string * Result PyVal)) :
  forall metrics,
    PyDict.contains k metrics = true ->
    PyDict.contains k (collect outcomes metrics) = true.
Proof.
  induction outcomes as [| [name r] rest IH]; intros metrics H; [exact H |].
  cbn [collect fold_left fst snd]. apply IH.
  destruct (String.eqb name "US All Metrics"); [exact H |].
  apply merge_outcome_keeps, H.
Qed.

Lemma collect_covers (k name : string) (r : Result PyVal)
    (outcomes : list (string * Result PyVal)) :
  In (name, r) outcomes ->
  name <> "US All Metrics" ->
  In k (normalized_keys name r) ->
  forall metrics, PyDict.contains k (collect outcomes metrics) = true.
Proof.
  intros Hin Hne Hk.
  induction outcomes as [| [name' r'] rest IH]; [destruct Hin |].
  intros metrics. cbn [collect fold_left fst snd].
  destruct Hin as [E | Hin].
  - injection E as -> ->.
    destruct (String.eqb_spec name "US All Metrics"); [congruence |].
    apply collect_keeps, merge_outcome_covers, Hk.
  - apply (IH Hin).
Qed.

Lemma collect_get_other (k : string) (outcomes : list (string * Result PyVal)) :
  Forall (fun o => fst o = "US All Metrics"
                   \/ ~ In k (normalized_keys (fst o) (snd o))) outcomes ->
  forall metrics, PyDict.get k (collect outcomes metrics) = PyDict.get k metrics.
Proof.
  induction 1 as [| [name r] rest Ho _ IH]; intros metrics; [reflexivity |].
  cbn [collect fold_left fst snd] in *. rewrite IH.
  destruct (String.eqb_spec name "US All Metrics") as [-> | Hne]; [reflexivity |].
  destruct Ho as [-> | Ho]; [congruence |].
  apply merge_outcome_get_other, Ho.
Qed.

End Aggregate.

(** ** What each resolver can return *)

(** Open the monad operations, then split on everything the computation
    inspects. *)
Ltac open_monad :=
  cbv beta iota delta
    [outcome try_except bind ret raise lift log _log_error
     _safe_get_fred_series _get_ticker_info get_asset_price _download_file].

Ltac crack :=
  repeat match goal with
    | |- context [match ?x with _ => _ end] =>
        lazymatch x with
        | context [match _ with _ => _ end] => fail
        | _ => destruct x; cbv beta iota; cbn [fst snd]
        end
    end.

Section Shapes.

Variable w : World.

Lemma shape_credit_spreads (st : State) :
  keys_within (possible_keys "US Credit Spreads")
    (normalized_keys "US Credit Spreads" (outcome (get_credit_spreads w) st)) = true.
Proof. unfold get_credit_spreads. open_monad. crack; reflexivity. Qed.

Lemma shape_gdp_metrics (st : State) :
  keys_within (possible_keys "US GDP")
    (normalized_keys "US GDP" (outcome (get_gdp_metrics w) st)) = true.
Proof. unfold get_gdp_metrics. open_monad. crack; reflexivity. Qed.

Lemma shape_government_metrics (st : State) :
  keys_within (possible_keys "US Government Debt & Deficit")
    (normalized_keys "US Government Debt & Deficit"
       (outcome (get_government_metrics w) st)) = true.
Proof. unfold get_government_metrics. open_monad. crack; reflexivity. Qed.

Lemma shape_earnings_growth (st : State) :
  keys_within (possible_keys "US Earnings Growth")
    (normalized_keys "US Earnings Growth" (outcome (get_earnings_growth w) st)) = true.
Proof. unfold get_earnings_growth. open_monad. crack; reflexivity. Qed.

Lemma shape_equity_risk_premium (st : State) :
  normalized_keys "US Equity Risk Premium" (outcome (get_equity_risk_premium w) st)
  = ["equity_risk_premium"].
Proof.
  unfold get_equity_risk_premium, _calculate_equity_risk_premium,
    convert_erp_value, get_pe_ratio, get_10yr_yield.
  open_monad. crack; reflexivity.
Qed.

Lemma scalar_ticker (symbol description field : string) (st : State) :
  scalar_outcome (outcome (_get_ticker_info w symbol description field) st) = true.
Proof. open_monad. crack; reflexivity. Qed.

Lemma scalar_asset_price (symbol name unit : string) (st : State) :
  scalar_outcome (outcome (get_asset_price w symbol name unit) st) = true.
Proof. open_monad. crack; reflexivity. Qed.

Lemma scalar_cape_ratio (st : State) :
  scalar_outcome (outcome (get_cape_ratio w) st) = true.
Proof. unfold get_cape_ratio, py_float. open_monad. crack; reflexivity. Qed.

Lemma scalar_market_to_gdp (st : State) :
  scalar_outcome (outcome (get_market_to_gdp w) st) = true.
Proof. unfold get_market_to_gdp. open_monad. crack; reflexivity. Qed.

Lemma scalar_10yr_yield (st : State) :
  scalar_outcome (outcome (get_10yr_yield w) st) = true.
Proof. unfold get_10yr_yield. open_monad. crack; reflexivity. Qed.

Lemma scalar_inflation_rate (st : State) :
  scalar_outcome (outcome (get_inflation_rate w) st) = true.
Proof. unfold get_inflation_rate. open_monad. crack; reflexivity. Qed.

Lemma group_credit_spreads (st : State) :
  by_name_or_group "US Credit Spreads" (outcome (get_credit_spreads w) st) = true.
Proof. unfold get_credit_spreads. open_monad. crack; reflexivity. Qed.

Lemma group_gdp_metrics (st : State) :
  by_name_or_group "US GDP" (outcome (get_gdp_metrics w) st) = true.
Proof. unfold get_gdp_metrics. open_monad. crack; reflexivity. Qed.

Lemma group_government_metrics (st : State) :
  by_name_or_group "US Government Debt & Deficit"
    (outcome (get_government_metrics w) st) = true.
Proof. unfold get_government_metrics. open_monad. crack; reflexivity. Qed.

Lemma group_earnings_growth (st : State) :
  by_name_or_group "US Earnings Growth" (outcome (get_earnings_growth w) st) = true.
Proof. unfold get_earnings_growth. open_monad. crack; reflexivity. Qed.

Lemma group_equity_risk_premium (st : State) :
  by_name_or_group "US Equity Risk Premium"
    (outcome (get_equity_risk_premium w) st) = true.
Proof.
  unfold get_equity_risk_premium, _calculate_equity_risk_premium,
    convert_erp_value, get_pe_ratio, get_10yr_yield.
  open_monad. crack; reflexivity.
Qed.

Lemma scalar_by_name (name : string) (r : Result PyVal) :
  scalar_outcome r = true -> by_name_or_group name r = true.
Proof. destruct r as [[| | | |] |]; try reflexivity. discriminate. Qed.

Lemma scalar_keys (name : string) (r : Result PyVal) :
  scalar_outcome r = true ->
  normalized_keys name r = [_normalize_metric_name name].
Proof. destruct r as [[| | | |] |]; try reflexivity. discriminate. Qed.

End Shapes.

(** ** The aggregate over the catalog *)

Section AggregateCatalog.

Import PyDictFacts.

Variable w : World.

Lemma catalog_stateless (all_metrics : M PyVal) :
  stateless all_metrics ->
  Forall (fun d => stateless (fst (snd d))) (get_metric_definitions_of w all_metrics).
Proof.
  intros Hall. unfold get_metric_definitions_of.
  repeat (apply Forall_cons; cbn [fst snd]);
    try apply Forall_nil; try exact Hall;
    unfold get_gold_price, get_bitcoin_price, get_wti_crude_price;
    auto using stateless_pe_ratio, stateless_cape_ratio, stateless_credit_spreads,
      stateless_market_to_gdp, stateless_gdp_metrics, stateless_government_metrics,
      stateless_10yr_yield, stateless_inflation_rate, stateless_equity_risk_premium,
      stateless_earnings_growth, stateless_asset_price.
Qed.

(** [get_all_metrics] returns the mapping collected from the outcomes. *)
Lemma get_all_metrics_outcome (st : State) :
  exists st',
    get_all_metrics w st = (Ok (VDict (collect (catalog_outcomes w) [])), st').
Proof.
  unfold get_all_metrics, get_all_metrics_over, bind.
  destruct (all_metrics_loop_outcome _ (catalog_stateless (ret VNone) (stateless_ret _))
              [] st) as [st' ->].
  exists st'. reflexivity.
Qed.

Lemma catalog_possible :
  Forall (fun o => fst o = "US All Metrics"
                   \/ keys_within (possible_keys (fst o))
                        (normalized_keys (fst o) (snd o)) = true)
         (catalog_outcomes w).
Proof.
  unfold catalog_outcomes, get_metric_definitions_of. cbn [map fst snd].
  repeat apply Forall_cons; cbn [fst snd]; try apply Forall_nil;
    try (left; reflexivity); right;
    try apply shape_credit_spreads; try apply shape_gdp_metrics;
    try apply shape_government_metrics; try apply shape_earnings_growth;
    try (rewrite shape_equity_risk_premium; reflexivity);
    rewrite scalar_keys;
    try reflexivity;
    unfold get_pe_ratio, get_gold_price, get_bitcoin_price, get_wti_crude_price;
    auto using scalar_ticker, scalar_asset_price, scalar_cape_ratio,
      scalar_market_to_gdp, scalar_10yr_yield, scalar_inflation_rate.
Qed.

Lemma catalog_by_name_or_group :
  Forall (fun o => fst o = "US All Metrics"
                   \/ by_name_or_group (fst o) (snd o) = true)
         (catalog_outcomes w).
Proof.
  unfold catalog_outcomes, get_metric_definitions_of. cbn [map fst snd].
  repeat apply Forall_cons; cbn [fst snd]; try apply Forall_nil;
    try (left; reflexivity); right;
    try apply group_credit_spreads; try apply group_gdp_metrics;
    try apply group_government_metrics; try apply group_earnings_growth;
    try apply group_equity_risk_premium;
    apply scalar_by_name;
    unfold get_pe_ratio, get_gold_price, get_bitcoin_price, get_wti_crude_price;
    auto using scalar_ticker, scalar_asset_price, scalar_cape_ratio,
      scalar_market_to_gdp, scalar_10yr_yield, scalar_inflation_rate.
Qed.

(** An indicator of the list is in the merged mapping by its normalized
    name, or by all the sub-keys of its group. *)
Lemma collect_by_name_or_group (name : string) (r : Result PyVal)
    (outcomes : list (string * Result PyVal)) (metrics : Dict) :
  In (name, r) outcomes ->
  name <> "US All Metrics" ->
  by_name_or_group name r = true ->
  PyDict.contains (_normalize_metric_name name) (collect outcomes metrics) = true
  \/ (group_keys name <> []
      /\ forall k, In k (group_keys name) ->
           PyDict.contains k (collect outcomes metrics) = true).
Proof.
  intros Hin Hne Hshape.
  assert (Hnamed : In (_normalize_metric_name name) (normalized_keys name r) ->
            PyDict.contains (_normalize_metric_name name)
              (collect outcomes metrics) = true).
  { intros Hk. apply (collect_covers _ name r); assumption. }
  destruct r as [[| x | t | iso | d] | e];
    try (left; apply Hnamed; left; reflexivity).
  cbn [by_name_or_group] in Hshape. cbn [normalized_keys] in Hnamed.
  destruct (PyDict.contains "value" d) eqn:Hv.
  - left. apply Hnamed. left. reflexivity.
  - cbn [orb] in Hshape. apply andb_prop in Hshape. destruct Hshape as [Hlen Hall].
    right. split.
    + intros E. rewrite E in Hlen. discriminate Hlen.
    + intros k Hk. rewrite forallb_forall in Hall.
      apply (collect_covers k name (Ok (VDict d))); [assumption | assumption |].
      cbn [normalized_keys]. rewrite Hv. apply contains_keys, Hall, Hk.
Qed.

Lemma keys_within_absent (k : string) (allowed ks : list string) :
  keys_within allowed ks = true ->
  existsb (String.eqb k) allowed = false ->
  ~ In k ks.
Proof.
  unfold keys_within. intros Hall Hk Hin.
  rewrite forallb_forall in Hall. rewrite (Hall k Hin) in Hk. discriminate.
Qed.

(** A key that no indicator of the list can enter under is left as it was. *)
Lemma collect_untouched (k : string) (outcomes : list (string * Result PyVal)) :
  Forall (fun o => fst o = "US All Metrics"
                   \/ keys_within (possible_keys (fst o))
                        (normalized_keys (fst o) (snd o)) = true) outcomes ->
  forallb (fun o => negb (existsb (String.eqb k) (possible_keys (fst o))))
          outcomes = true ->
  forall metrics, PyDict.get k (collect outcomes metrics) = PyDict.get k metrics.
Proof.
  intros Hposs Hk. apply collect_get_other.
  rewrite forallb_forall in Hk. rewrite Forall_forall in *.
  intros o Ho. destruct (Hposs o Ho) as [E | Hw]; [left; exact E | right].
  apply (keys_within_absent _ _ _ Hw).
  apply negb_true_iff, Hk, Ho.
Qed.

Lemma collect_app (xs ys : list (string * Result PyVal)) (metrics : Dict) :
  collect (xs ++ ys) metrics = collect ys (collect xs metrics).
Proof. apply fold_left_app. Qed.

Lemma catalog_outcomes_split :
  catalog_outcomes w
  = firstn 8 (catalog_outcomes w)
    ++ [("US Equity Risk Premium", outcome (get_equity_risk_premium w) idle)]
    ++ skipn 9 (catalog_outcomes w).
Proof. reflexivity. Qed.

Lemma contains_false_get (k : string) (d : Dict) :
  PyDict.get k d = None -> PyDict.contains k d = false.
Proof.
  intros H. destruct (PyDict.contains k d) eqn:E; [| reflexivity].
  apply contains_get in E. destruct E as [v E]. congruence.
Qed.

(** C10. A dict result with a 'value' entry enters the merged mapping as
    that entry alone, under the normalized name of its indicator, and no
    other key of the mapping changes.  When the equity-risk-premium resolver
    returns value, earnings_yield and risk_free_rate, the mapping of
    [get_all_metrics] holds the value under equity_risk_premium and has no
    earnings_yield and no risk_free_rate entry. *)
Theorem get_all_metrics_collapses_value :
  (forall name d v metrics st,
      PyDict.get "value" d = Some v ->
      merge_result name (VDict d) metrics st
      = (Ok (PyDict.set (_normalize_metric_name name) v metrics), st)
      /\ forall k, k <> _normalize_metric_name name ->
           PyDict.get k (PyDict.set (_normalize_metric_name name) v metrics)
           = PyDict.get k metrics)
  /\
  (forall st0 st rp ey rf,
      outcome (get_equity_risk_premium w) st0
      = Ok (VDict [("value", rp); ("earnings_yield", ey); ("risk_free_rate", rf)]) ->
      exists m st',
        get_all_metrics w st = (Ok (VDict m), st')
        /\ PyDict.get "equity_risk_premium" m = Some rp
        /\ PyDict.contains "earnings_yield" m = false
        /\ PyDict.contains "risk_free_rate" m = false).
Proof.
  split.
  - intros name d v metrics st Hv. split.
    + unfold merge_result.
      assert (Hc : PyDict.contains "value" d = true)
        by (apply contains_get; eauto).
      rewrite Hc, Hv. reflexivity.
    + intros k Hk. apply get_set_other, Hk.
  - intros st0 st rp ey rf Herp.
    destruct (get_all_metrics_outcome st) as [st' Hrun].
    exists (collect (catalog_outcomes w) []), st'.
    split; [exact Hrun |]. split; [| split].
    + rewrite catalog_outcomes_split, !collect_app.
      rewrite collect_untouched.
      * unfold outcome in *.
        rewrite (stateless_equity_risk_premium w idle st0), Herp.
        cbn [collect fold_left fst snd String.eqb Ascii.eqb Bool.eqb].
        apply get_set_same.
      * apply Forall_forall. intros o Ho.
        pose proof catalog_possible as Hposs. rewrite Forall_forall in Hposs.
        apply Hposs. rewrite <- (firstn_skipn 9 (catalog_outcomes w)).
        apply in_or_app. right. exact Ho.
      * reflexivity.
    + apply contains_false_get.
      rewrite (collect_untouched _ _ catalog_possible); reflexivity.
    + apply contains_false_get.
      rewrite (collect_untouched _ _ catalog_possible); reflexivity.
Qed.

End AggregateCatalog.

(** ** Coverage of the aggregate, and isolation of faults *)

Section Coverage.

Import PyDictFacts.

Lemma all_metrics_loop_app (xs ys : Definitions) (metrics : Dict) (st : State) :
  exists m1 s1,
    all_metrics_loop xs metrics st = (Ok m1, s1)
    /\ all_metrics_loop (xs ++ ys) metrics st = all_metrics_loop ys m1 s1.
Proof.
  revert metrics st. induction xs as [| [name [func src]] xs IH]; intros metrics st.
  - exists metrics, st. split; reflexivity.
  - cbn [all_metrics_loop app]. unfold bind.
    assert (Hstep : exists m' s', all_metrics_step name func metrics st = (Ok m', s')).
    { destruct (String.eqb_spec name "US All Metrics") as [-> | Hne].
      - eexists _, _. apply all_metrics_step_skip.
      - destruct (all_metrics_step_outcome name func metrics st Hne) as [s' H].
        eexists _, _. exact H. }
    destruct Hstep as (m' & s' & ->). apply IH.
Qed.

(** Entries that cannot enter under [k] leave the entry of [k] as it is. *)
Lemma all_metrics_loop_get_other (k : string) (defs : Definitions) :
  (forall d s, In d defs ->
      fst d = "US All Metrics"
      \/ ~ In k (normalized_keys (fst d) (outcome (fst (snd d)) s))) ->
  forall metrics st m st',
    all_metrics_loop defs metrics st = (Ok m, st') ->
    PyDict.get k m = PyDict.get k metrics.
Proof.
  induction defs as [| [name [func src]] defs IH]; intros Hdefs metrics st m st' Hrun.
  - injection Hrun as <- _. reflexivity.
  - cbn [all_metrics_loop] in Hrun. unfold bind in Hrun.
    assert (Hrest : forall d s, In d defs ->
              fst d = "US All Metrics"
              \/ ~ In k (normalized_keys (fst d) (outcome (fst (snd d)) s)))
      by (intros d s Hd; apply Hdefs; right; exact Hd).
    destruct (String.eqb_spec name "US All Metrics") as [-> | Hne].
    + rewrite all_metrics_step_skip in Hrun. apply (IH Hrest _ _ _ _ Hrun).
    + destruct (all_metrics_step_outcome name func metrics st Hne) as [s1 Hstep].
      rewrite Hstep in Hrun. rewrite (IH Hrest _ _ _ _ Hrun).
      apply merge_outcome_get_other.
      destruct (Hdefs (name, (func, src)) st (or_introl eq_refl)) as [E | H];
        [contradiction | exact H].
Qed.

(** The iteration of a resolver that raises: the error is logged and the
    normalized name is set to None. *)
Lemma all_metrics_step_raise (name : string) (func : M PyVal) (metrics : Dict)
    (e : Exn) (st st1 : State) :
  name <> "US All Metrics" ->
  func st = (Raise e, st1) ->
  all_metrics_step name func metrics st
  = (Ok (PyDict.set (_normalize_metric_name name) VNone metrics),
     snd (log ERROR ("Error getting " ++ name ++ ": " ++ exn_text e) st1)).
Proof.
  intros Hne Hrun. unfold all_metrics_step.
  destruct (String.eqb_spec name "US All Metrics") as [-> | _]; [congruence |].
  cbn [negb]. unfold try_except, bind. rewrite Hrun. reflexivity.
Qed.

(** An entry of the list leaves its keys in the mapping, wherever it is. *)
Lemma all_metrics_loop_covers (k : string) (name : string) (func : M PyVal)
    (src : string) (defs : Definitions) :
  In (name, (func, src)) defs ->
  name <> "US All Metrics" ->
  (forall s, In k (normalized_keys name (outcome func s))) ->
  forall metrics st m st',
    all_metrics_loop defs metrics st = (Ok m, st') ->
    PyDict.contains k m = true.
Proof.
  intros Hin Hne Hk.
  induction defs as [| [name0 [func0 src0]] defs IH]; [destruct Hin |].
  intros metrics st m st' Hrun. cbn [all_metrics_loop] in Hrun. unfold bind in Hrun.
  destruct Hin as [E | Hin].
  - injection E as -> -> ->.
    destruct (all_metrics_step_outcome name func metrics st Hne) as [s1 Hstep].
    rewrite Hstep in Hrun.
    destruct (all_metrics_loop_total defs
                (merge_outcome name (outcome func st) metrics) s1)
      as (m2 & s2 & Hrun2 & Hkeep).
    rewrite Hrun2 in Hrun. injection Hrun as <- _.
    apply Hkeep, merge_outcome_covers, Hk.
  - assert (Hstep : exists m1 s1,
              all_metrics_step name0 func0 metrics st = (Ok m1, s1)).
    { destruct (String.eqb_spec name0 "US All Metrics") as [-> | Hne0].
      - eexists _, _. apply all_metrics_step_skip.
      - destruct (all_metrics_step_outcome name0 func0 metrics st Hne0) as [s1 H].
        eexists _, _. exact H. }
    destruct Hstep as (m1 & s1 & Hstep). rewrite Hstep in Hrun.
    apply (IH Hin _ _ _ _ Hrun).
Qed.

(** A value under [k] stays when every entry of the list writes that value
    under [k], or does not enter under [k]. *)
Lemma all_metrics_loop_keeps_value (k : string) (v : PyVal) (name : string)
    (func : M PyVal) (src : string) (defs : Definitions) :
  name <> "US All Metrics" ->
  (forall s, outcome func s = Ok v) ->
  isinstance_dict v = false ->
  k = _normalize_metric_name name ->
  (forall d s, In d defs ->
      fst d = "US All Metrics"
      \/ d = (name, (func, src))
      \/ ~ In k (normalized_keys (fst d) (outcome (fst (snd d)) s))) ->
  forall metrics st m st',
    PyDict.get k metrics = Some v ->
    all_metrics_loop defs metrics st = (Ok m, st') ->
    PyDict.get k m = Some v.
Proof.
  intros Hne Hv Hnd Hk.
  induction defs as [| [name0 [func0 src0]] defs IH];
    intros Hdefs metrics st m st' Hget Hrun.
  - injection Hrun as <- _. exact Hget.
  - cbn [all_metrics_loop] in Hrun. unfold bind in Hrun.
    assert (Hrest : forall d s, In d defs ->
              fst d = "US All Metrics"
              \/ d = (name, (func, src))
              \/ ~ In k (normalized_keys (fst d) (outcome (fst (snd d)) s)))
      by (intros d s Hd; apply Hdefs; right; exact Hd).
    destruct (String.eqb_spec name0 "US All Metrics") as [-> | Hne0].
    + rewrite all_metrics_step_skip in Hrun. apply (IH Hrest _ _ _ _ Hget Hrun).
    + destruct (all_metrics_step_outcome name0 func0 metrics st Hne0) as [s1 Hstep].
      rewrite Hstep in Hrun. refine (IH Hrest _ _ m st' _ Hrun).
      destruct (Hdefs (name0, (func0, src0)) st (or_introl eq_refl))
        as [E | [E | Hnot]]; [contradiction | |].
      * injection E as -> -> ->. rewrite Hv.
        destruct v; try discriminate Hnd; cbn [merge_outcome]; rewrite Hk;
          apply get_set_same.
      * cbn [fst snd] in Hnot. rewrite (merge_outcome_get_other _ _ _ _ Hnot).
        exact Hget.
Qed.

(** An entry that returns a value which is no dict leaves it under its
    normalized name, when no other entry of the list enters under it. *)
Lemma all_metrics_loop_sets_value (v : PyVal) (name : string)
    (func : M PyVal) (src : string) (defs : Definitions) :
  In (name, (func, src)) defs ->
  name <> "US All Metrics" ->
  (forall s, outcome func s = Ok v) ->
  isinstance_dict v = false ->
  (forall d s, In d defs ->
      fst d = "US All Metrics"
      \/ d = (name, (func, src))
      \/ ~ In (_normalize_metric_name name)
              (normalized_keys (fst d) (outcome (fst (snd d)) s))) ->
  forall metrics st m st',
    all_metrics_loop defs metrics st = (Ok m, st') ->
    PyDict.get (_normalize_metric_name name) m = Some v.
Proof.
  intros Hin Hne Hv Hnd.
  induction defs as [| [name0 [func0 src0]] defs IH]; [destruct Hin |].
  intros Hdefs metrics st m st' Hrun.
  cbn [all_metrics_loop] in Hrun. unfold bind in Hrun.
  assert (Hrest : forall d s, In d defs ->
            fst d = "US All Metrics"
            \/ d = (name, (func, src))
            \/ ~ In (_normalize_metric_name name)
                    (normalized_keys (fst d) (outcome (fst (snd d)) s)))
    by (intros d s Hd; apply Hdefs; right; exact Hd).
  destruct Hin as [E | Hin].
  - injection E as -> -> ->.
    destruct (all_metrics_step_outcome name func metrics st Hne) as [s1 Hstep].
    rewrite Hstep in Hrun.
    refine (all_metrics_loop_keeps_value (_normalize_metric_name name) v name func
              src defs Hne Hv Hnd eq_refl Hrest _ _ m st' _ Hrun).
    rewrite Hv. destruct v; try discriminate Hnd; cbn [merge_outcome];
      apply get_set_same.
  - assert (Hstep : exists m1 s1,
              all_metrics_step name0 func0 metrics st = (Ok m1, s1)).
    { destruct (String.eqb_spec name0 "US All Metrics") as [-> | Hne0].
      - eexists _, _. apply all_metrics_step_skip.
      - destruct (all_metrics_step_outcome name0 func0 metrics st Hne0) as [s1 H].
        eexists _, _. exact H. }
    destruct Hstep as (m1 & s1 & Hstep). rewrite Hstep in Hrun.
    apply (IH Hin Hrest _ _ _ _ Hrun).
Qed.

Variable w : World.

Hypothesis outage_everywhere : all_providers_fail w.

Ltac providers_down :=
  destruct outage_everywhere as (Hticker & Hfred & Hget & Hexcel);
  repeat match goal with
    | |- context [ticker_info w ?s ?f] => destruct (Hticker s f) as [? ->]
    | |- context [fred_get_series w ?id] => destruct (Hfred id) as [? ->]
    | |- context [requests_get w ?u] => destruct (Hget u) as [? ->]
    | |- context [read_excel w ?u] => destruct (Hexcel u) as [? ->]
    end.

Lemma outage_ticker (symbol description field : string) (st : State) :
  outcome (_get_ticker_info w symbol description field) st = Ok VNone.
Proof. open_monad. providers_down. reflexivity. Qed.

Lemma outage_asset_price (symbol name unit : string) (st : State) :
  outcome (get_asset_price w symbol name unit) st = Ok VNone.
Proof. open_monad. providers_down. reflexivity. Qed.

Lemma outage_cape_ratio (st : State) : outcome (get_cape_ratio w) st = Ok VNone.
Proof. unfold get_cape_ratio. open_monad. providers_down. reflexivity. Qed.

Lemma outage_credit_spreads (st : State) :
  outcome (get_credit_spreads w) st
  = Ok (VDict [("baa_yield", VNone); ("treasury_10y", VNone); ("baa_spread", VNone)]).
Proof. unfold get_credit_spreads. open_monad. providers_down. reflexivity. Qed.

Lemma outage_market_to_gdp (st : State) : outcome (get_market_to_gdp w) st = Ok VNone.
Proof. unfold get_market_to_gdp. open_monad. providers_down. reflexivity. Qed.

Lemma outage_gdp_metrics (st : State) :
  outcome (get_gdp_metrics w) st = Ok (VDict [("gdp", VNone); ("gdp_growth", VNone)]).
Proof. unfold get_gdp_metrics. open_monad. providers_down. reflexivity. Qed.

Lemma outage_government_metrics (st : State) :
  outcome (get_government_metrics w) st
  = Ok (VDict [("govt_debt", VNone); ("govt_deficit", VNone); ("debt_to_gdp", VNone)]).
Proof. unfold get_government_metrics. open_monad. providers_down. reflexivity. Qed.

Lemma outage_10yr_yield (st : State) : outcome (get_10yr_yield w) st = Ok VNone.
Proof. unfold get_10yr_yield. open_monad. providers_down. reflexivity. Qed.

Lemma outage_inflation_rate (st : State) : outcome (get_inflation_rate w) st = Ok VNone.
Proof. unfold get_inflation_rate. open_monad. providers_down. reflexivity. Qed.

Lemma outage_equity_risk_premium (st : State) :
  outcome (get_equity_risk_premium w) st = Ok (VDict [("value", VNone)]).
Proof.
  unfold get_equity_risk_premium, _calculate_equity_risk_premium, get_pe_ratio.
  open_monad. providers_down. destruct (openpyxl_installed w); reflexivity.
Qed.

Lemma outage_earnings_growth (st : State) : outcome (get_earnings_growth w) st = Ok VNone.
Proof. unfold get_earnings_growth. open_monad. providers_down. reflexivity. Qed.

Lemma outage_collect : collect (catalog_outcomes w) [] = all_unavailable.
Proof.
  unfold catalog_outcomes, get_metric_definitions_of. cbn [map fst snd].
  unfold get_pe_ratio, get_gold_price, get_bitcoin_price, get_wti_crude_price.
  rewrite !outage_ticker, !outage_asset_price, outage_cape_ratio,
    outage_credit_spreads, outage_market_to_gdp, outage_gdp_metrics,
    outage_government_metrics, outage_10yr_yield, outage_inflation_rate,
    outage_equity_risk_premium, outage_earnings_growth.
  reflexivity.
Qed.

End Coverage.

Section CoverageTheorem.

Import PyDictFacts.

Lemma catalog_entry_outcome (w : World) (name : string) (func : M PyVal)
    (src : string) (st0 : State) :
  In (name, (func, src)) (get_metric_definitions w) ->
  name <> "US All Metrics" ->
  In (name, outcome func st0) (catalog_outcomes w).
Proof.
  intros Hin Hne.
  assert (Hst : stateless func /\ In (name, outcome func idle) (catalog_outcomes w)).
  { pose proof (catalog_stateless w _ (stateless_ret VNone)) as Hall.
    rewrite Forall_forall in Hall.
    assert (Hin' : In (name, (func, src)) (get_metric_definitions_of w (ret VNone))).
    { unfold get_metric_definitions, get_metric_definitions_of in *.
      cbn [In] in *.
      repeat (destruct Hin as [Hin | Hin]; [tauto |]).
      destruct Hin as [Hin | []]. injection Hin as <- _ _. congruence. }
    split.
    - apply (Hall _ Hin').
    - unfold catalog_outcomes.
      apply (in_map (fun d => (fst d, outcome (fst (snd d)) idle)) _ _ Hin'). }
  destruct Hst as [Hst Hidle]. unfold outcome in *.
  rewrite (Hst st0 idle). exact Hidle.
Qed.


End CoverageTheorem.



(** The fallback of the risk premium computes 1 from an earnings yield of 5
    and a risk-free rate of 4; only the 1 reaches the mapping. *)
Lemma get_all_metrics_collapses_value_witness :
  merge_result "US Equity Risk Premium"
    (VDict [("value", VFloat 1); ("earnings_yield", VFloat 5);
            ("risk_free_rate", VFloat 4)]) [] idle
  = (Ok [("equity_risk_premium", VFloat 1)], idle)
  /\ exists m st',
       get_all_metrics fallback_world idle = (Ok (VDict m), st')
       /\ PyDict.get "equity_risk_premium" m = Some (VFloat 1)
       /\ PyDict.contains "earnings_yield" m = false
       /\ PyDict.contains "risk_free_rate" m = false.
Proof.
  split.
  - apply (proj1 (get_all_metrics_collapses_value fallback_world)
             "US Equity Risk Premium"
             [("value", VFloat 1); ("earnings_yield", VFloat 5);
              ("risk_free_rate", VFloat 4)]
             (VFloat 1) [] idle eq_refl).
  - apply (proj2 (get_all_metrics_collapses_value fallback_world)
             idle idle (VFloat 1) (VFloat 5) (VFloat 4)).
    reflexivity.
Defined.

(** ** Timestamps *)

Section Timestamps.

Variable w : World.

Lemma never_raises_timestamp (name : string) :
  never_raises (get_timestamp_for_metric w name).
Proof.
  unfold get_timestamp_for_metric. apply never_raises_try.
  intros e. apply never_raises_ret.
Qed.

Lemma last_index_date_absent (id : string) (st : State) :
  absent_or_empty (fred_get_series w id) = true ->
  exists e, last_index_date w id st = (Raise e, st).
Proof.
  unfold last_index_date, bind, lift.
  destruct (fred_get_series w id) as [[| o s] | e]; intros H;
    try discriminate; eexists; reflexivity.
Qed.

Lemma last_index_date_last (id : string) (s : Series) (d : string) (x : float)
    (st : State) :
  fred_get_series w id = Ok (s ++ [(d, x)]) ->
  last_index_date w id st = (Ok d, st).
Proof.
  intros H. unfold last_index_date, bind, lift. rewrite H.
  unfold index_neg. rewrite nth_from_end_last. reflexivity.
Qed.

Lemma timestamp_strategy_series (name id : string) :
  timestamp_series name = Some id ->
  timestamp_strategy w name = last_index_date w id.
Proof.
  unfold timestamp_series, timestamp_strategy.
  repeat (destruct (String.eqb name _); [intros [= <-]; reflexivity |]).
  discriminate.
Qed.

(** C9, as the code has it.  Timestamp resolution never raises and always
    returns a string.  Whenever its strategy raises, the string is exactly
    "Date not available", with a capital D: for an indicator dated by a FRED
    series when that series is absent or empty, for 'US CAPE Ratio' when
    both the sheet of Shiller and the fallback series fail.  Otherwise the
    string is what the strategy found: the last index date of the series,
    or today's date for an indicator with no series. *)
Theorem get_timestamp_for_metric_total (name : string) (st : State) :
  (exists s st', get_timestamp_for_metric w name st = (Ok s, st'))
  /\ (forall e,
         outcome (timestamp_strategy w name) st = Raise e ->
         outcome (get_timestamp_for_metric w name) st = Ok "Date not available")
  /\ (forall id,
         timestamp_series name = Some id ->
         absent_or_empty (fred_get_series w id) = true ->
         outcome (get_timestamp_for_metric w name) st = Ok "Date not available")
  /\ (forall id s d x,
         timestamp_series name = Some id ->
         fred_get_series w id = Ok (s ++ [(d, x)]) ->
         outcome (get_timestamp_for_metric w name) st = Ok d)
  /\ (forall e,
         name = "US CAPE Ratio" ->
         outcome (shiller_date w) st = Raise e ->
         absent_or_empty (fred_get_series w "CSUSHPINSA") = true ->
         outcome (get_timestamp_for_metric w name) st = Ok "Date not available")
  /\ (timestamp_series name = None ->
      name <> "US CAPE Ratio" ->
      outcome (get_timestamp_for_metric w name) st = Ok (today w)).
Proof.
  split; [apply never_raises_timestamp |].
  split; [| split; [| split; [| split]]].
  - intros e H. unfold outcome, get_timestamp_for_metric, try_except in *.
    destruct (timestamp_strategy w name st) as [[s | e'] st']; simpl in H;
      [discriminate | reflexivity].
  - intros id Hid Habs.
    unfold outcome, get_timestamp_for_metric, try_except.
    rewrite (timestamp_strategy_series _ _ Hid).
    destruct (last_index_date_absent id st Habs) as [e ->]. reflexivity.
  - intros id s d x Hid Hs.
    unfold outcome, get_timestamp_for_metric, try_except.
    rewrite (timestamp_strategy_series _ _ Hid).
    rewrite (last_index_date_last id s d x st Hs). reflexivity.
  - intros e -> Hsh Habs.
    unfold outcome, get_timestamp_for_metric, timestamp_strategy, try_except in *.
    cbn [String.eqb Ascii.eqb Bool.eqb].
    destruct (shiller_date w st) as [[s | e'] st']; simpl in Hsh; [discriminate |].
    destruct (last_index_date_absent "CSUSHPINSA" st' Habs) as [e2 ->].
    reflexivity.
  - intros Hnone Hcape.
    unfold outcome, get_timestamp_for_metric, timestamp_strategy, try_except.
    unfold timestamp_series in Hnone.
    repeat (destruct (String.eqb name _); [discriminate |]).
    destruct (String.eqb_spec name "US CAPE Ratio"); [contradiction | reflexivity].
Qed.

End Timestamps.

(** GDP cannot be fetched: its timestamp is the sentinel. *)
Lemma get_timestamp_for_metric_total_witness :
  outcome (get_timestamp_for_metric dead_world "US GDP") idle
  = Ok "Date not available"
  /\ outcome (get_timestamp_for_metric dead_world "US Inflation Rate") idle
     = Ok "Date not available"
  /\ outcome (get_timestamp_for_metric dead_world "US CAPE Ratio") idle
     = Ok "Date not available"
  /\ outcome (get_timestamp_for_metric dead_world "Gold Price") idle
     = Ok "2024-03-01"
  /\ outcome (get_timestamp_for_metric
                (with_fred (only_series "GDP" (observations [27000%float; 28000%float]))
                           dead_world) "US GDP") idle
     = Ok "2023-01-01".
Proof.
  split; [| split; [| split; [| split]]].
  - apply (proj1 (proj2 (get_timestamp_for_metric_total dead_world "US GDP" idle))
             outage eq_refl).
  - apply (proj1 (proj2 (proj2
             (get_timestamp_for_metric_total dead_world "US Inflation Rate" idle)))
             "CPIAUCSL" eq_refl eq_refl).
  - apply (proj1 (proj2 (proj2 (proj2 (proj2
             (get_timestamp_for_metric_total dead_world "US CAPE Ratio" idle)))))
             outage eq_refl eq_refl eq_refl).
  - apply (proj2 (proj2 (proj2 (proj2 (proj2
             (get_timestamp_for_metric_total dead_world "Gold Price" idle)))))
             eq_refl).
    discriminate.
  - apply (proj1 (proj2 (proj2 (proj2
             (get_timestamp_for_metric_total
                (with_fred (only_series "GDP"
                              (observations [27000%float; 28000%float]))
                           dead_world) "US GDP" idle))))
             "GDP" (observations [27000%float]) "2023-01-01" 28000%float
             eq_refl eq_refl).
Defined.

(** C9, as the specification words it: the sentinel is not the lower-case
    string.  GDP cannot be fetched, and the timestamp is not
    "date not available". *)
Lemma timestamp_sentinel_not_lower_case :
  fred_get_series dead_world "GDP" = Raise outage
  /\ outcome (get_timestamp_for_metric dead_world "US GDP") idle
     <> Ok "date not available".
Proof. split; [reflexivity | discriminate]. Qed.

(** ** One indicator by name *)

Section ByName.

Variable w : World.

Lemma never_raises_get_all_metrics : never_raises (get_all_metrics w).
Proof.
  intros st. destruct (get_all_metrics_outcome w st) as [st' H].
  eexists _, _. exact H.
Qed.

Lemma catalog_never_raises :
  Forall (fun d => never_raises (fst (snd d))) (get_metric_definitions w).
Proof.
  unfold get_metric_definitions, get_metric_definitions_of.
  repeat (apply Forall_cons; cbn [fst snd]); try apply Forall_nil;
    try apply never_raises_get_all_metrics;
    unfold get_pe_ratio, get_gold_price, get_bitcoin_price, get_wti_crude_price,
      _get_ticker_info, get_asset_price, get_cape_ratio, get_credit_spreads,
      get_market_to_gdp, get_gdp_metrics, get_government_metrics,
      get_10yr_yield, get_inflation_rate, get_equity_risk_premium,
      get_earnings_growth;
    apply never_raises_try; intros e; apply never_raises_log_error.
Qed.

Lemma lookup_definition_some (name : string) (defs : Definitions)
    (entry : M PyVal * string) :
  lookup_definition name defs = Some entry -> In (name, entry) defs.
Proof.
  induction defs as [| [n e'] defs IH]; simpl; [discriminate |].
  destruct (String.eqb_spec name n) as [-> | Hne].
  - intros [= ->]. left. reflexivity.
  - intros H. right. apply IH, H.
Qed.

Lemma lookup_definition_none (name : string) (defs : Definitions) :
  lookup_definition name defs = None <-> ~ In name (map fst defs).
Proof.
  induction defs as [| [n e'] defs IH]; simpl; [tauto |].
  destruct (String.eqb_spec name n) as [-> | Hne].
  - split; [discriminate | intros H; exfalso; apply H; left; reflexivity].
  - rewrite IH. split.
    + intros H [E | Hin]; [congruence | exact (H Hin)].
    + intros H Hin. apply H. right. exact Hin.
Qed.

Lemma never_raises_export (name : string) (data : Dict) :
  never_raises (_export_to_csv w name data).
Proof.
  unfold _export_to_csv. apply never_raises_bind.
  - intros st. eexists _, _. reflexivity.
  - intros path. destruct (negb (path_enabled path)).
    + apply never_raises_ret.
    + apply never_raises_try. intros e. apply never_raises_log.
Qed.

(** C1. For a name of the catalog, [get_metric_by_name] returns a record,
    whatever the providers and the file system do; for any other name it
    raises the KeyError of the catalog lookup, and nothing else happens. *)
Theorem get_metric_by_name_faults (name : string) (st : State) :
  (In name (map fst (get_metric_definitions w)) ->
   exists result st', get_metric_by_name w name st = (Ok result, st'))
  /\
  (~ In name (map fst (get_metric_definitions w)) ->
   get_metric_by_name w name st = (Raise (KeyError name), st)).
Proof.
  unfold get_metric_by_name. split.
  - intros Hin.
    destruct (lookup_definition name (get_metric_definitions w))
      as [[func source] |] eqn:Hlook.
    2: { apply lookup_definition_none in Hlook. contradiction. }
    apply lookup_definition_some in Hlook.
    pose proof catalog_never_raises as Hall. rewrite Forall_forall in Hall.
    specialize (Hall _ Hlook). cbn [fst snd] in Hall.
    unfold bind. destruct (Hall st) as (v & st1 & ->).
    assert (Hrec : exists r st2,
               match v with
               | VDict d =>
                   bind (get_timestamp_for_metric w name)
                     (fun ts => ret (PyDict.set "source" (VStr source)
                                       (PyDict.set "timestamp" (VStr ts) d)))
               | _ => ret [("value", v); ("timestamp", VStr (today w));
                           ("source", VStr source)]
               end st1 = (Ok r, st2)).
    { destruct v as [| x | s | iso | d]; try (eexists _, _; reflexivity).
      unfold bind. destruct (never_raises_timestamp w name st1) as (ts & st2 & ->).
      eexists _, _. reflexivity. }
    destruct Hrec as (r & st2 & Hrec). unfold bind in Hrec. rewrite Hrec.
    unfold get_path. cbn beta iota.
    destruct (path_enabled (csv_export_path st2)).
    + destruct (never_raises_export name r st2) as ([] & st3 & ->).
      eexists _, _. reflexivity.
    + eexists _, _. reflexivity.
  - intros Hout. apply lookup_definition_none in Hout. rewrite Hout. reflexivity.
Qed.

End ByName.

(** With every provider down, 'US GDP' still answers; 'US Nothing' is no
    indicator. *)
Lemma get_metric_by_name_faults_witness :
  (exists result st',
      get_metric_by_name dead_world "US GDP"
        (new_instance dead_world (Some "metrics.csv") None)
      = (Ok result, st'))
  /\ get_metric_by_name dead_world "US Nothing" idle
     = (Raise (KeyError "US Nothing"), idle).
Proof.
  split.
  - apply (proj1 (get_metric_by_name_faults dead_world "US GDP" _)).
    cbn. tauto.
  - apply (proj2 (get_metric_by_name_faults dead_world "US Nothing" idle)).
    cbn. intros H.
    repeat (destruct H as [H | H]; [discriminate |]). exact H.
Defined.

(** ** The header of the export file *)

Section Exporter.

Variable w : World.

(** Writing rows appends a prefix of them, and touches nothing else. *)
Lemma write_rows_state (rows : list Row) :
  forall k p hw lg lines,
  exists n r,
    write_rows w k rows (mkState p hw lg (Some lines))
    = (r, mkState p hw lg (Some (lines ++ map Data (firstn n rows)))).
Proof.
  induction rows as [| row rest IH]; intros k p hw lg lines.
  - exists 0%nat, (Ok tt). cbn. rewrite app_nil_r. reflexivity.
  - cbn [write_rows]. unfold bind, csv_write.
    destruct (csv_io w) as [| e | n e].
    + cbn. destruct (IH (S k) p hw lg (lines ++ [Data row])) as (n' & r & ->).
      exists (S n'), r. cbn [firstn map]. rewrite <- app_assoc. reflexivity.
    + cbn. destruct (IH (S k) p hw lg (lines ++ [Data row])) as (n' & r & ->).
      exists (S n'), r. cbn [firstn map]. rewrite <- app_assoc. reflexivity.
    + destruct (k =? n)%nat.
      * exists 0%nat, (Raise e). cbn. rewrite app_nil_r. reflexivity.
      * cbn. destruct (IH (S k) p hw lg (lines ++ [Data row])) as (n' & r & ->).
        exists (S n'), r. cbn [firstn map]. rewrite <- app_assoc. reflexivity.
Qed.

Lemma write_rows_all (rows : list Row) :
  csv_io w = IoOk ->
  forall k p hw lg lines,
    write_rows w k rows (mkState p hw lg (Some lines))
    = (Ok tt, mkState p hw lg (Some (lines ++ map Data rows))).
Proof.
  intros Hio. induction rows as [| row rest IH]; intros k p hw lg lines.
  - cbn. rewrite app_nil_r. reflexivity.
  - cbn [write_rows]. unfold bind, csv_write. rewrite Hio. cbn.
    rewrite IH. cbn [map]. rewrite <- app_assoc. reflexivity.
Qed.

(** An export that meets no fault, on an enabled instance. *)
Lemma export_without_fault (name : string) (data : Dict)
    (p : option string) (hw : bool) (lg : list LogRecord)
    (snk : option (list CsvLine)) :
  csv_io w = IoOk ->
  path_enabled p = true ->
  _export_to_csv w name data (mkState p hw lg snk)
  = (Ok tt,
     if orb (negb (nonempty_file snk)) (negb hw) then
       mkState p true lg
         (Some (match snk with Some ls => ls | None => [] end
                ++ Header :: map Data (flatten w name data)))
     else
       mkState p hw lg
         (Some (match snk with Some ls => ls | None => [] end
                ++ map Data (flatten w name data)))).
Proof.
  intros Hio Hp.
  unfold _export_to_csv, bind, get_path. cbn [csv_export_path]. rewrite Hp.
  cbn [negb].
  unfold try_except, flatten_and_append, bind, get_sink, open_append,
    get_headers_written, csv_write, set_headers_written, set_sink, log, ret, raise.
  cbn [sink csv_headers_written csv_export_path logger]. rewrite Hio.
  destruct snk as [[| l ls] |], hw; cbn;
    rewrite (write_rows_all _ Hio); cbn; rewrite <- ?app_assoc; reflexivity.
Qed.

(** An export that cannot open the sink: one error record, nothing else. *)
Lemma export_open_fails (name : string) (data : Dict) (e : Exn)
    (p : option string) (hw : bool) (lg : list LogRecord)
    (snk : option (list CsvLine)) :
  csv_io w = IoOpenError e ->
  path_enabled p = true ->
  _export_to_csv w name data (mkState p hw lg snk)
  = (Ok tt,
     mkState p hw (lg ++ [mkLog ERROR ("Error exporting to CSV: " ++ exn_text e)])
       snk).
Proof.
  intros Hio Hp.
  unfold _export_to_csv, bind, get_path. cbn [csv_export_path]. rewrite Hp.
  cbn [negb].
  unfold try_except, flatten_and_append, bind, get_sink, open_append.
  rewrite Hio. reflexivity.
Qed.

End Exporter.

(** C4, as the code has it.  An export call never raises.  When
    flattening and appending raises, the call logs one error record with
    the text of the exception and returns; the export path stays as it was,
    so the instance is not disabled: when the sink could not be opened and
    the next call meets no fault, that call writes the header if it is due
    and its rows. *)
Theorem export_failure_is_logged (w : World) (name : string) (data : Dict)
    (st : State) :
  (exists st', _export_to_csv w name data st = (Ok tt, st'))
  /\ csv_export_path (snd (_export_to_csv w name data st)) = csv_export_path st
  /\ (forall e st1,
         path_enabled (csv_export_path st) = true ->
         flatten_and_append w name data st = (Raise e, st1) ->
         _export_to_csv w name data st
         = (Ok tt,
            mkState (csv_export_path st1) (csv_headers_written st1)
              (logger st1
               ++ [mkLog ERROR ("Error exporting to CSV: " ++ exn_text e)])
              (sink st1)))
  /\ (forall e w2 name2 data2,
         path_enabled (csv_export_path st) = true ->
         csv_io w = IoOpenError e ->
         csv_io w2 = IoOk ->
         flatten_and_append w name data st = (Raise e, st)
         /\ sink (snd (_export_to_csv w2 name2 data2
                         (snd (_export_to_csv w name data st))))
            = Some (match sink st with Some ls => ls | None => [] end
                    ++ (if orb (negb (nonempty_file (sink st)))
                               (negb (csv_headers_written st))
                        then [Header] else [])
                    ++ map Data (flatten w2 name2 data2))).
Proof.
  split; [| split; [| split]].
  - destruct (never_raises_export w name data st) as ([] & st' & H).
    exists st'. exact H.
  - destruct st as [p hw lg snk].
    unfold _export_to_csv, bind, get_path. cbn [csv_export_path].
    destruct (path_enabled p); cbn [negb]; [| reflexivity].
    unfold try_except, flatten_and_append, bind, get_sink, open_append,
      get_headers_written, csv_write, set_headers_written, set_sink, log, ret, raise.
    cbn [sink csv_headers_written csv_export_path logger].
    destruct (csv_io w) as [| e | [| n] e], snk as [[| l ls] |], hw; cbn;
      try reflexivity;
      match goal with
      | |- context [write_rows w ?k ?rows (mkState ?p ?h ?l (Some ?ls))] =>
          destruct (write_rows_state w rows k p h l ls) as (j & r & ->);
          destruct r; reflexivity
      end.
  - intros e st1 Hp Hbody.
    unfold _export_to_csv, bind, get_path. rewrite Hp. cbn [negb].
    unfold try_except. rewrite Hbody. reflexivity.
  - intros e w2 name2 data2 Hp Hio Hio2.
    destruct st as [p hw lg snk]. cbn [csv_export_path sink csv_headers_written] in *.
    assert (Hbody : flatten_and_append w name data (mkState p hw lg snk)
                    = (Raise e, mkState p hw lg snk)).
    { unfold flatten_and_append, bind, get_sink, open_append. rewrite Hio.
      reflexivity. }
    split; [exact Hbody |].
    unfold _export_to_csv at 2. unfold bind, get_path.
    cbn [csv_export_path]. rewrite Hp. cbn [negb].
    unfold try_except. rewrite Hbody. unfold log.
    cbn [snd csv_export_path csv_headers_written logger sink].
    rewrite (export_without_fault w2 name2 data2 _ _ _ _ Hio2 Hp).
    destruct (orb _ _); cbn [sink app]; reflexivity.
Qed.

Section ExportSequences.

(** Once the header is in a file with lines, exports without fault only
    append their rows. *)
Lemma run_exports_appends (calls : list ExportCall) :
  fault_free calls ->
  forall p lg lines,
    path_enabled p = true -> lines <> [] ->
    run_exports calls (mkState p true lg (Some lines))
    = mkState p true lg (Some (lines ++ map Data (rows_of_calls calls))).
Proof.
  induction 1 as [| c rest Hio _ IH]; intros p lg lines Hp Hne.
  - cbn. rewrite app_nil_r. reflexivity.
  - cbn [run_exports]. rewrite (export_without_fault _ _ _ _ _ _ _ Hio Hp).
    assert (Hfull : nonempty_file (Some lines) = true)
      by (destruct lines; [contradiction | reflexivity]).
    rewrite Hfull. cbn [negb orb snd].
    rewrite IH; [| exact Hp | destruct lines; [contradiction | discriminate]].
    unfold rows_of_calls. cbn [flat_map]. rewrite map_app, app_assoc. reflexivity.
Qed.

(** The same when some calls cannot open the sink: they write nothing. *)
Lemma run_exports_appends_opened (calls : list ExportCall) :
  Forall (fun c => writes_whole c = true) calls ->
  forall p lg lines,
    path_enabled p = true -> lines <> [] ->
    exists lg',
      run_exports calls (mkState p true lg (Some lines))
      = mkState p true lg'
          (Some (lines ++ map Data (rows_of_calls (filter opens calls)))).
Proof.
  induction 1 as [| c rest Hc _ IH]; intros p lg lines Hp Hne.
  - exists lg. cbn. rewrite app_nil_r. reflexivity.
  - cbn [run_exports filter]. unfold writes_whole in Hc. unfold opens at 1.
    destruct (csv_io (call_world c)) as [| e | n e] eqn:Hio; [| | discriminate Hc].
    + rewrite (export_without_fault _ _ _ _ _ _ _ Hio Hp).
      assert (Hfull : nonempty_file (Some lines) = true)
        by (destruct lines; [contradiction | reflexivity]).
      rewrite Hfull. cbn [negb orb snd].
      destruct (IH p lg (lines ++ map Data
                           (flatten (call_world c) (call_metric c) (call_data c)))
                  Hp) as [lg' ->].
      { destruct lines; [contradiction | discriminate]. }
      exists lg'. unfold rows_of_calls. cbn [flat_map].
      rewrite map_app, app_assoc. reflexivity.
    + rewrite (export_open_fails _ _ _ e _ _ _ _ Hio Hp). cbn [snd].
      apply (IH p _ lines Hp Hne).
Qed.

(** On a sink without lines the header is due until a call opens it. *)
Lemma run_exports_fresh_opened (calls : list ExportCall) :
  Forall (fun c => writes_whole c = true) calls ->
  forall p lg snk,
    path_enabled p = true -> nonempty_file snk = false ->
    exists lg',
      run_exports calls (mkState p false lg snk)
      = match filter opens calls with
        | [] => mkState p false lg' snk
        | opened =>
            mkState p true lg' (Some (Header :: map Data (rows_of_calls opened)))
        end.
Proof.
  induction 1 as [| c rest Hc Hrest IH]; intros p lg snk Hp Hfresh.
  - exists lg. reflexivity.
  - cbn [run_exports filter]. unfold writes_whole in Hc. unfold opens at 1.
    destruct (csv_io (call_world c)) as [| e | n e] eqn:Hio; [| | discriminate Hc].
    + rewrite (export_without_fault _ _ _ _ _ _ _ Hio Hp).
      rewrite Hfresh. cbn [negb orb snd].
      assert (Hnil : match snk with Some ls => ls | None => [] end = [])
        by (destruct snk as [[| l ls] |]; try reflexivity; discriminate).
      rewrite Hnil. cbn [app].
      destruct (run_exports_appends_opened rest Hrest p lg
                  (Header :: map Data
                     (flatten (call_world c) (call_metric c) (call_data c)))
                  Hp) as [lg' ->]; [discriminate |].
      exists lg'. unfold rows_of_calls. cbn [flat_map app].
      rewrite map_app. reflexivity.
    + rewrite (export_open_fails _ _ _ e _ _ _ _ Hio Hp). cbn [snd].
      apply (IH p _ snk Hp Hfresh).
Qed.

Lemma new_instance_state (w0 : World) (path : option string)
    (file : option (list CsvLine)) :
  path_enabled path = true -> makedirs w0 = Ok tt ->
  new_instance w0 path file = mkState path (nonempty_file file) [] file.
Proof.
  intros Hp Hmk. unfold new_instance, __init__, _initialize_csv_export.
  unfold bind, set_path, set_headers_written, try_except, lift, get_sink, ret.
  cbn [csv_export_path csv_headers_written logger sink]. rewrite Hp, Hmk.
  cbn [negb sink]. destruct (nonempty_file file); reflexivity.
Qed.

(** An instance started on an absent or empty sink, and calls without
    fault: the header, then the rows of all the calls. *)
Lemma run_exports_on_fresh (w0 : World) (path : option string)
    (file : option (list CsvLine)) (calls : list ExportCall) :
  nonempty_file file = false ->
  path_enabled path = true -> makedirs w0 = Ok tt ->
  fault_free calls -> calls <> [] ->
  run_exports calls (new_instance w0 path file)
  = mkState path true [] (Some (Header :: map Data (rows_of_calls calls))).
Proof.
  intros Hfresh Hp Hmk Hff Hcalls.
  rewrite (new_instance_state _ _ _ Hp Hmk), Hfresh.
  destruct calls as [| c rest]; [contradiction |].
  inversion Hff as [| c' rest' Hio Hrest]; subst.
  cbn [run_exports]. rewrite (export_without_fault _ _ _ _ _ _ _ Hio Hp).
  rewrite Hfresh. cbn [negb orb snd].
  assert (Hnil : match file with Some ls => ls | None => [] end = [])
    by (destruct file as [[| l ls] |]; try reflexivity; discriminate).
  rewrite Hnil. cbn [app].
  rewrite (run_exports_appends rest Hrest); [| exact Hp | discriminate].
  unfold rows_of_calls. cbn [flat_map app]. rewrite map_app. reflexivity.
Qed.

(** C3. The header line is metric,sub_metric,value,timestamp,source,
    retrieval_time.  An instance is started on a sink and exports a sequence
    of records, no call meeting a write fault.  On an absent or empty sink:
    when every call opens the sink, the sink becomes the header followed by
    the rows of all the calls; when some calls cannot open it, the header
    followed by the rows of the calls that could, and the sink is left as it
    was when none could; an instance started afterwards on the sink of the
    first appends its rows, so that the sink is one header followed by the
    rows of both runs.  On a sink that has lines: the sink becomes those
    lines followed by the rows of the calls that opened it, and nothing
    else. *)
Theorem export_header_written_once (w0 : World) (path : option string)
    (file : option (list CsvLine)) (calls : list ExportCall) :
  header_text = "metric,sub_metric,value,timestamp,source,retrieval_time"
  /\
  (nonempty_file file = false ->
   path_enabled path = true -> makedirs w0 = Ok tt ->
   (fault_free calls -> calls <> [] ->
    sink (run_exports calls (new_instance w0 path file))
    = Some (Header :: map Data (rows_of_calls calls)))
   /\ (Forall (fun c => writes_whole c = true) calls ->
       sink (run_exports calls (new_instance w0 path file))
       = match filter opens calls with
         | [] => file
         | opened => Some (Header :: map Data (rows_of_calls opened))
         end)
   /\ (forall w1 later,
          fault_free calls -> calls <> [] ->
          makedirs w1 = Ok tt -> fault_free later ->
          sink (run_exports later
                  (new_instance w1 path
                     (sink (run_exports calls (new_instance w0 path file)))))
          = Some (Header :: map Data (rows_of_calls calls ++ rows_of_calls later))))
  /\
  (forall content,
      file = Some content -> content <> [] ->
      path_enabled path = true -> makedirs w0 = Ok tt ->
      (fault_free calls ->
       sink (run_exports calls (new_instance w0 path file))
       = Some (content ++ map Data (rows_of_calls calls)))
      /\ (Forall (fun c => writes_whole c = true) calls ->
          sink (run_exports calls (new_instance w0 path file))
          = Some (content ++ map Data (rows_of_calls (filter opens calls))))).
Proof.
  split; [reflexivity |]. split.
  - intros Hfresh Hp Hmk. split; [| split].
    + intros Hff Hcalls.
      rewrite (run_exports_on_fresh w0 path file calls Hfresh Hp Hmk Hff Hcalls).
      reflexivity.
    + intros Hwhole.
      rewrite (new_instance_state _ _ _ Hp Hmk), Hfresh.
      destruct (run_exports_fresh_opened calls Hwhole path [] file Hp Hfresh)
        as [lg' ->].
      destruct (filter opens calls); reflexivity.
    + intros w1 later Hff Hcalls Hmk1 Hlater.
      rewrite (run_exports_on_fresh w0 path file calls Hfresh Hp Hmk Hff Hcalls).
      cbn [sink]. rewrite (new_instance_state _ _ _ Hp Hmk1).
      cbn [nonempty_file].
      rewrite (run_exports_appends later Hlater _ _ _ Hp); [| discriminate].
      cbn [sink app]. rewrite map_app. reflexivity.
  - intros content -> Hne Hp Hmk.
    assert (Hfull : nonempty_file (Some content) = true)
      by (destruct content; [contradiction | reflexivity]).
    split.
    + intros Hff.
      rewrite (new_instance_state _ _ _ Hp Hmk), Hfull.
      rewrite (run_exports_appends calls Hff _ _ _ Hp Hne). reflexivity.
    + intros Hwhole.
      rewrite (new_instance_state _ _ _ Hp Hmk), Hfull.
      destruct (run_exports_appends_opened calls Hwhole path [] content Hp Hne)
        as [lg' ->].
      reflexivity.
Qed.

End ExportSequences.

(** Two records exported to an absent sink; to a sink with a header and a
    line of an earlier run; a second run on the sink of the first; and a
    run whose first call cannot open the sink. *)
Lemma export_header_written_once_witness :
  sink (run_exports two_exports (new_instance dead_world (Some "metrics.csv") None))
  = Some (Header :: map Data (rows_of_calls two_exports))
  /\ length (rows_of_calls two_exports) = 3%nat
  /\ sink (run_exports two_exports
             (new_instance dead_world (Some "metrics.csv")
                (Some [Header; Data earlier_row])))
     = Some ([Header; Data earlier_row] ++ map Data (rows_of_calls two_exports))
  /\ sink (run_exports two_exports
             (new_instance dead_world (Some "metrics.csv")
                (sink (run_exports two_exports
                         (new_instance dead_world (Some "metrics.csv") None)))))
     = Some (Header :: map Data (rows_of_calls two_exports
                                 ++ rows_of_calls two_exports))
  /\ sink (run_exports
             [mkCall locked_world "US P/E Ratio" pe_record;
              mkCall dead_world "US GDP" gdp_record]
             (new_instance dead_world (Some "metrics.csv") None))
     = Some (Header :: map Data (flatten dead_world "US GDP" gdp_record)).
Proof.
  pose proof (export_header_written_once dead_world (Some "metrics.csv") None
                two_exports) as (_ & Hfresh & _).
  pose proof (export_header_written_once dead_world (Some "metrics.csv")
                (Some [Header; Data earlier_row]) two_exports) as (_ & _ & Hprior).
  pose proof (export_header_written_once dead_world (Some "metrics.csv") None
                [mkCall locked_world "US P/E Ratio" pe_record;
                 mkCall dead_world "US GDP" gdp_record]) as (_ & Hlocked & _).
  split; [| split; [| split; [| split]]].
  - apply (proj1 (Hfresh eq_refl eq_refl eq_refl)).
    + repeat constructor.
    + discriminate.
  - reflexivity.
  - apply (proj1 (Hprior [Header; Data earlier_row] eq_refl
                    ltac:(discriminate) eq_refl eq_refl)).
    repeat constructor.
  - apply (proj2 (proj2 (Hfresh eq_refl eq_refl eq_refl)) dead_world two_exports).
    + repeat constructor.
    + discriminate.
    + reflexivity.
    + repeat constructor.
  - rewrite (proj1 (proj2 (Hlocked eq_refl eq_refl eq_refl))).
    + cbn [filter opens call_world]. cbn. reflexivity.
    + repeat constructor.
Defined.

(** The sink cannot be opened for the first record; the second is written. *)
Lemma export_failure_is_logged_witness :
  _export_to_csv locked_world "US P/E Ratio" pe_record
    (new_instance dead_world (Some "metrics.csv") None)
  = (Ok tt,
     mkState (Some "metrics.csv") false
       [mkLog ERROR "Error exporting to CSV: [Errno 13] Permission denied"] None)
  /\ sink (snd (_export_to_csv dead_world "US GDP" gdp_record
                  (snd (_export_to_csv locked_world "US P/E Ratio" pe_record
                          (new_instance dead_world (Some "metrics.csv") None)))))
     = Some (Header :: map Data (flatten dead_world "US GDP" gdp_record)).
Proof.
  pose proof (export_failure_is_logged locked_world "US P/E Ratio" pe_record
                (new_instance dead_world (Some "metrics.csv") None))
    as (_ & _ & Hlog & Hnext).
  split.
  - apply (Hlog disk_error (new_instance dead_world (Some "metrics.csv") None)
             eq_refl eq_refl).
  - apply (proj2 (Hnext disk_error dead_world "US GDP" gdp_record
                    eq_refl eq_refl eq_refl)).
Defined.

(** C4, as the specification words it: after a failed export the instance
    would be disabled and later calls would do nothing.  Here the first
    call fails, the path is still set, and the second call writes the
    header and two rows. *)
Lemma export_failure_does_not_disable :
  outcome (flatten_and_append locked_world "US P/E Ratio" pe_record)
    (new_instance dead_world (Some "metrics.csv") None)
  = Raise disk_error
  /\ path_enabled
       (csv_export_path
          (snd (_export_to_csv locked_world "US P/E Ratio" pe_record
                  (new_instance dead_world (Some "metrics.csv") None))))
     = true
  /\ snd (_export_to_csv dead_world "US GDP" gdp_record
            (snd (_export_to_csv locked_world "US P/E Ratio" pe_record
                    (new_instance dead_world (Some "metrics.csv") None))))
     <> snd (_export_to_csv locked_world "US P/E Ratio" pe_record
               (new_instance dead_world (Some "metrics.csv") None)).
Proof.
  split; [reflexivity |]. split; [reflexivity |].
  intros H. apply (f_equal sink) in H. discriminate H.
Qed.

(** A group indicator whose resolver absorbs a fault enters the mapping by
    its normalized name: with a missing (NaN) last 10-year yield the credit
    spreads cannot print their basis points, the resolver returns None, and
    the mapping has credit_spreads and no baa_spread. *)
Remark credit_spreads_enter_by_name :
  let w := with_fred (fun id =>
               if String.eqb id "BAA" then Ok (observations [6.5%float])
               else if String.eqb id "DGS10" then Ok (observations [nan])
               else Raise outage) dead_world in
  outcome (get_credit_spreads w) idle = Ok VNone
  /\ exists m,
       outcome (get_all_metrics w) idle = Ok (VDict m)
       /\ PyDict.get "credit_spreads" m = Some VNone
       /\ PyDict.contains "baa_spread" m = false.
Proof.
  split; [reflexivity |]. eexists. split; [reflexivity |]. split; reflexivity.
Qed.

(** * Further properties of the resolvers *)

(** ** The two observations of a year-over-year change *)

Section YearOverYear.

#[local] Open Scope float_scope.

(** The inflation rate is the last CPI value over the thirteenth from the
    end, minus one, in percent, whatever the rest of the series; a series
    that is absent, empty or shorter than 13 gives None. *)
Theorem get_inflation_rate_formula (w : World) (st : State) :
  (forall earlier d13 x between d1 y,
      fred_get_series w "CPIAUCSL"
      = Ok (earlier ++ (d13, x) :: between ++ [(d1, y)]) ->
      length between = 11%nat ->
      outcome (get_inflation_rate w) st = Ok (VFloat (((y / x) - 1) * 100)))
  /\
  (forall cpi,
      fred_get_series w "CPIAUCSL" = Ok cpi ->
      (length cpi < 13)%nat ->
      outcome (get_inflation_rate w) st = Ok VNone)
  /\
  (forall e,
      fred_get_series w "CPIAUCSL" = Raise e ->
      outcome (get_inflation_rate w) st = Ok VNone).
Proof.
  split; [| split].
  - intros earlier d13 x between d1 y Hcpi Hlen.
    destruct (series_ends earlier between d13 d1 x y 11 Hlen) as (H1 & H13 & Hge).
    unfold outcome, get_inflation_rate, try_except, bind.
    rewrite (safe_fred_ok _ _ _ _ Hcpi).
    assert (E : (length (earlier ++ (d13, x) :: between ++ [(d1, y)]) <? 13)%nat
                = false) by (apply Nat.ltb_ge; cbn in Hge; lia).
    rewrite E.
    assert (Ee : empty (earlier ++ (d13, x) :: between ++ [(d1, y)]) = false)
      by (destruct earlier; reflexivity).
    rewrite Ee. cbn [orb]. unfold iloc_neg.
    cbn [Nat.add] in H13. rewrite H1. unfold ret at 1. cbv beta iota.
    rewrite H13. reflexivity.
  - intros cpi Hcpi Hlen.
    unfold outcome, get_inflation_rate, try_except, bind.
    rewrite (safe_fred_ok _ _ _ _ Hcpi).
    assert (E : (length cpi <? 13)%nat = true) by (apply Nat.ltb_lt; exact Hlen).
    rewrite E, orb_true_r. reflexivity.
  - intros e Hcpi.
    unfold get_inflation_rate, _safe_get_fred_series. run. rewrite Hcpi.
    reflexivity.
Qed.

Lemma get_inflation_rate_formula_witness :
  outcome (get_inflation_rate
             (with_fred (only_series "CPIAUCSL"
                (observations [290; 300; 301; 302; 303; 304; 305; 306; 307;
                               308; 309; 310; 311; 312])) dead_world)) idle
  = Ok (VFloat (((312 / 300) - 1) * 100))
  /\ outcome (get_inflation_rate
             (with_fred (only_series "CPIAUCSL" (observations [300; 312]))
                        dead_world)) idle
     = Ok VNone
  /\ outcome (get_inflation_rate dead_world) idle = Ok VNone.
Proof.
  split; [| split].
  - apply (proj1 (get_inflation_rate_formula _ idle)
             (observations [290]) "2023-01-01" 300
             (observations [301; 302; 303; 304; 305; 306; 307; 308; 309; 310; 311])
             "2023-01-01" 312); reflexivity.
  - apply (proj1 (proj2 (get_inflation_rate_formula _ idle))
             (observations [300; 312])); [reflexivity | cbn; lia].
  - apply (proj2 (proj2 (get_inflation_rate_formula dead_world idle)) outage).
    reflexivity.
Defined.

(** Earnings growth: a provider fault gives None; fewer than five quarters
    give a null growth rate alone; so does a value of a year ago that is
    zero or negative; otherwise the growth of the last value over the fifth
    from the end comes with both values and both dates. *)
Theorem get_earnings_growth_cases (w : World) (st : State) :
  (forall e,
      fred_get_series w "CP" = Raise e ->
      outcome (get_earnings_growth w) st = Ok VNone)
  /\
  (forall cp,
      fred_get_series w "CP" = Ok cp ->
      (length cp < 5)%nat ->
      outcome (get_earnings_growth w) st = Ok (VDict [("growth_rate", VNone)]))
  /\
  (forall earlier d5 x between d1 y,
      fred_get_series w "CP" = Ok (earlier ++ (d5, x) :: between ++ [(d1, y)]) ->
      length between = 3%nat ->
      outcome (get_earnings_growth w) st
      = Ok (if x <=? 0 then VDict [("growth_rate", VNone)]
            else VDict [("growth_rate", VFloat (((y / x) - 1) * 100));
                        ("recent_value", VFloat y);
                        ("year_ago_value", VFloat x);
                        ("recent_date", VStr d1);
                        ("year_ago_date", VStr d5)])).
Proof.
  split; [| split].
  - intros e Hcp. unfold get_earnings_growth. run. rewrite Hcp. reflexivity.
  - intros cp Hcp Hlen. unfold get_earnings_growth. run. rewrite Hcp.
    assert (E : (length cp <? 5)%nat = true) by (apply Nat.ltb_lt; exact Hlen).
    rewrite E. reflexivity.
  - intros earlier d5 x between d1 y Hcp Hlen.
    destruct (series_ends earlier between d5 d1 x y 3 Hlen) as (H1 & H5 & Hge).
    cbn [Nat.add] in H5.
    assert (E : (length (earlier ++ (d5, x) :: between ++ [(d1, y)]) <? 5)%nat
                = false) by (apply Nat.ltb_ge; cbn in Hge; lia).
    unfold outcome, get_earnings_growth, try_except, bind, lift.
    rewrite Hcp, E. unfold iloc_neg, index_neg. rewrite H1, H5.
    unfold ret, log. cbv beta iota.
    destruct (x <=? 0); reflexivity.
Qed.

Lemma get_earnings_growth_cases_witness :
  outcome (get_earnings_growth dead_world) idle = Ok VNone
  /\ outcome (get_earnings_growth
                (with_fred (only_series "CP" (observations [100; 110; 120; 130]))
                           dead_world)) idle
     = Ok (VDict [("growth_rate", VNone)])
  /\ outcome (get_earnings_growth
                (with_fred (only_series "CP"
                              (observations [90; 100; 110; 120; 130; 125]))
                           dead_world)) idle
     = Ok (VDict [("growth_rate", VFloat 25);
                  ("recent_value", VFloat 125);
                  ("year_ago_value", VFloat 100);
                  ("recent_date", VStr "2023-01-01");
                  ("year_ago_date", VStr "2023-01-01")]).
Proof.
  split; [| split].
  - apply (proj1 (get_earnings_growth_cases dead_world idle) outage). reflexivity.
  - apply (proj1 (proj2 (get_earnings_growth_cases _ idle))
             (observations [100; 110; 120; 130])); [reflexivity | cbn; lia].
  - apply (proj2 (proj2 (get_earnings_growth_cases _ idle))
             (observations [90]) "2023-01-01" 100
             (observations [110; 120; 130]) "2023-01-01" 125);
      reflexivity.
Defined.

End YearOverYear.

(** ** The equity risk premium *)

Section RiskPremium.

#[local] Open Scope float_scope.

Variable w : World.

(** A download answers True exactly when the status is 200 and the body
    could be written; a raise of the request, another status or a raise of
    the write is False, never an exception. *)
Theorem _download_file_reports (url temp : string) (st : State) :
  outcome (_download_file w url temp) st = Ok (download_ok w url temp)
  /\ (forall status_code,
         requests_get w url = Ok status_code ->
         status_code <> 200%Z ->
         logger (snd (_download_file w url temp st))
         = logger st
           ++ [mkLog ERROR ("Failed to fetch data. Status code: "
                            ++ PyStr.of_Z status_code);
               mkLog ERROR ("downloading " ++ url ++ ": Failed to fetch data: HTTP "
                            ++ PyStr.of_Z status_code)]).
Proof.
  split.
  - unfold _download_file, download_ok. run.
    destruct (requests_get w url) as [status_code | e]; [| reflexivity].
    destruct (status_code =? 200)%Z; cbn; [| reflexivity].
    destruct (write_temp_file w temp) as [[] | e]; reflexivity.
  - intros status_code Hget Hne. unfold _download_file. run. rewrite Hget.
    assert (E : (status_code =? 200)%Z = false) by (apply Z.eqb_neq; exact Hne).
    rewrite E. cbn. rewrite <- app_assoc. reflexivity.
Qed.

(** The computed premium: a P/E ratio that is missing, zero, negative or
    NaN, or a 10-year yield that is missing, gives a null value and no
    division; otherwise the earnings yield 100 / P/E, minus the yield. *)
Theorem _calculate_equity_risk_premium_guard (st : State) :
  (forall x,
      ticker_info w "VTI" "trailingPE" = Ok (Some x) ->
      usable_pe x = false ->
      outcome (_calculate_equity_risk_premium w) st = Ok (VDict [("value", VNone)]))
  /\
  (ticker_info w "VTI" "trailingPE" = Ok None
   \/ (exists e, ticker_info w "VTI" "trailingPE" = Raise e) ->
   outcome (_calculate_equity_risk_premium w) st = Ok (VDict [("value", VNone)]))
  /\
  (forall x,
      ticker_info w "VTI" "trailingPE" = Ok (Some x) ->
      usable_pe x = true ->
      absent_or_empty (fred_get_series w "DGS10") = true ->
      outcome (_calculate_equity_risk_premium w) st = Ok (VDict [("value", VNone)]))
  /\
  (forall x s d rf,
      ticker_info w "VTI" "trailingPE" = Ok (Some x) ->
      usable_pe x = true ->
      fred_get_series w "DGS10" = Ok (s ++ [(d, rf)]) ->
      outcome (_calculate_equity_risk_premium w) st
      = Ok (VDict [("value", VFloat ((1 / x) * 100 - rf));
                   ("earnings_yield", VFloat ((1 / x) * 100));
                   ("risk_free_rate", VFloat rf)])).
Proof.
  unfold usable_pe.
  split; [| split; [| split]].
  - intros x Hpe Hbad.
    unfold _calculate_equity_risk_premium, get_pe_ratio, _get_ticker_info,
      PyFloat.truthy in *.
    run. rewrite Hpe. cbn.
    destruct (x =? 0) eqn:Hz; cbn in *; rewrite ?Hz; cbn; rewrite ?Hbad;
      reflexivity.
  - intros [Hpe | [e Hpe]];
      unfold _calculate_equity_risk_premium, get_pe_ratio, _get_ticker_info;
      run; rewrite Hpe; reflexivity.
  - intros x Hpe Hok Habs.
    unfold _calculate_equity_risk_premium, get_pe_ratio, _get_ticker_info,
      get_10yr_yield, _safe_get_fred_series, PyFloat.truthy in *.
    run. rewrite Hpe. cbn.
    destruct (x =? 0) eqn:Hz; cbn in *; [discriminate |].
    rewrite Hz. cbn. rewrite Hok.
    destruct (fred_get_series w "DGS10") as [[| o s] | e]; try discriminate;
      reflexivity.
  - intros x s d rf Hpe Hok Hrf.
    unfold _calculate_equity_risk_premium, get_pe_ratio, _get_ticker_info,
      get_10yr_yield, _safe_get_fred_series, iloc_neg, PyFloat.truthy in *.
    run. rewrite Hpe. cbn.
    destruct (x =? 0) eqn:Hz; cbn in *; [discriminate |].
    rewrite Hz. cbn. rewrite Hok, Hrf.
    pose proof (nth_from_end_last s (d, rf)) as Hlast.
    pose proof (empty_app_last s (d, rf)) as Hne.
    destruct (s ++ [(d, rf)]) as [| o rest] eqn:Es; [discriminate |].
    cbn. unfold nth_from_end in Hlast. cbn in Hlast.
    rewrite Hlast. reflexivity.
Qed.

End RiskPremium.

Lemma _download_file_reports_witness :
  logger (snd (_download_file
                 (with_web (fun _ => Ok 404%Z) (fun _ => Raise outage) dead_world)
                 "https://example.org/data.xls" "temp.xls" idle))
  = [mkLog ERROR "Failed to fetch data. Status code: 404";
     mkLog ERROR
       "downloading https://example.org/data.xls: Failed to fetch data: HTTP 404"].
Proof.
  apply (proj2 (_download_file_reports
                  (with_web (fun _ => Ok 404%Z) (fun _ => Raise outage) dead_world)
                  "https://example.org/data.xls" "temp.xls" idle) 404%Z).
  - reflexivity.
  - discriminate.
Defined.

Lemma _calculate_equity_risk_premium_guard_witness :
  outcome (_calculate_equity_risk_premium
             (with_ticker (fun _ _ => Ok (Some 0%float)) fallback_world)) idle
  = Ok (VDict [("value", VNone)])
  /\ outcome (_calculate_equity_risk_premium dead_world) idle
     = Ok (VDict [("value", VNone)])
  /\ outcome (_calculate_equity_risk_premium
                (with_fred (fun _ => Ok []) fallback_world)) idle
     = Ok (VDict [("value", VNone)])
  /\ outcome (_calculate_equity_risk_premium fallback_world) idle
     = Ok (VDict [("value", VFloat 1%float); ("earnings_yield", VFloat 5%float);
                  ("risk_free_rate", VFloat 4%float)]).
Proof.
  split; [| split; [| split]].
  - apply (proj1 (_calculate_equity_risk_premium_guard _ idle) 0%float);
      reflexivity.
  - apply (proj1 (proj2 (_calculate_equity_risk_premium_guard dead_world idle))).
    right. exists outage. reflexivity.
  - apply (proj1 (proj2 (proj2 (_calculate_equity_risk_premium_guard _ idle)))
             20%float); reflexivity.
  - apply (proj2 (proj2 (proj2 (_calculate_equity_risk_premium_guard
                                  fallback_world idle)))
             20%float [] "2024-02-29" 4%float); reflexivity.
Defined.

(** ** The spreadsheets *)

Section Spreadsheets.

#[local] Open Scope float_scope.

Variable w : World.

Lemma download_file_run (url temp : string) (st : State) :
  exists st', _download_file w url temp st = (Ok (download_ok w url temp), st').
Proof.
  unfold _download_file, download_ok. run.
  destruct (requests_get w url) as [status_code | e]; [| eexists; reflexivity].
  destruct (status_code =? 200)%Z; cbn; [| eexists; reflexivity].
  destruct (write_temp_file w temp) as [[] | e]; eexists; reflexivity.
Qed.

Lemma calculate_erp_returns (st : State) :
  exists v st', _calculate_equity_risk_premium w st = (Ok v, st').
Proof.
  unfold _calculate_equity_risk_premium.
  apply never_raises_try. intros e. apply never_raises_log_error.
Qed.

(** The risk premium falls back on the computed one when the spreadsheet
    reader is not installed or the download does not work, and only then:
    a sheet that cannot be read, or that has no ERP column, gives None. *)
Theorem get_equity_risk_premium_fallback (st : State) :
  (openpyxl_installed w = false
   \/ download_ok w "https://pages.stern.nyu.edu/~adamodar/pc/implprem/ERPbymonth.xlsx"
        "damodaran_temp.xlsx" = false ->
   outcome (get_equity_risk_premium w) st
   = outcome (_calculate_equity_risk_premium w) st)
  /\
  (openpyxl_installed w = true ->
   download_ok w "https://pages.stern.nyu.edu/~adamodar/pc/implprem/ERPbymonth.xlsx"
     "damodaran_temp.xlsx" = true ->
   (exists e, read_excel w "damodaran_temp.xlsx" = Raise e)
   \/ (exists df, read_excel w "damodaran_temp.xlsx" = Ok df
                  /\ find_column "ERP" df = None) ->
   outcome (get_equity_risk_premium w) st = Ok VNone).
Proof.
  split.
  - intros Hfall. unfold outcome, get_equity_risk_premium, try_except.
    destruct (openpyxl_installed w) eqn:Hpy; cbn [negb].
    + destruct Hfall as [Hfall | Hdl]; [discriminate |].
      unfold bind at 1.
      destruct (download_file_run
                  "https://pages.stern.nyu.edu/~adamodar/pc/implprem/ERPbymonth.xlsx"
                  "damodaran_temp.xlsx" st) as [st1 ->].
      rewrite Hdl. cbn [negb].
      destruct (calculate_erp_returns st1) as (v & st2 & Hrun). rewrite Hrun.
      pose proof (stateless_calculate_erp w st1 st) as Hst.
      rewrite Hrun in Hst. cbn [fst] in *. exact Hst.
    + unfold bind at 1, log. cbv beta iota.
      match goal with
      | |- context [_calculate_equity_risk_premium w ?s] =>
          destruct (calculate_erp_returns s) as (v & st2 & Hrun);
          pose proof (stateless_calculate_erp w s st) as Hst
      end.
      rewrite Hrun in *. cbn [fst] in *. exact Hst.
  - intros Hpy Hdl Hsheet. unfold outcome, get_equity_risk_premium, try_except.
    rewrite Hpy. cbn [negb]. unfold bind at 1.
    destruct (download_file_run
                "https://pages.stern.nyu.edu/~adamodar/pc/implprem/ERPbymonth.xlsx"
                "damodaran_temp.xlsx" st) as [st1 ->].
    rewrite Hdl. cbn [negb]. unfold bind at 1, lift.
    destruct Hsheet as [[e ->] | (df & -> & Hcol)].
    + reflexivity.
    + rewrite Hcol. reflexivity.
Qed.


(** The CAPE ratio is the last cell that is not missing of the first column
    whose name contains CAPE in any case; without download, sheet, column or
    such a cell it is None.  FRED is never asked. *)
Theorem get_cape_ratio_sheet (st : State) :
  (download_ok w "http://www.econ.yale.edu/~shiller/data/ie_data.xls"
     "shiller_temp.xls" = false ->
   outcome (get_cape_ratio w) st = Ok VNone)
  /\
  (download_ok w "http://www.econ.yale.edu/~shiller/data/ie_data.xls"
     "shiller_temp.xls" = true ->
   (forall e, read_excel w "shiller_temp.xls" = Raise e ->
      outcome (get_cape_ratio w) st = Ok VNone)
   /\
   (forall df, read_excel w "shiller_temp.xls" = Ok df ->
      find_column "CAPE" df = None ->
      outcome (get_cape_ratio w) st = Ok VNone)
   /\
   (forall df label cells, read_excel w "shiller_temp.xls" = Ok df ->
      find_column "CAPE" df = Some (label, cells) ->
      dropna cells = [] ->
      outcome (get_cape_ratio w) st = Ok VNone)
   /\
   (forall df label cells earlier x, read_excel w "shiller_temp.xls" = Ok df ->
      find_column "CAPE" df = Some (label, cells) ->
      dropna cells = earlier ++ [VFloat x] ->
      outcome (get_cape_ratio w) st = Ok (VFloat x)))
  /\
  (forall fred,
      outcome (get_cape_ratio (with_fred fred w)) st
      = outcome (get_cape_ratio w) st).
Proof.
  split; [| split].
  - intros Hdl. unfold outcome, get_cape_ratio, try_except. unfold bind at 1.
    destruct (download_file_run "http://www.econ.yale.edu/~shiller/data/ie_data.xls"
                "shiller_temp.xls" st) as [st1 ->].
    rewrite Hdl. reflexivity.
  - intros Hdl.
    assert (Hrun : forall P : Result PyVal -> Prop,
               (forall st1,
                   P (fst (try_except
                             (bind (lift (read_excel w "shiller_temp.xls"))
                                (fun df =>
                                   match find_column "CAPE" df with
                                   | None =>
                                       bind (log ERROR "Could not find CAPE column in Shiller's data")
                                         (fun _ => raise (Exception "Could not find CAPE column in the data"))
                                   | Some (_, cells) =>
                                       match nth_from_end 1 (dropna cells) with
                                       | None => raise (IndexError "single positional indexer is out-of-bounds")
                                       | Some cape_value =>
                                           bind (py_float w cape_value)
                                             (fun x => ret (VFloat x))
                                       end
                                   end))
                             (fun e => _log_error VNone "fetching CAPE ratio" e)
                             st1))) ->
               P (outcome (get_cape_ratio w) st)).
    { intros P HP. unfold outcome, get_cape_ratio. unfold try_except at 1.
      unfold bind at 1.
      destruct (download_file_run "http://www.econ.yale.edu/~shiller/data/ie_data.xls"
                  "shiller_temp.xls" st) as [st1 ->].
      rewrite Hdl. cbn [negb]. specialize (HP st1). unfold try_except in HP.
      exact HP. }
    split; [| split; [| split]].
    + intros e He. apply Hrun. intros st1. run. rewrite He. reflexivity.
    + intros df Hdf Hcol. apply Hrun. intros st1. run. rewrite Hdf.
      cbn. rewrite Hcol. reflexivity.
    + intros df label cells Hdf Hcol Hnone. apply Hrun. intros st1.
      unfold try_except, bind, lift. rewrite Hdf, Hcol, Hnone. reflexivity.
    + intros df label cells earlier x Hdf Hcol Hlast. apply Hrun. intros st1.
      unfold try_except, bind, lift. rewrite Hdf, Hcol, Hlast.
      rewrite nth_from_end_last. reflexivity.
  - intros fred. unfold outcome.
    apply (stateless_cape_ratio w st st).
Qed.

End Spreadsheets.

Lemma get_equity_risk_premium_fallback_witness :
  outcome (get_equity_risk_premium fallback_world) idle
  = outcome (_calculate_equity_risk_premium fallback_world) idle
  /\ outcome (get_equity_risk_premium wrong_sheet_world) idle = Ok VNone
  /\ outcome (_calculate_equity_risk_premium wrong_sheet_world) idle
     <> Ok VNone.
Proof.
  split; [| split].
  - apply (proj1 (get_equity_risk_premium_fallback fallback_world idle)).
    right. reflexivity.
  - apply (proj2 (get_equity_risk_premium_fallback wrong_sheet_world idle)
             eq_refl eq_refl).
    right. exists shiller_sheet. split; reflexivity.
  - discriminate.
Defined.


Lemma get_cape_ratio_sheet_witness :
  outcome (get_cape_ratio dead_world) idle = Ok VNone
  /\ outcome (get_cape_ratio sheet_world) idle = Ok (VFloat 31.5%float)
  /\ outcome (get_cape_ratio
                (with_web web_up (fun _ => Ok erp_sheet) dead_world)) idle
     = Ok VNone.
Proof.
  split; [| split].
  - apply (proj1 (get_cape_ratio_sheet dead_world idle)). reflexivity.
  - apply (proj2 (proj2 (proj2 (proj1 (proj2 (get_cape_ratio_sheet sheet_world idle))
                                  eq_refl)))
             shiller_sheet "Cape" [VFloat 30.5%float; VFloat 31.5%float; VNone]
             [VFloat 30.5%float] 31.5%float eq_refl eq_refl eq_refl).
  - apply (proj1 (proj2 (proj1 (proj2 (get_cape_ratio_sheet
                                         (with_web web_up (fun _ => Ok erp_sheet)
                                                   dead_world) idle))
                                  eq_refl))
             erp_sheet eq_refl eq_refl).
Defined.

(** ** Government debt and deficit *)

Section Government.

#[local] Open Scope float_scope.

Variable w : World.

(** Debt and deficit are all or nothing, but the ratio to GDP is not: when
    only the GDP series is missing, debt and deficit are still reported and
    the ratio alone is None; otherwise it is debt over GDP in percent. *)
Theorem get_government_metrics_partial (st : State) :
  (absent_or_empty (fred_get_series w "GFDEBTN") = true
   \/ absent_or_empty (fred_get_series w "FYFSD") = true ->
   outcome (get_government_metrics w) st
   = Ok (VDict [("govt_debt", VNone); ("govt_deficit", VNone);
                ("debt_to_gdp", VNone)]))
  /\
  (forall s1 d1 debt s2 d2 deficit,
      fred_get_series w "GFDEBTN" = Ok (s1 ++ [(d1, debt)]) ->
      fred_get_series w "FYFSD" = Ok (s2 ++ [(d2, deficit)]) ->
      (absent_or_empty (fred_get_series w "GDP") = true ->
       outcome (get_government_metrics w) st
       = Ok (VDict [("govt_debt", VFloat debt); ("govt_deficit", VFloat deficit);
                    ("debt_to_gdp", VNone)]))
      /\
      (forall s3 d3 gdp,
          fred_get_series w "GDP" = Ok (s3 ++ [(d3, gdp)]) ->
          outcome (get_government_metrics w) st
          = Ok (VDict [("govt_debt", VFloat debt); ("govt_deficit", VFloat deficit);
                       ("debt_to_gdp", VFloat ((debt / gdp) * 100))]))).
Proof.
  split.
  - intros H. unfold get_government_metrics, _safe_get_fred_series. run.
    destruct (fred_get_series w "GFDEBTN") as [[| b bs] | e1];
      destruct (fred_get_series w "FYFSD") as [[| t ts] | e2];
      simpl in *; try reflexivity.
    destruct H; discriminate.
  - intros s1 d1 debt s2 d2 deficit Hdebt Hdef.
    assert (Hhead : forall k : option Series -> M PyVal,
               outcome (get_government_metrics w) st
               = fst (try_except
                        (bind (_safe_get_fred_series w "GDP")
                           (fun gdp =>
                              bind (match gdp with
                                    | Some g =>
                                        if empty g then ret VNone
                                        else bind (iloc_neg 1 g)
                                               (fun latest_gdp =>
                                                  ret (VFloat ((debt / latest_gdp) * 100)))
                                    | None => ret VNone
                                    end)
                                (fun debt_to_gdp =>
                                   ret (VDict [("govt_debt", VFloat debt);
                                               ("govt_deficit", VFloat deficit);
                                               ("debt_to_gdp", debt_to_gdp)]))))
                        (fun e => _log_error VNone "fetching government metrics" e)
                        st)).
    { intros _. unfold outcome, get_government_metrics, try_except.
      unfold bind at 1. rewrite (safe_fred_ok _ _ _ _ Hdebt).
      unfold bind at 1. rewrite (safe_fred_ok _ _ _ _ Hdef).
      rewrite !empty_app_last. cbn [orb].
      unfold bind at 1. rewrite iloc_last.
      unfold bind at 1. rewrite iloc_last. reflexivity. }
    rewrite (Hhead (fun _ => ret VNone)). split.
    + intros Habs. unfold _safe_get_fred_series. run.
      destruct (fred_get_series w "GDP") as [[| o s] | e]; try discriminate;
        reflexivity.
    + intros s3 d3 gdp Hgdp. unfold try_except, bind.
      rewrite (safe_fred_ok _ _ _ _ Hgdp), empty_app_last, iloc_last.
      reflexivity.
Qed.

End Government.

Lemma get_government_metrics_partial_witness :
  outcome (get_government_metrics dead_world) idle
  = Ok (VDict [("govt_debt", VNone); ("govt_deficit", VNone); ("debt_to_gdp", VNone)])
  /\ outcome (get_government_metrics debt_world) idle
     = Ok (VDict [("govt_debt", VFloat 34000000%float);
                  ("govt_deficit", VFloat (-1700000)%float);
                  ("debt_to_gdp", VNone)])
  /\ outcome (get_government_metrics debt_gdp_world) idle
     = Ok (VDict [("govt_debt", VFloat 50%float);
                  ("govt_deficit", VFloat (-2)%float);
                  ("debt_to_gdp", VFloat 125%float)]).
Proof.
  split; [| split].
  - apply (proj1 (get_government_metrics_partial dead_world idle)).
    left. reflexivity.
  - apply (proj1 (proj2 (get_government_metrics_partial debt_world idle)
                    [] "2023-01-01" 34000000%float
                    [] "2023-01-01" (-1700000)%float eq_refl eq_refl)).
    reflexivity.
  - apply (proj2 (proj2 (get_government_metrics_partial debt_gdp_world idle)
                    [] "2023-01-01" 50%float
                    [] "2023-01-01" (-2)%float eq_refl eq_refl)
             [] "2023-01-01" 40%float).
    reflexivity.
Defined.

(** ** The aggregate does not call itself *)

(** Whatever stands in the catalog under 'US All Metrics', the loop of
    [get_all_metrics] skips it: over the catalog that holds
    [get_all_metrics] itself it does what [get_all_metrics] does, and the
    entry is never run. *)
Theorem get_all_metrics_skips_itself (w : World) (all_metrics : M PyVal)
    (st : State) :
  get_all_metrics_over (get_metric_definitions_of w all_metrics) st
  = get_all_metrics w st
  /\ get_all_metrics_over (get_metric_definitions w) st = get_all_metrics w st.
Proof.
  assert (H : forall a,
             get_all_metrics_over (get_metric_definitions_of w a) st
             = get_all_metrics_over
                 (firstn 13 (get_metric_definitions_of w (ret VNone))) st).
  { intros a. unfold get_all_metrics_over, bind.
    change (get_metric_definitions_of w a)
      with (firstn 13 (get_metric_definitions_of w (ret VNone))
            ++ [("US All Metrics", (a, "Multiple Sources"))]).
    destruct (all_metrics_loop_app
                (firstn 13 (get_metric_definitions_of w (ret VNone)))
                [("US All Metrics", (a, "Multiple Sources"))] [] st)
      as (m1 & s1 & Hpre & ->).
    rewrite Hpre. reflexivity. }
  split.
  - rewrite (H all_metrics). unfold get_all_metrics. rewrite (H (ret VNone)).
    reflexivity.
  - unfold get_metric_definitions. rewrite (H (get_all_metrics w)).
    unfold get_all_metrics. rewrite (H (ret VNone)). reflexivity.
Qed.

(** ** What a call by name does to the instance *)

Section LogOnly.

Lemma log_only_ret {A} (a : A) : log_only (ret a).
Proof. intros st. cbn. auto. Qed.

Lemma log_only_raise {A} (e : Exn) : log_only (@raise A e).
Proof. intros st. cbn. auto. Qed.

Lemma log_only_lift {A} (r : Result A) : log_only (lift r).
Proof. intros st. cbn. auto. Qed.

Lemma log_only_log (l : Level) (msg : string) : log_only (log l msg).
Proof. intros st. cbn. auto. Qed.

Lemma log_only_log_error {A} (none : A) (msg : string) (e : Exn) :
  log_only (_log_error none msg e).
Proof. intros st. cbn. auto. Qed.

Lemma log_only_bind {A B} (m : M A) (k : A -> M B) :
  log_only m -> (forall a, log_only (k a)) -> log_only (bind m k).
Proof.
  intros Hm Hk st. unfold bind. destruct (Hm st) as (H1 & H2 & H3).
  destruct (m st) as [[a | e] st1]; cbn [snd] in *; [| auto].
  destruct (Hk a st1) as (K1 & K2 & K3).
  rewrite K1, K2, K3. auto.
Qed.

Lemma log_only_try {A} (body : M A) (handler : Exn -> M A) :
  log_only body -> (forall e, log_only (handler e)) ->
  log_only (try_except body handler).
Proof.
  intros Hm Hk st. unfold try_except. destruct (Hm st) as (H1 & H2 & H3).
  destruct (body st) as [[a | e] st1]; cbn [snd] in *; [auto |].
  destruct (Hk e st1) as (K1 & K2 & K3).
  rewrite K1, K2, K3. auto.
Qed.

End LogOnly.

#[local] Hint Resolve log_only_ret log_only_raise log_only_lift log_only_log
  log_only_log_error : resolvers.

Ltac log_only_step :=
  match goal with
  | |- log_only (bind _ _) => apply log_only_bind; [| intros ?]
  | |- log_only (try_except _ _) => apply log_only_try; [| intros ?]
  | |- log_only (match ?x with _ => _ end) => destruct x
  | |- log_only (if ?b then _ else _) => destruct b
  | |- log_only (let x := _ in _) => cbv zeta
  | |- log_only _ => solve [auto with resolvers]
  end.

Ltac log_only_auto := repeat log_only_step.

Section ResolversLogOnly.

Variable w : World.

Lemma log_only_safe_fred (id : string) : log_only (_safe_get_fred_series w id).
Proof. unfold _safe_get_fred_series. log_only_auto. Qed.

Lemma log_only_iloc (k : nat) (s : Series) : log_only (iloc_neg k s).
Proof. unfold iloc_neg. log_only_auto. Qed.

Lemma log_only_index (k : nat) (s : Series) : log_only (index_neg k s).
Proof. unfold index_neg. log_only_auto. Qed.

Lemma log_only_py_float (v : PyVal) : log_only (py_float w v).
Proof. unfold py_float. log_only_auto. Qed.

Lemma log_only_py_int (x : float) : log_only (py_int x).
Proof. unfold py_int. log_only_auto. Qed.

Lemma log_only_py_round (x : float) : log_only (py_round x).
Proof. unfold py_round. log_only_auto. Qed.

Lemma stateless_py_round (x : float) : stateless (py_round x).
Proof. unfold py_round. stateless_auto. Qed.

Lemma log_only_download (url temp : string) : log_only (_download_file w url temp).
Proof. unfold _download_file. log_only_auto. Qed.

End ResolversLogOnly.

#[local] Hint Resolve log_only_safe_fred log_only_iloc log_only_index
  log_only_py_float log_only_py_int log_only_py_round stateless_py_round
  log_only_download : resolvers.

Section CatalogLogOnly.

Variable w : World.

Lemma log_only_ticker (symbol description field : string) :
  log_only (_get_ticker_info w symbol description field).
Proof. unfold _get_ticker_info. log_only_auto. Qed.

Lemma log_only_asset_price (symbol name unit : string) :
  log_only (get_asset_price w symbol name unit).
Proof. unfold get_asset_price. log_only_auto. Qed.

Lemma log_only_cape_ratio : log_only (get_cape_ratio w).
Proof. unfold get_cape_ratio. log_only_auto. Qed.

Lemma log_only_credit_spreads : log_only (get_credit_spreads w).
Proof. unfold get_credit_spreads. log_only_auto. Qed.

Lemma log_only_market_to_gdp : log_only (get_market_to_gdp w).
Proof. unfold get_market_to_gdp. log_only_auto. Qed.

Lemma log_only_gdp_metrics : log_only (get_gdp_metrics w).
Proof. unfold get_gdp_metrics. log_only_auto. Qed.

Lemma log_only_government_metrics : log_only (get_government_metrics w).
Proof. unfold get_government_metrics. log_only_auto. Qed.

Lemma log_only_10yr_yield : log_only (get_10yr_yield w).
Proof. unfold get_10yr_yield. log_only_auto. Qed.

Lemma log_only_inflation_rate : log_only (get_inflation_rate w).
Proof. unfold get_inflation_rate. log_only_auto. Qed.

Lemma log_only_calculate_erp : log_only (_calculate_equity_risk_premium w).
Proof.
  unfold _calculate_equity_risk_premium, get_pe_ratio.
  pose proof log_only_ticker. pose proof log_only_10yr_yield.
  log_only_auto.
Qed.

Lemma log_only_convert_erp (v : PyVal) : log_only (convert_erp_value w v).
Proof. unfold convert_erp_value. log_only_auto. Qed.

Lemma log_only_equity_risk_premium : log_only (get_equity_risk_premium w).
Proof.
  unfold get_equity_risk_premium.
  pose proof log_only_calculate_erp. pose proof log_only_convert_erp.
  log_only_auto.
Qed.

Lemma log_only_earnings_growth : log_only (get_earnings_growth w).
Proof. unfold get_earnings_growth. log_only_auto. Qed.

Lemma log_only_loop (defs : Definitions) :
  Forall (fun d => log_only (fst (snd d))) defs ->
  forall metrics, log_only (all_metrics_loop defs metrics).
Proof.
  induction 1 as [| [name [func src]] defs Hfunc _ IH]; intros metrics.
  - apply log_only_ret.
  - cbn [all_metrics_loop]. apply log_only_bind; [| intros m; apply IH].
    unfold all_metrics_step. cbn [fst snd] in Hfunc.
    destruct (negb (String.eqb name "US All Metrics")); [| apply log_only_ret].
    apply log_only_try.
    + apply log_only_bind; [exact Hfunc |]. intros v. unfold merge_result.
      log_only_auto.
    + intros e. log_only_auto.
Qed.

Lemma catalog_log_only (all_metrics : M PyVal) :
  log_only all_metrics ->
  Forall (fun d => log_only (fst (snd d))) (get_metric_definitions_of w all_metrics).
Proof.
  intros Hall. unfold get_metric_definitions_of.
  repeat (apply Forall_cons; cbn [fst snd]);
    try apply Forall_nil; try exact Hall;
    unfold get_pe_ratio, get_gold_price, get_bitcoin_price, get_wti_crude_price;
    auto using log_only_ticker, log_only_cape_ratio, log_only_credit_spreads,
      log_only_market_to_gdp, log_only_gdp_metrics, log_only_government_metrics,
      log_only_10yr_yield, log_only_inflation_rate, log_only_equity_risk_premium,
      log_only_earnings_growth, log_only_asset_price.
Qed.

Lemma log_only_get_all_metrics : log_only (get_all_metrics w).
Proof.
  unfold get_all_metrics, get_all_metrics_over.
  apply log_only_bind; [| intros m; apply log_only_ret].
  apply log_only_loop, catalog_log_only, log_only_ret.
Qed.

Lemma stateless_get_all_metrics : stateless (get_all_metrics w).
Proof.
  intros s1 s2.
  destruct (get_all_metrics_outcome w s1) as [t1 ->].
  destruct (get_all_metrics_outcome w s2) as [t2 ->]. reflexivity.
Qed.

Lemma log_only_timestamp (name : string) :
  log_only (get_timestamp_for_metric w name).
Proof.
  unfold get_timestamp_for_metric, timestamp_strategy, last_index_date,
    shiller_date, first_of_month.
  log_only_auto.
Qed.

Lemma stateless_timestamp (name : string) :
  stateless (get_timestamp_for_metric w name).
Proof.
  unfold get_timestamp_for_metric, timestamp_strategy, last_index_date,
    shiller_date, first_of_month.
  stateless_auto.
Qed.

(** Every entry of the catalog returns, logs at most, and returns the same
    whatever the state. *)
Lemma catalog_entry_behaves (name : string) (func : M PyVal) (source : string) :
  lookup_definition name (get_metric_definitions w) = Some (func, source) ->
  never_raises func /\ log_only func /\ stateless func.
Proof.
  intros Hlook. apply lookup_definition_some in Hlook.
  pose proof (catalog_never_raises w) as H1.
  pose proof (catalog_log_only _ log_only_get_all_metrics) as H2.
  pose proof (catalog_stateless w _ stateless_get_all_metrics) as H3.
  fold (get_metric_definitions w) in H2, H3.
  rewrite Forall_forall in H1, H2, H3.
  split; [| split].
  - apply (H1 _ Hlook).
  - apply (H2 _ Hlook).
  - apply (H3 _ Hlook).
Qed.

End CatalogLogOnly.

Section ByNameRuns.

Import PyDictFacts.

Variable w : World.

Lemma bind_assoc {A B C} (m : M A) (k : A -> M B) (h : B -> M C) (st : State) :
  bind m (fun a => bind (k a) h) st = bind (bind m k) h st.
Proof. unfold bind. destruct (m st) as [[a | e] st1]; reflexivity. Qed.

Lemma behaves_run {A} (m : M A) (p : option string) (hw : bool)
    (lg : list LogRecord) (snk : option (list CsvLine)) :
  never_raises m -> log_only m -> stateless m ->
  exists a lg',
    m (mkState p hw lg snk) = (Ok a, mkState p hw lg' snk)
    /\ forall st, outcome m st = Ok a.
Proof.
  intros Hnr Hlo Hst.
  destruct (Hnr (mkState p hw lg snk)) as (a & st' & Hrun).
  pose proof (Hlo (mkState p hw lg snk)) as (H1 & H2 & H3).
  rewrite Hrun in H1, H2, H3. destruct st' as [p' hw' lg' snk'].
  cbn in H1, H2, H3. subst. exists a, lg'. split; [exact Hrun |].
  intros st. unfold outcome. rewrite (Hst st (mkState p hw lg snk)), Hrun.
  reflexivity.
Qed.

(** A call by name: the record, then its export when the path is set. *)
Lemma get_metric_by_name_run (name : string) (func : M PyVal) (source : string)
    (p : option string) (hw : bool) (lg : list LogRecord)
    (snk : option (list CsvLine)) :
  lookup_definition name (get_metric_definitions w) = Some (func, source) ->
  exists record lg',
    (forall st, outcome (get_metric_by_name w name) st = Ok record)
    /\ PyDict.get "source" record = Some (VStr source)
    /\ (forall v, outcome func idle = Ok v -> isinstance_dict v = false ->
          record = [("value", v); ("timestamp", VStr (today w));
                    ("source", VStr source)])
    /\ get_metric_by_name w name (mkState p hw lg snk)
       = (Ok record,
          if path_enabled p
          then snd (_export_to_csv w name record (mkState p hw lg' snk))
          else mkState p hw lg' snk).
Proof.
  intros Hlook.
  destruct (catalog_entry_behaves w name func source Hlook) as (Hnr & Hlo & Hst).
  assert (Hrec : exists record,
             PyDict.get "source" record = Some (VStr source)
             /\ (forall v, outcome func idle = Ok v -> isinstance_dict v = false ->
                   record = [("value", v); ("timestamp", VStr (today w));
                             ("source", VStr source)])
             /\ forall p hw lg snk,
                exists lg',
                  bind func
                    (fun result =>
                       match result with
                       | VDict d =>
                           bind (get_timestamp_for_metric w name)
                             (fun ts => ret (PyDict.set "source" (VStr source)
                                               (PyDict.set "timestamp" (VStr ts) d)))
                       | _ => ret [("value", result); ("timestamp", VStr (today w));
                                   ("source", VStr source)]
                       end) (mkState p hw lg snk)
                  = (Ok record, mkState p hw lg' snk)).
  { destruct (behaves_run func None false [] None Hnr Hlo Hst) as (v & _ & _ & Hv).
    destruct (behaves_run (get_timestamp_for_metric w name) None false [] None
                (never_raises_timestamp w name) (log_only_timestamp w name)
                (stateless_timestamp w name)) as (ts & _ & _ & Hts).
    exists (match v with
            | VDict d => PyDict.set "source" (VStr source)
                           (PyDict.set "timestamp" (VStr ts) d)
            | _ => [("value", v); ("timestamp", VStr (today w));
                    ("source", VStr source)]
            end).
    split; [| split].
    - destruct v; try reflexivity. apply get_set_same.
    - intros v' Hv' Hnd. rewrite (Hv idle) in Hv'. injection Hv' as <-.
      destruct v; try reflexivity. discriminate.
    - intros p0 hw0 lg0 snk0. unfold bind.
      destruct (behaves_run func p0 hw0 lg0 snk0 Hnr Hlo Hst)
        as (v' & lg1 & Hrun & Hv').
      rewrite Hrun. specialize (Hv' idle). rewrite (Hv idle) in Hv'.
      injection Hv' as <-.
      destruct v; try (exists lg1; reflexivity).
      destruct (behaves_run (get_timestamp_for_metric w name) p0 hw0 lg1 snk0
                  (never_raises_timestamp w name) (log_only_timestamp w name)
                  (stateless_timestamp w name)) as (ts' & lg2 & Hrun2 & Hts').
      rewrite Hrun2. specialize (Hts' idle). rewrite (Hts idle) in Hts'.
      injection Hts' as <-. exists lg2. reflexivity. }
  destruct Hrec as (record & Hsrc & Hscalar & Hruns).
  destruct (Hruns p hw lg snk) as [lg' Hrun].
  exists record, lg'. split; [| split; [| split]]; try assumption.
  - intros st. destruct st as [p0 hw0 lg0 snk0].
    destruct (Hruns p0 hw0 lg0 snk0) as [lg0' Hrun0].
    unfold outcome, get_metric_by_name. rewrite Hlook.
    rewrite bind_assoc. unfold bind at 1. rewrite Hrun0.
    unfold bind, get_path. cbn [csv_export_path].
    destruct (path_enabled p0); [| reflexivity].
    destruct (never_raises_export w name record (mkState p0 hw0 lg0' snk0))
      as ([] & st3 & ->). reflexivity.
  - unfold get_metric_by_name. rewrite Hlook.
    rewrite bind_assoc. unfold bind at 1. rewrite Hrun.
    unfold bind, get_path. cbn [csv_export_path].
    destruct (path_enabled p); [| reflexivity].
    destruct (never_raises_export w name record (mkState p hw lg' snk))
      as ([] & st3 & Hexp). rewrite Hexp. reflexivity.
Qed.

End ByNameRuns.

(** ** Records and their export *)

Section RecordsExported.

Variable w : World.

Lemma record_of_run (name : string) (func : M PyVal) (source : string)
    (p : option string) (hw : bool) (lg : list LogRecord)
    (snk : option (list CsvLine)) :
  lookup_definition name (get_metric_definitions w) = Some (func, source) ->
  exists lg',
    get_metric_by_name w name (mkState p hw lg snk)
    = (Ok (record_of w name),
       if path_enabled p
       then snd (_export_to_csv w name (record_of w name) (mkState p hw lg' snk))
       else mkState p hw lg' snk).
Proof.
  intros Hlook.
  destruct (get_metric_by_name_run w name func source p hw lg snk Hlook)
    as (record & lg' & Hout & _ & _ & Hrun).
  exists lg'. unfold record_of. rewrite (Hout idle). exact Hrun.
Qed.

(** With the export path set and no fault of the file system, a call by
    name appends to the sink the rows of the very record it returns, after
    the header when that is due; the record it returns is the one it returns
    without export, and still has its source. *)
Theorem get_metric_by_name_exports_record (name : string) (func : M PyVal)
    (source : string) (p : option string) (hw : bool) (lg : list LogRecord)
    (snk : option (list CsvLine)) :
  lookup_definition name (get_metric_definitions w) = Some (func, source) ->
  path_enabled p = true ->
  csv_io w = IoOk ->
  exists record lg',
    get_metric_by_name w name (mkState p hw lg snk)
    = (Ok record,
       if orb (negb (nonempty_file snk)) (negb hw) then
         mkState p true lg'
           (Some (match snk with Some ls => ls | None => [] end
                  ++ Header :: map Data (flatten w name record)))
       else
         mkState p hw lg'
           (Some (match snk with Some ls => ls | None => [] end
                  ++ map Data (flatten w name record))))
    /\ outcome (get_metric_by_name w name) idle = Ok record
    /\ PyDict.get "source" record = Some (VStr source).
Proof.
  intros Hlook Hp Hio.
  destruct (get_metric_by_name_run w name func source p hw lg snk Hlook)
    as (record & lg' & Hout & Hsrc & _ & Hrun).
  exists record, lg'. split; [| split; [apply Hout | exact Hsrc]].
  rewrite Hrun, Hp. rewrite (export_without_fault w name record p hw lg' snk Hio Hp).
  reflexivity.
Qed.

(** The record of an indicator whose resolver returns a number or None is
    dated today, whatever FRED or Shiller's sheet say: the timestamp strategy
    is not asked, not even for the inflation rate and the CAPE ratio, which
    it knows how to date. *)
Theorem scalar_record_dated_today (name : string) (st : State) :
  In name scalar_indicators ->
  exists v source,
    outcome (get_metric_by_name w name) st
    = Ok [("value", v); ("timestamp", VStr (today w)); ("source", VStr source)]
    /\ isinstance_dict v = false.
Proof.
  intros Hin.
  assert (Hscalar : exists func source,
             lookup_definition name (get_metric_definitions w) = Some (func, source)
             /\ scalar_outcome (outcome func idle) = true).
  { cbn [scalar_indicators In] in Hin.
    repeat (destruct Hin as [<- | Hin];
            [eexists _, _; split; [reflexivity |];
             first [ apply scalar_ticker | apply scalar_asset_price
                   | apply scalar_cape_ratio | apply scalar_market_to_gdp
                   | apply scalar_10yr_yield | apply scalar_inflation_rate ] |]).
    destruct Hin. }
  destruct Hscalar as (func & source & Hlook & Hsc).
  destruct st as [p hw lg snk].
  destruct (get_metric_by_name_run w name func source p hw lg snk Hlook)
    as (record & lg' & Hout & _ & Hrec & _).
  destruct (catalog_entry_behaves w name func source Hlook) as (Hnr & _ & _).
  destruct (Hnr idle) as (v & st' & Hv).
  assert (Hv' : outcome func idle = Ok v) by (unfold outcome; rewrite Hv; reflexivity).
  rewrite Hv' in Hsc.
  assert (Hnd : isinstance_dict v = false) by (destruct v; try reflexivity; discriminate).
  exists v, source. split; [| exact Hnd].
  rewrite Hout. f_equal. apply (Hrec v Hv' Hnd).
Qed.

End RecordsExported.

(** An instance without export path (None or the empty path), or whose sink
    directory could not be made, never writes: the path is off for good, and
    in both cases neither a sequence of exports nor a call by name touches
    the sink. *)
Theorem export_disabled_never_writes (w0 : World) (path : option string)
    (file : option (list CsvLine)) :
  (path_enabled path = false ->
   new_instance w0 path file = mkState path false [] file
   /\ (forall calls,
          run_exports calls (new_instance w0 path file) = new_instance w0 path file)
   /\ (forall w name func source,
          lookup_definition name (get_metric_definitions w) = Some (func, source) ->
          sink (snd (get_metric_by_name w name (new_instance w0 path file)))
          = file))
  /\
  (forall e,
      path_enabled path = true ->
      makedirs w0 = Raise e ->
      new_instance w0 path file
      = mkState None false
          [mkLog ERROR ("Error initializing CSV export: " ++ exn_text e)] file
      /\ (forall calls,
             run_exports calls (new_instance w0 path file)
             = new_instance w0 path file)
      /\ (forall w name func source,
             lookup_definition name (get_metric_definitions w) = Some (func, source) ->
             sink (snd (get_metric_by_name w name (new_instance w0 path file)))
             = file)).
Proof.
  assert (Hoff : forall st calls,
             path_enabled (csv_export_path st) = false -> run_exports calls st = st).
  { intros st calls. revert st.
    induction calls as [| c rest IH]; intros st Hp; [reflexivity |].
    cbn [run_exports].
    assert (E : snd (_export_to_csv (call_world c) (call_metric c) (call_data c) st)
                = st).
    { unfold _export_to_csv, bind, get_path. rewrite Hp. reflexivity. }
    rewrite E. apply IH, Hp. }
  split.
  - intros Hp.
    assert (E : new_instance w0 path file = mkState path false [] file).
    { unfold new_instance, __init__, bind, set_path, set_headers_written.
      cbn. rewrite Hp. reflexivity. }
    split; [exact E |]. split.
    + intros calls. apply Hoff. rewrite E. exact Hp.
    + intros w name func source Hlook. rewrite E.
      destruct (get_metric_by_name_run w name func source path false [] file Hlook)
        as (record & lg' & _ & _ & _ & ->).
      rewrite Hp. reflexivity.
  - intros e Hp Hmk.
    assert (E : new_instance w0 path file
                = mkState None false
                    [mkLog ERROR ("Error initializing CSV export: " ++ exn_text e)]
                    file).
    { unfold new_instance, __init__, _initialize_csv_export, bind, set_path,
        set_headers_written, try_except, lift, log.
      cbn. rewrite Hp, Hmk. reflexivity. }
    split; [exact E |]. split.
    + intros calls. apply Hoff. rewrite E. reflexivity.
    + intros w name func source Hlook. rewrite E.
      destruct (get_metric_by_name_run w name func source None false
                  [mkLog ERROR ("Error initializing CSV export: " ++ exn_text e)]
                  file Hlook) as (record & lg' & _ & _ & _ & ->).
      reflexivity.
Qed.

(** ** Exporting the whole catalog *)

Section ExportAll.

Variable w : World.

Lemma fetch_each_appends (names : list string) :
  Forall (fun name => lookup_definition name (get_metric_definitions w) <> None)
         names ->
  csv_io w = IoOk ->
  forall p lg lines,
    path_enabled p = true -> lines <> [] ->
    exists lg',
      fetch_each w names (mkState p true lg (Some lines))
      = (Ok tt,
         mkState p true lg'
           (Some (lines
                  ++ map Data (flat_map (fun name => flatten w name (record_of w name))
                                        names)))).
Proof.
  intros Hall Hio. induction Hall as [| name rest Hname _ IH];
    intros p lg lines Hp Hne.
  - exists lg. cbn. rewrite app_nil_r. reflexivity.
  - destruct (lookup_definition name (get_metric_definitions w))
      as [[func source] |] eqn:Hlook; [| contradiction].
    destruct (record_of_run w name func source p true lg (Some lines) Hlook)
      as [lg1 Hrun].
    cbn [fetch_each]. unfold bind. rewrite Hrun, Hp.
    rewrite (export_without_fault w name _ p true lg1 (Some lines) Hio Hp).
    assert (Hfull : nonempty_file (Some lines) = true)
      by (destruct lines; [contradiction | reflexivity]).
    rewrite Hfull. cbn [negb orb snd].
    destruct (IH p lg1 (lines ++ map Data (flatten w name (record_of w name))) Hp)
      as [lg' Hrest].
    { destruct lines; [contradiction | discriminate]. }
    rewrite Hrest. exists lg'. cbn [flat_map]. rewrite map_app, app_assoc.
    reflexivity.
Qed.

(** Exporting all metrics, when the directory can be made and the file
    system has no fault: the sink keeps what it had; if it had no line it
    gets the header; then come the rows of the record of each indicator of
    the catalog, in catalog order, 'US All Metrics' left out.  With an empty
    path nothing is written. *)
Theorem export_all_metrics_to_csv_sink (csv_path : string)
    (file : option (list CsvLine)) :
  let metric_names :=
    ["US P/E Ratio"; "US CAPE Ratio"; "US Credit Spreads"; "US Stock Market / GDP";
     "US GDP"; "US Government Debt & Deficit"; "US 10-Year Yield";
     "US Inflation Rate"; "US Equity Risk Premium"; "US Earnings Growth";
     "Gold Price"; "Bitcoin Price"; "WTI Crude Oil Price"] in
  (csv_path <> "" -> makedirs w = Ok tt -> csv_io w = IoOk ->
   sink (export_all_metrics_to_csv w csv_path file)
   = Some (match file with Some ls => ls | None => [] end
           ++ (if nonempty_file file then [] else [Header])
           ++ map Data (flat_map (fun name => flatten w name (record_of w name))
                                 metric_names)))
  /\ (csv_path = "" -> sink (export_all_metrics_to_csv w csv_path file) = file).
Proof.
  intros metric_names. split.
  - intros Hpath Hmk Hio.
    assert (Hp : path_enabled (Some csv_path) = true).
    { cbn. destruct (String.eqb_spec csv_path ""); [contradiction | reflexivity]. }
    unfold export_all_metrics_to_csv.
    rewrite (new_instance_state _ _ _ Hp Hmk).
    change (filter (fun name => negb (String.eqb name "US All Metrics"))
              (map fst (get_metric_definitions w)))
      with ("US P/E Ratio" :: tl metric_names).
    assert (Hall : Forall (fun name =>
                lookup_definition name (get_metric_definitions w) <> None)
              (tl metric_names))
      by (repeat constructor; discriminate).
    unfold try_except. cbn [fetch_each]. unfold bind at 1.
    destruct (record_of_run w "US P/E Ratio" (get_pe_ratio w)
                "Yahoo Finance - VTI (Total US Market)" (Some csv_path)
                (nonempty_file file) [] file eq_refl) as [lg1 Hrun].
    rewrite Hrun, Hp.
    rewrite (export_without_fault w _ _ _ _ lg1 file Hio Hp).
    destruct file as [[| l ls] |]; cbn [nonempty_file negb orb snd app];
      match goal with
      | |- context [fetch_each w _ (mkState ?p true ?lg (Some ?lines))] =>
          destruct (fetch_each_appends _ Hall Hio p lg lines Hp
                      ltac:(discriminate)) as [lg' ->]
      end;
      cbn [fst snd sink flat_map metric_names tl];
      rewrite ?map_app; cbn [app map]; rewrite <- ?app_assoc; cbn [app];
      reflexivity.
  - intros ->. unfold export_all_metrics_to_csv.
    change (filter (fun name => negb (String.eqb name "US All Metrics"))
              (map fst (get_metric_definitions w)))
      with metric_names.
    assert (E : new_instance w (Some "") file = mkState (Some "") false [] file)
      by reflexivity.
    rewrite E.
    assert (Hrun : forall names,
               Forall (fun name =>
                 lookup_definition name (get_metric_definitions w) <> None) names ->
               forall lg, exists lg',
                 fetch_each w names (mkState (Some "") false lg file)
                 = (Ok tt, mkState (Some "") false lg' file)).
    { induction 1 as [| name rest Hname _ IH]; intros lg.
      - exists lg. reflexivity.
      - destruct (lookup_definition name (get_metric_definitions w))
          as [[func source] |] eqn:Hlook; [| contradiction].
        destruct (record_of_run w name func source (Some "") false lg file Hlook)
          as [lg1 Hr].
        cbn [fetch_each]. unfold bind. rewrite Hr. cbn [path_enabled String.eqb negb].
        apply IH. }
    destruct (Hrun metric_names ltac:(repeat constructor; discriminate) [])
      as [lg' Hr].
    unfold try_except. rewrite Hr. reflexivity.
Qed.

End ExportAll.

(** ** Normalized names and the menu *)

Section Names.

Lemma plain_char_default (c : ascii) :
  plain_char (if Ascii.eqb (PyStr.lower_ascii c) " " then "_"%char
              else PyStr.lower_ascii c) = true.
Proof. destruct c as [[] [] [] [] [] [] [] []]; reflexivity. Qed.

Lemma plain_char_fixed (c : ascii) :
  plain_char c = true ->
  (if Ascii.eqb (PyStr.lower_ascii c) " " then "_"%char else PyStr.lower_ascii c)
  = c.
Proof.
  destruct c as [[] [] [] [] [] [] [] []]; intros H;
    first [reflexivity | discriminate H].
Qed.

Lemma default_name_unfold (s : string) :
  PyStr.replace_char " " "_" (PyStr.lower s)
  = PyStr.map_ascii (fun c => if Ascii.eqb (PyStr.lower_ascii c) " " then "_"%char
                              else PyStr.lower_ascii c) s.
Proof.
  unfold PyStr.replace_char, PyStr.lower.
  induction s as [| c s IH]; [reflexivity |]. cbn [PyStr.map_ascii].
  rewrite IH. reflexivity.
Qed.

Lemma plain_default (s : string) :
  plain (PyStr.replace_char " " "_" (PyStr.lower s)) = true.
Proof.
  rewrite default_name_unfold.
  induction s as [| c s IH]; [reflexivity |]. cbn [PyStr.map_ascii plain].
  rewrite plain_char_default, IH. reflexivity.
Qed.

Lemma plain_default_fixed (s : string) :
  plain s = true -> PyStr.replace_char " " "_" (PyStr.lower s) = s.
Proof.
  rewrite default_name_unfold.
  induction s as [| c s IH]; [reflexivity |]. cbn [PyStr.map_ascii plain].
  intros H. apply andb_prop in H. destruct H as [Hc Hs].
  rewrite (plain_char_fixed c Hc), (IH Hs). reflexivity.
Qed.

Lemma plain_differs (s t : string) (c : ascii) :
  plain s = true -> plain_char c = false -> String.eqb s (String c t) = false.
Proof.
  intros Hs Hc. destruct s as [| a s]; [reflexivity |].
  cbn [String.eqb]. cbn [plain] in Hs. apply andb_prop in Hs.
  destruct Hs as [Ha _].
  destruct (Ascii.eqb_spec a c) as [-> | _]; [congruence | reflexivity].
Qed.

Lemma isascii_char_default (c : ascii) :
  (nat_of_ascii c <? 128)%nat = true ->
  (nat_of_ascii (if Ascii.eqb (PyStr.lower_ascii c) " " then "_"%char
                 else PyStr.lower_ascii c) <? 128)%nat = true.
Proof.
  destruct c as [[] [] [] [] [] [] [] []]; intros H;
    first [reflexivity | discriminate H].
Qed.

Lemma isascii_default (s : string) :
  PyStr.isascii s = true ->
  PyStr.isascii (PyStr.replace_char " " "_" (PyStr.lower s)) = true.
Proof.
  rewrite default_name_unfold.
  induction s as [| c s IH]; [reflexivity |].
  cbn [PyStr.map_ascii PyStr.isascii].
  intros H. apply andb_prop in H. destruct H as [Hc Hs].
  rewrite (isascii_char_default c Hc), (IH Hs). reflexivity.
Qed.

(** On an ASCII name (where [PyStr.lower] is Python's [str.lower]): the
    normalized name is ASCII again, it has no upper-case letter and no
    blank, and normalizing it again changes nothing. *)
Theorem _normalize_metric_name_idempotent (metric_name : string) :
  PyStr.isascii metric_name = true ->
  PyStr.isascii (_normalize_metric_name metric_name) = true
  /\ plain (_normalize_metric_name metric_name) = true
  /\ _normalize_metric_name (_normalize_metric_name metric_name)
     = _normalize_metric_name metric_name.
Proof.
  intros Hascii.
  assert (Hplain : plain (_normalize_metric_name metric_name) = true).
  { unfold _normalize_metric_name.
    repeat (destruct (String.eqb metric_name _); [reflexivity |]).
    apply plain_default. }
  split; [| split; [exact Hplain |]].
  - unfold _normalize_metric_name.
    repeat (destruct (String.eqb metric_name _); [reflexivity |]).
    apply isascii_default, Hascii.
  - generalize dependent (_normalize_metric_name metric_name). intros s Hs.
    unfold _normalize_metric_name.
    rewrite !(plain_differs s _ _ Hs) by reflexivity.
    apply plain_default_fixed, Hs.
Qed.

(** A name of the catalog, which has a table entry, and a name that takes
    the default path. *)
Lemma _normalize_metric_name_idempotent_witness :
  (PyStr.isascii (_normalize_metric_name "US 10-Year Yield") = true
   /\ plain (_normalize_metric_name "US 10-Year Yield") = true
   /\ _normalize_metric_name (_normalize_metric_name "US 10-Year Yield")
      = _normalize_metric_name "US 10-Year Yield")
  /\ (PyStr.isascii (_normalize_metric_name "Silver Price USD") = true
      /\ plain (_normalize_metric_name "Silver Price USD") = true
      /\ _normalize_metric_name (_normalize_metric_name "Silver Price USD")
         = _normalize_metric_name "Silver Price USD")
  /\ _normalize_metric_name "Silver Price USD" = "silver_price_usd".
Proof.
  split; [| split].
  - apply (_normalize_metric_name_idempotent "US 10-Year Yield"). reflexivity.
  - apply (_normalize_metric_name_idempotent "Silver Price USD"). reflexivity.
  - reflexivity.
Defined.

(** The menu and the catalog agree: the items 1 to 14 are the names of the
    catalog in its order, the names are distinct, and so are their
    normalized names.  Whatever number is entered, the choice is no
    IndexError, and a text it returns is a command of the menu or a name of
    the catalog.  The number 18 passes the range test and names nothing. *)
Theorem menu_matches_catalog (w : World) :
  map choice_text [1; 2; 3; 4; 5; 6; 7; 8; 9; 10; 11; 12; 13; 14]%Z
  = map (fun d => Ok (Some (fst d))) (get_metric_definitions w)
  /\ NoDup (map fst (get_metric_definitions w))
  /\ NoDup (map (fun d => _normalize_metric_name (fst d)) (get_metric_definitions w))
  /\ (forall n, exists r, choice_text n = Ok r)
  /\ (forall n text,
         choice_text n = Ok (Some text) ->
         In text menu_commands \/ In text (map fst (get_metric_definitions w)))
  /\ choice_text 18 = Ok None.
Proof.
  assert (Hcases : forall n : Z,
             andb (1 <=? n)%Z (n <=? 18)%Z = true ->
             In n [1; 2; 3; 4; 5; 6; 7; 8; 9; 10; 11; 12; 13; 14; 15; 16; 17; 18]%Z).
  { intros n H. apply andb_prop in H. destruct H as [H1 H2].
    apply Z.leb_le in H1, H2. cbn [In].
    assert (n = 1 \/ n = 2 \/ n = 3 \/ n = 4 \/ n = 5 \/ n = 6 \/ n = 7 \/ n = 8
            \/ n = 9 \/ n = 10 \/ n = 11 \/ n = 12 \/ n = 13 \/ n = 14 \/ n = 15
            \/ n = 16 \/ n = 17 \/ n = 18)%Z by lia.
    intuition auto. }
  split; [reflexivity |]. split; [| split; [| split; [| split]]].
  - cbn. repeat constructor; cbn; intuition discriminate.
  - cbn. repeat constructor; cbn; intuition discriminate.
  - intros n. unfold choice_text.
    destruct (andb (1 <=? n)%Z (n <=? 18)%Z) eqn:Hr; [| eexists; reflexivity].
    apply Hcases in Hr. cbn [In] in Hr.
    repeat (destruct Hr as [<- | Hr]; [eexists; reflexivity |]). destruct Hr.
  - intros n text. unfold choice_text.
    destruct (andb (1 <=? n)%Z (n <=? 18)%Z) eqn:Hr; [| discriminate].
    apply Hcases in Hr. cbn [In] in Hr.
    repeat (destruct Hr as [<- | Hr];
            [intros [= <-]; cbn; tauto |]).
    destruct Hr.
  - reflexivity.
Qed.

End Names.

(** ** The metadata of exported rows *)

Section RowMetadata.

Import PyDictFacts.

Variable w : World.

Lemma in_remove (x k : string) (v : PyVal) (d : Dict) :
  NoDup (PyDict.keys d) ->
  In (k, v) (PyDict.remove x d) -> k <> x /\ In (k, v) d.
Proof.
  induction d as [| [k' v'] d IH]; cbn [PyDict.remove PyDict.keys map fst];
    [intros _ [] |].
  intros Hnd Hin. inversion Hnd as [| ? ? Hnotin Hnd']; subst.
  destruct (String.eqb_spec x k') as [-> | Hne].
  - split; [| right; exact Hin]. intros ->. apply Hnotin.
    apply (in_map fst) in Hin. exact Hin.
  - destruct Hin as [E | Hin].
    + injection E as <- <-. split; [congruence | left; reflexivity].
    + destruct (IH Hnd' Hin) as [H1 H2]. split; [exact H1 | right; exact H2].
Qed.

Lemma nodup_remove (x : string) (d : Dict) :
  NoDup (PyDict.keys d) -> NoDup (PyDict.keys (PyDict.remove x d)).
Proof.
  induction d as [| [k' v'] d IH]; cbn [PyDict.remove PyDict.keys map fst];
    [auto |].
  intros Hnd. inversion Hnd as [| ? ? Hnotin Hnd']; subst.
  destruct (String.eqb x k'); [exact Hnd' |].
  cbn [PyDict.keys map fst]. constructor; [| apply IH, Hnd'].
  intros Hin. apply Hnotin. unfold PyDict.keys in *.
  apply in_map_iff in Hin. destruct Hin as [[k v] [E Hin]]. cbn in E. subst.
  assert (Hd : NoDup (PyDict.keys d)) by exact Hnd'.
  destruct (in_remove x k' v d Hd Hin) as [_ Hin'].
  apply (in_map fst) in Hin'. exact Hin'.
Qed.

Lemma get_remove_other (x k : string) (d : Dict) :
  k <> x -> PyDict.get k (PyDict.remove x d) = PyDict.get k d.
Proof.
  intros Hne. induction d as [| [k' v'] d IH]; [reflexivity |].
  cbn [PyDict.remove PyDict.get].
  destruct (String.eqb_spec x k') as [<- | Hx].
  - destruct (String.eqb_spec k x); [contradiction | reflexivity].
  - cbn [PyDict.get]. rewrite IH. reflexivity.
Qed.

Lemma joined_is_no_metadata (k sk : string) :
  (k ++ "_" ++ sk)%string <> "timestamp" /\ (k ++ "_" ++ sk)%string <> "source".
Proof.
  split; intros H.
  - do 9 (destruct k as [| ? k]; cbn in H;
          [discriminate H | injection H as ? H]).
    destruct k; discriminate H.
  - do 6 (destruct k as [| ? k]; cbn in H;
          [discriminate H | injection H as ? H]).
    destruct k; discriminate H.
Qed.

(** Every row of a record carries the metric name, the record's timestamp
    and source, and the time of the export; a record without timestamp is
    dated today, one without source has the source 'Unknown'; and the
    timestamp and the source never become rows of their own. *)
Theorem flatten_rows_carry_metadata (metric_name : string) (data : Dict)
    (row : Row) :
  In row (flatten w metric_name data) ->
  metric row = metric_name
  /\ retrieval_time row = now_stamp w
  /\ timestamp row = match PyDict.get "timestamp" data with
                     | Some t => t
                     | None => VStr (today w)
                     end
  /\ source row = match PyDict.get "source" data with
                  | Some s => s
                  | None => VStr "Unknown"
                  end
  /\ (NoDup (PyDict.keys data) ->
      sub_metric row <> "timestamp" /\ sub_metric row <> "source").
Proof.
  intros Hin.
  assert (Hsrc : source_of data = match PyDict.get "source" data with
                                  | Some s => s
                                  | None => VStr "Unknown"
                                  end).
  { unfold source_of. rewrite get_remove_other by discriminate. reflexivity. }
  rewrite <- Hsrc. fold (timestamp_of w data).
  rewrite flatten_unfold in Hin. unfold rows_of in Hin.
  destruct (andb (length (body_of data) =? 1)%nat
                 (PyDict.contains "value" (body_of data))).
  - destruct (PyDict.get "value" (body_of data)); [| destruct Hin].
    destruct Hin as [<- | []]. cbn.
    do 4 (split; [reflexivity |]). intros _. split; discriminate.
  - apply in_flat_map in Hin. destruct Hin as [[k v] [Hkv Hrow]].
    cbn [fst snd] in Hrow.
    assert (Hkey : NoDup (PyDict.keys data) -> k <> "timestamp" /\ k <> "source").
    { intros Hnd. unfold body_of in Hkv.
      destruct (in_remove "source" k v _ (nodup_remove "timestamp" data Hnd) Hkv)
        as [H1 Hkv'].
      destruct (in_remove "timestamp" k v data Hnd Hkv') as [H2 _].
      split; assumption. }
    destruct v as [| x | s | iso | d].
    5: { apply in_map_iff in Hrow. destruct Hrow as [[sk sv] [<- _]]. cbn.
         do 4 (split; [reflexivity |]). intros _. apply joined_is_no_metadata. }
    all: destruct Hrow as [<- | []]; cbn;
      do 4 (split; [reflexivity |]); exact Hkey.
Qed.

End RowMetadata.

(** ** Witnesses *)

Lemma get_metric_by_name_exports_record_witness :
  exists record lg',
    get_metric_by_name dead_world "US GDP"
      (mkState (Some "metrics.csv") false [] None)
    = (Ok record,
       mkState (Some "metrics.csv") true lg'
         (Some (Header :: map Data (flatten dead_world "US GDP" record))))
    /\ outcome (get_metric_by_name dead_world "US GDP") idle = Ok record
    /\ PyDict.get "source" record = Some (VStr "FRED - Bureau of Economic Analysis").
Proof.
  exact (get_metric_by_name_exports_record dead_world "US GDP"
           (get_gdp_metrics dead_world) "FRED - Bureau of Economic Analysis"
           (Some "metrics.csv") false [] None eq_refl eq_refl eq_refl).
Defined.

Lemma scalar_record_dated_today_witness :
  exists v source,
    outcome (get_metric_by_name cpi_world "US Inflation Rate") idle
    = Ok [("value", v); ("timestamp", VStr "2024-03-01"); ("source", VStr source)]
    /\ isinstance_dict v = false.
Proof.
  apply (scalar_record_dated_today cpi_world "US Inflation Rate" idle).
  cbn. tauto.
Defined.

Lemma export_disabled_never_writes_witness :
  new_instance dead_world None (Some [Header]) = mkState None false [] (Some [Header])
  /\ run_exports two_exports (new_instance dead_world (Some "") (Some [Header]))
     = new_instance dead_world (Some "") (Some [Header])
  /\ sink (snd (get_metric_by_name dead_world "Gold Price"
                  (new_instance dead_world None (Some [Header]))))
     = Some [Header]
  /\ new_instance no_directory_world (Some "out/metrics.csv") None
     = mkState None false
         [mkLog ERROR
            "Error initializing CSV export: [Errno 13] Permission denied"] None
  /\ run_exports two_exports
       (new_instance no_directory_world (Some "out/metrics.csv") None)
     = new_instance no_directory_world (Some "out/metrics.csv") None
  /\ sink (snd (get_metric_by_name dead_world "Gold Price"
                  (new_instance no_directory_world (Some "out/metrics.csv") None)))
     = None.
Proof.
  split; [| split; [| split; [| split; [| split]]]].
  - apply (proj1 (export_disabled_never_writes dead_world None (Some [Header]))
             eq_refl).
  - apply (proj1 (export_disabled_never_writes dead_world (Some "") (Some [Header]))
             eq_refl).
  - apply (proj2 (proj2 (proj1 (export_disabled_never_writes dead_world None
                                  (Some [Header])) eq_refl))
             dead_world "Gold Price" (get_gold_price dead_world)
             "Yahoo Finance - Gold Futures (GC=F)").
    reflexivity.
  - apply (proj2 (export_disabled_never_writes no_directory_world
                    (Some "out/metrics.csv") None) disk_error eq_refl eq_refl).
  - apply (proj2 (export_disabled_never_writes no_directory_world
                    (Some "out/metrics.csv") None) disk_error eq_refl eq_refl).
  - apply (proj2 (proj2 (proj2 (export_disabled_never_writes no_directory_world
                                  (Some "out/metrics.csv") None)
                           disk_error eq_refl eq_refl))
             dead_world "Gold Price" (get_gold_price dead_world)
             "Yahoo Finance - Gold Futures (GC=F)").
    reflexivity.
Defined.

Lemma export_all_metrics_to_csv_sink_witness :
  (exists rows,
      sink (export_all_metrics_to_csv dead_world "all.csv" None)
      = Some (Header :: map Data rows)
      /\ length rows = 18%nat)
  /\ sink (export_all_metrics_to_csv dead_world "" None) = None.
Proof.
  split.
  - eexists. split.
    + apply (proj1 (export_all_metrics_to_csv_sink dead_world "all.csv" None)).
      * discriminate.
      * reflexivity.
      * reflexivity.
    + reflexivity.
  - apply (proj2 (export_all_metrics_to_csv_sink dead_world "" None)).
    reflexivity.
Defined.

Lemma menu_matches_catalog_witness :
  In "US GDP" menu_commands
  \/ In "US GDP" (map fst (get_metric_definitions dead_world)).
Proof.
  apply (proj1 (proj2 (proj2 (proj2 (proj2 (menu_matches_catalog dead_world)))))
           5%Z "US GDP").
  reflexivity.
Defined.

Lemma flatten_rows_carry_metadata_witness :
  metric (mkRow "US GDP" "gdp_growth" (VFloat 2.5%float) (VStr "2023-10-01")
            (VStr "FRED - Bureau of Economic Analysis") "2024-03-01 09:30:00")
  = "US GDP"
  /\ sub_metric (mkRow "US GDP" "gdp_growth" (VFloat 2.5%float) (VStr "2023-10-01")
                   (VStr "FRED - Bureau of Economic Analysis") "2024-03-01 09:30:00")
     <> "timestamp".
Proof.
  pose proof (flatten_rows_carry_metadata dead_world "US GDP" gdp_record
                (mkRow "US GDP" "gdp_growth" (VFloat 2.5%float) (VStr "2023-10-01")
                   (VStr "FRED - Bureau of Economic Analysis") "2024-03-01 09:30:00"))
    as H.
  destruct H as (Hm & _ & _ & _ & Hsub).
  - cbn. tauto.
  - split; [exact Hm |]. apply Hsub. cbn. repeat constructor; cbn; intuition discriminate.
Defined.

(** ** Colliding keys, GDP, asset prices *)

Section Collisions.

Import PyDictFacts.

Lemma get_update_all_same (k : string) (v : PyVal) (d : Dict) :
  NoDup (PyDict.keys d) ->
  PyDict.get k d = Some v ->
  forall m, PyDict.get k (update_all d m) = Some v.
Proof.
  induction d as [| [k' v'] d IH]; [discriminate |].
  intros Hnd Hget m. inversion Hnd as [| ? ? Hnotin Hnd']; subst.
  change (update_all ((k', v') :: d) m) with (update_all d (PyDict.set k' v' m)).
  cbn [PyDict.get] in Hget.
  destruct (String.eqb_spec k k') as [-> | Hne].
  - injection Hget as ->.
    assert (Hc : PyDict.contains k' d = false).
    { destruct (PyDict.contains k' d) eqn:E; [| reflexivity].
      apply contains_keys in E. contradiction. }
    rewrite (get_update_all_other k' d (PyDict.set k' v m) Hc).
    apply get_set_same.
  - apply (IH Hnd' Hget).
Qed.

(** When indicators enter the mapping under the same sub-key, the one that
    is later in the catalog wins: whatever the earlier ones left under the
    key, the mapping holds the value of the last group that has it. *)
Theorem later_indicator_wins (pre post : Definitions) (name : string)
    (func : M PyVal) (src : string) (d : Dict) (k : string) (v : PyVal)
    (st : State) :
  name <> "US All Metrics" ->
  (forall s, outcome func s = Ok (VDict d)) ->
  NoDup (PyDict.keys d) ->
  PyDict.contains "value" d = false ->
  PyDict.get k d = Some v ->
  (forall e s, In e post ->
     fst e = "US All Metrics"
     \/ ~ In k (normalized_keys (fst e) (outcome (fst (snd e)) s))) ->
  exists m st',
    get_all_metrics_over (pre ++ (name, (func, src)) :: post) st
    = (Ok (VDict m), st')
    /\ PyDict.get k m = Some v.
Proof.
  intros Hne Hfunc Hnd Hnoval Hget Hpost. unfold get_all_metrics_over, bind.
  destruct (all_metrics_loop_app pre ((name, (func, src)) :: post) [] st)
    as (m1 & s1 & _ & ->).
  cbn [all_metrics_loop]. unfold bind.
  destruct (all_metrics_step_outcome name func m1 s1 Hne) as [s2 ->].
  rewrite Hfunc. cbn [merge_outcome]. rewrite Hnoval.
  destruct (all_metrics_loop_total post (update_all d m1) s2)
    as (m & st' & Hrun & _).
  rewrite Hrun. exists m, st'. split; [reflexivity |].
  rewrite (all_metrics_loop_get_other _ _ Hpost _ _ _ _ Hrun).
  apply get_update_all_same; assumption.
Qed.

End Collisions.

Section GdpAndAssets.

#[local] Open Scope float_scope.

Variable w : World.

(** GDP and its growth are all or nothing: when either series is absent or
    empty, both entries are None, also the one whose series FRED has. *)
Theorem get_gdp_metrics_all_or_nothing (st : State) :
  (absent_or_empty (fred_get_series w "GDP") = true
   \/ absent_or_empty (fred_get_series w "A191RL1Q225SBEA") = true ->
   outcome (get_gdp_metrics w) st
   = Ok (VDict [("gdp", VNone); ("gdp_growth", VNone)]))
  /\
  (forall s1 d1 gdp s2 d2 growth,
      fred_get_series w "GDP" = Ok (s1 ++ [(d1, gdp)]) ->
      fred_get_series w "A191RL1Q225SBEA" = Ok (s2 ++ [(d2, growth)]) ->
      outcome (get_gdp_metrics w) st
      = Ok (VDict [("gdp", VFloat gdp); ("gdp_growth", VFloat growth)])).
Proof.
  split.
  - intros H. unfold get_gdp_metrics, _safe_get_fred_series. run.
    destruct (fred_get_series w "GDP") as [[| b bs] | e1];
      destruct (fred_get_series w "A191RL1Q225SBEA") as [[| t ts] | e2];
      simpl in *; try reflexivity.
    destruct H; discriminate.
  - intros s1 d1 gdp s2 d2 growth Hgdp Hgrowth.
    unfold outcome, get_gdp_metrics, try_except, bind.
    rewrite (safe_fred_ok _ _ _ _ Hgdp), (safe_fred_ok _ _ _ _ Hgrowth).
    rewrite !empty_app_last. cbn [orb]. rewrite !iloc_last. reflexivity.
Qed.

(** The three asset prices in one call: never an exception, and under
    gold_price, bitcoin_price and wti_crude_price what the three single
    calls return. *)
Theorem get_asset_prices_collects (st : State) :
  exists gold bitcoin wti,
    outcome (get_gold_price w) st = Ok gold
    /\ outcome (get_bitcoin_price w) st = Ok bitcoin
    /\ outcome (get_wti_crude_price w) st = Ok wti
    /\ outcome (get_asset_prices w) st
       = Ok (VDict [("gold_price", gold); ("bitcoin_price", bitcoin);
                    ("wti_crude_price", wti)]).
Proof.
  assert (Hprice : forall symbol name unit,
             never_raises (get_asset_price w symbol name unit)).
  { intros. unfold get_asset_price. apply never_raises_try. intros e.
    apply never_raises_log_error. }
  destruct st as [p hw lg snk].
  destruct (behaves_run (get_asset_price w "GC=F" "Gold" "per troy ounce")
              p hw lg snk (Hprice _ _ _) (log_only_asset_price w _ _ _)
              (stateless_asset_price w _ _ _)) as (gold & lg1 & Hr1 & Hg).
  destruct (behaves_run (get_asset_price w "BTC-USD" "Bitcoin" "")
              p hw lg1 snk (Hprice _ _ _) (log_only_asset_price w _ _ _)
              (stateless_asset_price w _ _ _)) as (bitcoin & lg2 & Hr2 & Hb).
  destruct (behaves_run (get_asset_price w "CL=F" "WTI Crude Oil" "per barrel")
              p hw lg2 snk (Hprice _ _ _) (log_only_asset_price w _ _ _)
              (stateless_asset_price w _ _ _)) as (wti & lg3 & Hr3 & Hw).
  exists gold, bitcoin, wti.
  split; [apply Hg |]. split; [apply Hb |]. split; [apply Hw |].
  unfold outcome, get_asset_prices, bind. rewrite Hr1, Hr2, Hr3. reflexivity.
Qed.

End GdpAndAssets.

Lemma later_indicator_wins_witness :
  exists m st',
    get_all_metrics_over
      [("US GDP", (ret (VDict [("gdp", VFloat 1%float)]), "first"));
       ("Second GDP", (ret (VDict [("gdp", VFloat 2%float)]), "second"));
       ("Gold Price", (get_gold_price dead_world, "third"))] idle
    = (Ok (VDict m), st')
    /\ PyDict.get "gdp" m = Some (VFloat 2%float).
Proof.
  apply (later_indicator_wins
           [("US GDP", (ret (VDict [("gdp", VFloat 1%float)]), "first"))]
           [("Gold Price", (get_gold_price dead_world, "third"))]
           "Second GDP" (ret (VDict [("gdp", VFloat 2%float)])) "second"
           [("gdp", VFloat 2%float)] "gdp" (VFloat 2%float) idle).
  - discriminate.
  - reflexivity.
  - repeat constructor. intros [].
  - reflexivity.
  - reflexivity.
  - intros e s [<- | []]. right. cbn. intros [H | []]. discriminate.
Defined.

Lemma get_gdp_metrics_all_or_nothing_witness :
  outcome (get_gdp_metrics debt_gdp_world) idle
  = Ok (VDict [("gdp", VNone); ("gdp_growth", VNone)])
  /\ outcome (get_gdp_metrics
                (with_fred (fun _ => Ok (observations [3%float])) dead_world)) idle
     = Ok (VDict [("gdp", VFloat 3%float); ("gdp_growth", VFloat 3%float)]).
Proof.
  split.
  - apply (proj1 (get_gdp_metrics_all_or_nothing debt_gdp_world idle)).
    right. reflexivity.
  - apply (proj2 (get_gdp_metrics_all_or_nothing
                    (with_fred (fun _ => Ok (observations [3%float])) dead_world)
                    idle)
             [] "2023-01-01" 3%float [] "2023-01-01" 3%float eq_refl eq_refl).
Defined.
